(** * HRS payroll engine: calculator and period processor

    A shallow embedding of [backend/payroll/services/calculator.py],
    [backend/payroll/services/processor.py] and the model methods they call
    ([backend/payroll/models.py], [backend/employees/models.py]).

    Modelling conventions.
    - [decimal.Decimal] values are exact rationals in canonical form ([Qc]),
      so that Python's numeric equality of decimals is Leibniz equality.  The
      arithmetic of the sources stays far below the 28 significant digits of
      the default decimal context (amounts have at most 12 digits, rates at
      most 5), hence it is exact; NaN and infinities are not represented.
    - A Python [dict] is an association list in insertion order; assigning
      to an existing key replaces the value in place.
    - A Python [float] is a binary64 number, a finite one given by its
      exact value; [float(x)] of a decimal is the nearest such number.
    - Code that raises is embedded in a state-and-exception monad; the state
      is the in-memory period object of the processor together with the
      database tables, and [transaction_atomic] restores the tables when the
      wrapped block raises.
    - Logging has no effect on any value and is left out. *)

From Stdlib Require Import ZArith QArith Qcanon Qround List String Ascii Bool Lia Lqa.
From Stdlib Require Import DecimalString Permutation.
Import ListNotations.

Set Implicit Arguments.

(* ================================================================== *)
(** ** Decimals *)

Definition Decimal : Set := Qc.

Module Dec.

(** [dec n d] is the decimal [n / d]; [of_Z n] the integer [n]. *)
Definition dec (n : Z) (d : positive) : Decimal := Q2Qc (n # d).
Definition of_Z (n : Z) : Decimal := Q2Qc (inject_Z n).
Definition zero : Decimal := of_Z 0.

Definition add (x y : Decimal) : Decimal := (x + y)%Qc.
Definition sub (x y : Decimal) : Decimal := (x - y)%Qc.
Definition mul (x y : Decimal) : Decimal := (x * y)%Qc.
Definition neg (x : Decimal) : Decimal := (- x)%Qc.

Definition le (x y : Decimal) : Prop := (x <= y)%Qc.
Definition lt (x y : Decimal) : Prop := (x < y)%Qc.

(** Python's [x <= y], [x < y] and [x > y] on decimals. *)
Definition leb (x y : Decimal) : bool := Qle_bool x y.
Definition ltb (x y : Decimal) : bool := negb (Qle_bool y x).
Definition gtb (x y : Decimal) : bool := ltb y x.

(** Python's builtin [min(a, b)] and [max(a, b)]: the first argument is
    kept unless the second one is strictly smaller (resp. larger). *)
Definition min (a b : Decimal) : Decimal := if ltb b a then b else a.
Definition max (a b : Decimal) : Decimal := if gtb b a then b else a.

(** [value.quantize(Decimal('0.01'), rounding=ROUND_HALF_UP)]: nearest
    multiple of 0.01, ties away from zero. *)
Definition quantize_half_up (value : Decimal) : Decimal :=
  if leb zero value
  then Q2Qc (Qfloor (value * dec 100 1 + dec 1 2)%Qc # 100)
  else neg (Q2Qc (Qfloor (neg value * dec 100 1 + dec 1 2)%Qc # 100)).

(** Python's [sum(...)] of decimals, starting from 0. *)
Definition sum (l : list Decimal) : Decimal := fold_left add l zero.

(** A value with at most two decimal places. *)
Definition is_cents (x : Decimal) : Prop := exists n : Z, x = dec n 100.

End Dec.

Declare Scope decimal_scope.
Delimit Scope decimal_scope with dec.
Bind Scope decimal_scope with Decimal.
Infix "+" := Dec.add : decimal_scope.
Infix "-" := Dec.sub : decimal_scope.
Infix "*" := Dec.mul : decimal_scope.
Infix "<=" := Dec.le : decimal_scope.
Infix "<" := Dec.lt : decimal_scope.
Infix "<=?" := Dec.leb (at level 70) : decimal_scope.
Infix "<?" := Dec.ltb (at level 70) : decimal_scope.
Infix ">?" := Dec.gtb (at level 70) : decimal_scope.
Notation "0" := Dec.zero : decimal_scope.

(* ================================================================== *)
(** ** The Python runtime: exceptions, results, dictionaries, strings *)

Module Py.

Inductive Exception : Set :=
| NameError (name : string)
| ValueError (message : string)
| IndexError (message : string)
| MultipleObjectsReturned.

Inductive Result (A : Type) : Type :=
| Ok (value : A)
| Raise (exc : Exception).
Arguments Ok {A} value.
Arguments Raise {A} exc.

(** Dictionaries keyed by strings, in insertion order. *)
Definition Dict (V : Type) : Type := list (string * V).

(** [float]: an IEEE 754 binary64 number, a finite one given by its exact
    value; no NaN arises from a decimal, and the sign of a zero is not
    kept. *)
Inductive float : Set :=
| Finite (value : Decimal)
| Infinity (negative : bool).

(** [num / den] rounded to an integer, a tie to the even one. *)
Definition nearest_even (num den : Z) : Z :=
  let q := (num / den)%Z in
  let r := (num mod den)%Z in
  if (2 * r <? den)%Z then q
  else if (2 * r =? den)%Z then (if Z.even q then q else q + 1)%Z
  else (q + 1)%Z.

(** The binary64 number nearest to [n / d], for [n > 0]: with
    [2^e <= n / d < 2^(e+1)], the spacing of the numbers there is [2^p]
    for [p = max(e, -1022) - 52], and the result is the nearest multiple
    [m * 2^p], an infinity from [2^1024] on. *)
Definition binary64 (n : Z) (d : positive) : float :=
  let e0 := (Z.log2 n - Z.log2 (Zpos d))%Z in
  let e :=
    if (Zpos d * 2 ^ Z.max 0 e0 <=? n * 2 ^ Z.max 0 (- e0))%Z
    then e0 else (e0 - 1)%Z in
  let p := (Z.max e (-1022) - 52)%Z in
  let m := nearest_even (n * 2 ^ Z.max 0 (- p)) (Zpos d * 2 ^ Z.max 0 p) in
  if (2 ^ 1024 <=? m * 2 ^ Z.max 0 p)%Z then Infinity false
  else Finite (Q2Qc ((m * 2 ^ Z.max 0 p) # Z.to_pos (2 ^ Z.max 0 (- p)))).

Definition float_neg (x : float) : float :=
  match x with
  | Finite v => Finite (Dec.neg v)
  | Infinity s => Infinity (negb s)
  end.

(** [float(x)] for a decimal [x]: the nearest binary64 number. *)
Definition float_of_decimal (x : Decimal) : float :=
  match Qnum (this x) with
  | Z0 => Finite x
  | Zpos n => binary64 (Zpos n) (Qden (this x))
  | Zneg n => float_neg (binary64 (Zpos n) (Qden (this x)))
  end.

Fixpoint dict_get {V} (d : Dict V) (k : string) : option V :=
  match d with
  | [] => None
  | (k', v) :: rest => if String.eqb k' k then Some v else dict_get rest k
  end.

(** [d[k] = v] *)
Fixpoint dict_set {V} (d : Dict V) (k : string) (v : V) : Dict V :=
  match d with
  | [] => [(k, v)]
  | (k', v') :: rest =>
      if String.eqb k' k then (k', v) :: rest
      else (k', v') :: dict_set rest k v
  end.


(** [a or b] on strings: the empty string is falsy. *)
Definition str_or (a b : string) : string :=
  match a with EmptyString => b | _ => a end.

(** ASCII whitespace as recognised by [str.strip()]. *)
Definition is_space (c : ascii) : bool :=
  let n := nat_of_ascii c in
  ((9 <=? n) && (n <=? 13) || (28 <=? n) && (n <=? 32))%nat.

Fixpoint lstrip (s : string) : string :=
  match s with
  | String c rest => if is_space c then lstrip rest else s
  | EmptyString => EmptyString
  end.

Fixpoint rstrip (s : string) : string :=
  match s with
  | EmptyString => EmptyString
  | String c rest =>
      match rstrip rest with
      | EmptyString => if is_space c then EmptyString else String c EmptyString
      | r => String c r
      end
  end.

Definition strip (s : string) : string := rstrip (lstrip s).

(** [str(n)] for an integer. *)
Definition str_of_int (n : Z) : string := NilZero.string_of_int (Z.to_int n).

(** [l[i]] with Python's negative indices. *)
Definition list_index {A} (l : list A) (i : Z) : Result A :=
  let len := Z.of_nat (List.length l) in
  let j := if (i <? 0)%Z then (i + len)%Z else i in
  if ((0 <=? j) && (j <? len))%Z then
    match nth_error l (Z.to_nat j) with
    | Some x => Ok x
    | None => Raise (IndexError "list index out of range")
    end
  else Raise (IndexError "list index out of range").

(** Names bound in a module's global namespace. *)
Definition Globals : Set := list string.

Definition is_bound (g : Globals) (name : string) : bool :=
  existsb (String.eqb name) g.

End Py.

Import Py.
Open Scope string_scope.

(* ================================================================== *)
(** ** services/calculator.py *)

Module Calculator.

Local Open Scope decimal_scope.

(** Keys of the tax configuration dictionary. *)
Inductive ConfigKey : Set :=
| band_1_limit | band_1_rate
| band_2_limit | band_2_rate
| band_3_limit | band_3_rate
| band_4_limit | band_4_rate
| band_5_rate
| personal_relief | insurance_relief_rate | insurance_relief_max
| disability_exemption
| nssf_tier1_limit | nssf_tier1_rate | nssf_tier2_limit | nssf_tier2_rate
| sha_rate
| housing_levy_rate
| pension_max_deduction | mortgage_interest_max.

(** A configuration dictionary as passed to the constructor (keys may be
    missing), and the merged configuration held by a calculator. *)
Definition ConfigDict : Set := ConfigKey -> option Decimal.
Definition Config : Set := ConfigKey -> Decimal.

Definition DEFAULT_CONFIG : Config := fun key =>
  match key with
  | band_1_limit => Dec.of_Z 24000
  | band_1_rate => Dec.dec 10 100
  | band_2_limit => Dec.of_Z 32333
  | band_2_rate => Dec.dec 25 100
  | band_3_limit => Dec.of_Z 500000
  | band_3_rate => Dec.dec 30 100
  | band_4_limit => Dec.of_Z 800000
  | band_4_rate => Dec.dec 325 1000
  | band_5_rate => Dec.dec 35 100
  | personal_relief => Dec.of_Z 2400
  | insurance_relief_rate => Dec.dec 15 100
  | insurance_relief_max => Dec.of_Z 5000
  | disability_exemption => Dec.of_Z 150000
  | nssf_tier1_limit => Dec.of_Z 7000
  | nssf_tier1_rate => Dec.dec 6 100
  | nssf_tier2_limit => Dec.of_Z 36000
  | nssf_tier2_rate => Dec.dec 6 100
  | sha_rate => Dec.dec 275 10000
  | housing_levy_rate => Dec.dec 15 1000
  | pension_max_deduction => Dec.of_Z 20000
  | mortgage_interest_max => Dec.of_Z 25000
  end.

Record PayrollCalculator : Set := { config : Config }.

(** [__init__]: [self.config = {**DEFAULT_CONFIG, **(config or {})}] *)
Definition init (config : option ConfigDict) : PayrollCalculator :=
  let given : ConfigDict :=
    match config with Some c => c | None => fun _ => None end in
  {| config := fun key =>
       match given key with Some v => v | None => DEFAULT_CONFIG key end |}.

(** Items of the [allowances] and [deductions] arguments; [.get] supplies
    a default for a missing key.  Amounts arrive as numbers and are read
    with [Decimal(str(x))], which preserves the value. *)
Record AllowanceItem : Set :=
  { a_amount : option Decimal; a_taxable : option bool }.
Record DeductionItem : Set :=
  { d_amount : option Decimal; d_type : option string }.

(** Items of the breakdowns of the result: the amount is stored as
    [float(amount)]. *)
Record AllowanceDetail : Set :=
  { detail_amount : float; detail_taxable : bool }.
Record DeductionDetail : Set :=
  { detail_deducted : float; detail_type : string }.

Record PayrollResult : Type :=
  { basic_salary : Decimal;
    taxable_allowances : Decimal;
    non_taxable_allowances : Decimal;
    gross_pay : Decimal;
    pension_contribution : Decimal;
    pension_deductible : Decimal;
    owner_occupied_interest : Decimal;
    taxable_income : Decimal;
    tax_charged : Decimal;
    r_personal_relief : Decimal;
    insurance_relief : Decimal;
    r_disability_exemption : Decimal;
    paye : Decimal;
    nssf : Decimal;
    sha : Decimal;
    housing_levy : Decimal;
    loan_deductions : Decimal;
    sacco_deductions : Decimal;
    other_deductions : Decimal;
    total_deductions : Decimal;
    net_pay : Decimal;
    allowance_details : Dict AllowanceDetail;
    deduction_details : Dict DeductionDetail }.

Section Methods.

Variable self : PayrollCalculator.

Definition _round (value : Decimal) : Decimal :=
  Dec.quantize_half_up value.

Definition calculate_nssf (gross_pay : Decimal) : Decimal :=
  let tier1_limit := config self nssf_tier1_limit in
  let tier1_rate := config self nssf_tier1_rate in
  let tier2_limit := config self nssf_tier2_limit in
  let tier2_rate := config self nssf_tier2_rate in
  let tier1_pensionable := Dec.min gross_pay tier1_limit in
  let tier1_contribution := _round (tier1_pensionable * tier1_rate) in
  let tier2_contribution :=
    if gross_pay >? tier1_limit then
      let tier2_pensionable := Dec.min gross_pay tier2_limit - tier1_limit in
      _round (tier2_pensionable * tier2_rate)
    else 0 in
  tier1_contribution + tier2_contribution.

Definition calculate_sha (gross_pay : Decimal) : Decimal :=
  _round (gross_pay * config self sha_rate).

Definition calculate_housing_levy (gross_pay : Decimal) : Decimal :=
  _round (gross_pay * config self housing_levy_rate).

(** The list [bands] built by [calculate_tax]; [None] is the missing
    upper limit of the top band. *)
Definition bands : list (option Decimal * Decimal) :=
  [ (Some (config self band_1_limit), config self band_1_rate);
    (Some (config self band_2_limit), config self band_2_rate);
    (Some (config self band_3_limit), config self band_3_rate);
    (Some (config self band_4_limit), config self band_4_rate);
    (None, config self band_5_rate) ].

(** The [for limit, rate in bands] loop, on the remaining bands and the
    loop variables [tax], [remaining] and [previous_limit]. *)
Fixpoint tax_loop (bs : list (option Decimal * Decimal))
         (tax remaining previous_limit : Decimal) : Decimal :=
  match bs with
  | [] => tax
  | (limit, rate) :: rest =>
      if remaining <=? 0 then tax (* break *)
      else
        let band_income :=
          match limit with
          | None => remaining
          | Some l => Dec.min remaining (l - previous_limit)
          end in
        let band_tax := _round (band_income * rate) in
        tax_loop rest (tax + band_tax) (remaining - band_income)
                 (match limit with
                  | Some l => l
                  | None => previous_limit
                  end)
  end.

Definition calculate_tax (taxable_income : Decimal) : Decimal :=
  if taxable_income <=? 0 then 0
  else tax_loop bands 0 taxable_income 0.

Definition calculate_insurance_relief (insurance_premium : Decimal) : Decimal :=
  let relief := _round (insurance_premium * config self insurance_relief_rate) in
  let max_relief := config self insurance_relief_max in
  Dec.min relief max_relief.

(** Step 1 of [calculate]: the loop over [allowances.items()], on the
    variables [taxable_allowances], [non_taxable_allowances] and
    [allowance_details]. *)
Definition allowance_step
           (acc : Decimal * Decimal * Dict AllowanceDetail)
           (item : string * AllowanceItem)
  : Decimal * Decimal * Dict AllowanceDetail :=
  let '(taxable_allowances, non_taxable_allowances, allowance_details) := acc in
  let '(name, details) := item in
  let amount := match a_amount details with Some x => x | None => 0 end in
  let is_taxable := match a_taxable details with Some b => b | None => true end in
  let recorded :=
    {| detail_amount := float_of_decimal amount;
       detail_taxable := is_taxable |} in
  if is_taxable
  then (taxable_allowances + amount, non_taxable_allowances,
        dict_set allowance_details name recorded)
  else (taxable_allowances, non_taxable_allowances + amount,
        dict_set allowance_details name recorded).

(** Step 11 of [calculate]: the loop over [deductions.items()], on
    [loan_deductions], [sacco_deductions], [other_deductions_total] and
    [deduction_details]. *)
Definition deduction_step
           (acc : Decimal * Decimal * Decimal * Dict DeductionDetail)
           (item : string * DeductionItem)
  : Decimal * Decimal * Decimal * Dict DeductionDetail :=
  let '(loan_deductions, sacco_deductions, other_deductions_total,
        deduction_details) := acc in
  let '(name, details) := item in
  let amount := match d_amount details with Some x => x | None => 0 end in
  let deduction_type :=
    match d_type details with Some ty => ty | None => "other" end in
  let recorded :=
    {| detail_deducted := float_of_decimal amount;
       detail_type := deduction_type |} in
  if String.eqb deduction_type "loan" then
    (loan_deductions + amount, sacco_deductions, other_deductions_total,
     dict_set deduction_details name recorded)
  else if String.eqb deduction_type "sacco" then
    (loan_deductions, sacco_deductions + amount, other_deductions_total,
     dict_set deduction_details name recorded)
  else
    (loan_deductions, sacco_deductions, other_deductions_total + amount,
     dict_set deduction_details name recorded).

Definition calculate
           (basic_salary : Decimal)
           (allowances : option (Dict AllowanceItem))
           (deductions : option (Dict DeductionItem))
           (pension_contribution : Decimal)
           (mortgage_interest : Decimal)
           (insurance_premium : Decimal)
           (has_disability : bool) : PayrollResult :=
  let allowances := match allowances with Some d => d | None => [] end in
  let deductions := match deductions with Some d => d | None => [] end in
  (* Step 1 *)
  let '(taxable_allowances, non_taxable_allowances, allowance_details) :=
    fold_left allowance_step allowances (0, 0, []) in
  (* Step 2 *)
  let gross_pay := basic_salary + taxable_allowances + non_taxable_allowances in
  (* Step 3 *)
  let nssf := calculate_nssf gross_pay in
  (* Step 4 *)
  let pension_max := config self pension_max_deduction in
  let pension_deductible := Dec.min pension_contribution pension_max in
  (* Step 5 *)
  let mortgage_max := config self mortgage_interest_max in
  let owner_occupied_interest := Dec.min mortgage_interest mortgage_max in
  (* Step 6 *)
  let taxable_income :=
    gross_pay - nssf - pension_deductible - owner_occupied_interest in
  let taxable_income := Dec.max taxable_income 0 in
  (* Step 7 *)
  let tax_charged := calculate_tax taxable_income in
  (* Step 8 *)
  let personal_relief := config self personal_relief in
  let insurance_relief := calculate_insurance_relief insurance_premium in
  let disability_exemption :=
    if has_disability then config self disability_exemption else 0 in
  (* Step 9 *)
  let total_relief := personal_relief + insurance_relief + disability_exemption in
  let paye := Dec.max (tax_charged - total_relief) 0 in
  let paye := _round paye in
  (* Step 10 *)
  let sha := calculate_sha gross_pay in
  let housing_levy := calculate_housing_levy gross_pay in
  (* Step 11 *)
  let '(loan_deductions, sacco_deductions, other_deductions_total,
        deduction_details) :=
    fold_left deduction_step deductions (0, 0, 0, []) in
  (* Step 12 *)
  let total_deductions :=
    paye + nssf + sha + housing_levy + loan_deductions + sacco_deductions
    + other_deductions_total in
  let net_pay := gross_pay - total_deductions in
  let net_pay := _round net_pay in
  {| basic_salary := _round basic_salary;
     taxable_allowances := _round taxable_allowances;
     non_taxable_allowances := _round non_taxable_allowances;
     gross_pay := _round gross_pay;
     pension_contribution := _round pension_contribution;
     pension_deductible := _round pension_deductible;
     owner_occupied_interest := _round owner_occupied_interest;
     taxable_income := _round taxable_income;
     tax_charged := _round tax_charged;
     r_personal_relief := _round personal_relief;
     insurance_relief := _round insurance_relief;
     r_disability_exemption := _round disability_exemption;
     paye := paye;
     nssf := nssf;
     sha := sha;
     housing_levy := housing_levy;
     loan_deductions := _round loan_deductions;
     sacco_deductions := _round sacco_deductions;
     other_deductions := _round other_deductions_total;
     total_deductions := _round total_deductions;
     net_pay := net_pay;
     allowance_details := allowance_details;
     deduction_details := deduction_details |}.

End Methods.

End Calculator.

(* ================================================================== *)
(** ** Dates and the Django ORM *)

Module Orm.

Definition UUID : Set := N.

(** [datetime.date] *)
Record Date : Set := { year : Z; month : Z; day : Z }.

Definition date_leb (a b : Date) : bool :=
  ((year a <? year b)
   || (year a =? year b)
      && ((month a <? month b)
          || (month a =? month b) && (day a <=? day b)))%Z.

Definition is_leap (y : Z) : bool :=
  (((y mod 4 =? 0) && negb (y mod 100 =? 0)) || (y mod 400 =? 0))%Z.

Definition days_in_month (y m : Z) : Z :=
  if (m =? 2)%Z then (if is_leap y then 29 else 28)%Z
  else if ((m =? 4) || (m =? 6) || (m =? 9) || (m =? 11))%Z then 30%Z
  else 31%Z.

(** [datetime.date(year, month, day)] *)
Definition datetime_date (y m d : Z) : Result Date :=
  if negb ((1 <=? y) && (y <=? 9999))%Z
  then Raise (ValueError "year is out of range")
  else if negb ((1 <=? m) && (m <=? 12))%Z
  then Raise (ValueError "month must be in 1..12")
  else if negb ((1 <=? d) && (d <=? days_in_month y m))%Z
  then Raise (ValueError "day is out of range for month")
  else Ok {| year := y; month := m; day := d |}.

(** A point in time, as returned by [timezone.now()]. *)
Definition DateTime : Set := Z.

(** [order_by]: a stable sort of the rows by a key. *)
Fixpoint insert_by {A} (le : A -> A -> bool) (x : A) (l : list A) : list A :=
  match l with
  | [] => [x]
  | y :: l' => if le x y then x :: l else y :: insert_by le x l'
  end.

Definition order_by {A} (le : A -> A -> bool) (l : list A) : list A :=
  fold_right (insert_by le) [] l.

(** [.first()] *)
Definition first {A} (l : list A) : option A := hd_error l.

(** The validity window shared by all the dated queries:
    [effective_from__lte=date] and
    [Q(effective_to__isnull=True) | Q(effective_to__gte=date)]. *)
Definition in_window (effective_from : Date) (effective_to : option Date)
           (date : Date) : bool :=
  date_leb effective_from date
  && match effective_to with
     | None => true
     | Some last => date_leb date last
     end.

End Orm.

Import Orm.

(* ================================================================== *)
(** ** employees/models.py *)

Module EmploymentStatus.
Inductive t : Set := ACTIVE | ON_LEAVE | SUSPENDED | TERMINATED | RESIGNED.
Definition eqb (a b : t) : bool :=
  match a, b with
  | ACTIVE, ACTIVE | ON_LEAVE, ON_LEAVE | SUSPENDED, SUSPENDED
  | TERMINATED, TERMINATED | RESIGNED, RESIGNED => true
  | _, _ => false
  end.
End EmploymentStatus.

Module User.

Record t : Set :=
  { id : UUID;
    first_name : string;
    last_name : string;
    email : string;
    employment_status : EmploymentStatus.t;
    is_active : bool;
    basic_salary : Decimal;
    has_disability : bool }.

Definition get_full_name (self : t) : string :=
  str_or (strip (first_name self ++ " " ++ last_name self)) (email self).

(** [Meta.ordering = ['first_name', 'last_name']] *)
Definition ordering (rows : list t) : list t :=
  order_by (fun a b => String.leb (first_name a) (first_name b))
           (order_by (fun a b => String.leb (last_name a) (last_name b)) rows).

End User.

Module AllowanceType.
Inductive t : Set :=
  HOUSE | TRANSPORT | MEDICAL | AIRTIME | LUNCH | HARDSHIP | RESPONSIBILITY | OTHER.

(** The stored value and the display label of each choice. *)
Definition value (a : t) : string :=
  match a with
  | HOUSE => "house" | TRANSPORT => "transport" | MEDICAL => "medical"
  | AIRTIME => "airtime" | LUNCH => "lunch" | HARDSHIP => "hardship"
  | RESPONSIBILITY => "responsibility" | OTHER => "other"
  end.

Definition label (a : t) : string :=
  match a with
  | HOUSE => "House Allowance" | TRANSPORT => "Transport Allowance"
  | MEDICAL => "Medical Allowance" | AIRTIME => "Airtime Allowance"
  | LUNCH => "Lunch Allowance" | HARDSHIP => "Hardship Allowance"
  | RESPONSIBILITY => "Responsibility Allowance" | OTHER => "Other Allowance"
  end.
End AllowanceType.

Module EmployeeAllowance.

Record t : Set :=
  { employee : UUID;
    allowance_type : AllowanceType.t;
    name : string;
    amount : Decimal;
    is_taxable : bool;
    effective_from : Date;
    effective_to : option Date }.

Definition get_allowance_type_display (self : t) : string :=
  AllowanceType.label (allowance_type self).

(** [Meta.ordering = ['employee', 'allowance_type']] *)
Definition ordering (rows : list t) : list t :=
  order_by (fun a b => (employee a <=? employee b)%N)
           (order_by (fun a b =>
                        String.leb (AllowanceType.value (allowance_type a))
                                   (AllowanceType.value (allowance_type b)))
                     rows).

End EmployeeAllowance.

Module DeductionType.
Definition LOAN := "loan".
Definition ADVANCE := "advance".
Definition INSURANCE := "insurance".
Definition PENSION := "pension".
Definition OTHER := "other".
End DeductionType.

Module EmployeeDeduction.

Record t : Set :=
  { employee : UUID;
    deduction_type : string;
    name : string;
    amount : Decimal;
    is_pretax : bool;
    effective_from : Date;
    effective_to : option Date;
    total_amount : option Decimal;
    balance : option Decimal }.

(** [Meta.ordering = ['employee', 'deduction_type']] *)
Definition ordering (rows : list t) : list t :=
  order_by (fun a b => (employee a <=? employee b)%N)
           (order_by (fun a b => String.leb (deduction_type a) (deduction_type b))
                     rows).

End EmployeeDeduction.

(* ================================================================== *)
(** ** payroll/models.py *)

Module Status.
Inductive t : Set :=
  DRAFT | PENDING_HR | PENDING_MANAGEMENT | APPROVED | PAID | CANCELLED.
Definition eqb (a b : t) : bool :=
  match a, b with
  | DRAFT, DRAFT | PENDING_HR, PENDING_HR
  | PENDING_MANAGEMENT, PENDING_MANAGEMENT | APPROVED, APPROVED
  | PAID, PAID | CANCELLED, CANCELLED => true
  | _, _ => false
  end.
End Status.

Module PayrollEntry.

Record t : Type :=
  { payroll_period : UUID;
    employee : UUID;
    basic_salary : Decimal;
    taxable_allowances : Decimal;
    non_taxable_allowances : Decimal;
    benefits_in_kind : Decimal;
    overtime : Decimal;
    bonus : Decimal;
    gross_pay : Decimal;
    pension_contribution : Decimal;
    owner_occupied_interest : Decimal;
    taxable_income : Decimal;
    tax_charged : Decimal;
    personal_relief : Decimal;
    insurance_relief : Decimal;
    disability_exemption : Decimal;
    paye : Decimal;
    nssf : Decimal;
    sha : Decimal;
    housing_levy : Decimal;
    loan_deductions : Decimal;
    sacco_deductions : Decimal;
    other_deductions : Decimal;
    total_deductions : Decimal;
    net_pay : Decimal;
    allowance_details : Dict Calculator.AllowanceDetail;
    deduction_details : Dict Calculator.DeductionDetail;
    payslip_generated : bool;
    payslip_file : string }.

End PayrollEntry.

Module PayrollPeriod.

Record t : Set :=
  { id : UUID;
    year : Z;
    month : Z;
    name : string;
    status : Status.t;
    payment_date : option Date;
    prepared_by : option UUID;
    prepared_at : option DateTime;
    hr_approved_by : option UUID;
    hr_approved_at : option DateTime;
    hr_comments : string;
    mgmt_approved_by : option UUID;
    mgmt_approved_at : option DateTime;
    mgmt_comments : string;
    total_gross : Decimal;
    total_net : Decimal;
    total_paye : Decimal;
    total_nssf : Decimal;
    total_sha : Decimal;
    total_housing_levy : Decimal }.

Definition months : list string :=
  [ ""; "January"; "February"; "March"; "April"; "May"; "June";
    "July"; "August"; "September"; "October"; "November"; "December" ].

Definition get_month_name (self : t) : Result string :=
  list_index months (month self).

Definition set_name (self : t) (v : string) : t :=
  {| id := id self; year := year self; month := month self; name := v;
     status := status self; payment_date := payment_date self;
     prepared_by := prepared_by self; prepared_at := prepared_at self;
     hr_approved_by := hr_approved_by self;
     hr_approved_at := hr_approved_at self;
     hr_comments := hr_comments self;
     mgmt_approved_by := mgmt_approved_by self;
     mgmt_approved_at := mgmt_approved_at self;
     mgmt_comments := mgmt_comments self;
     total_gross := total_gross self; total_net := total_net self;
     total_paye := total_paye self; total_nssf := total_nssf self;
     total_sha := total_sha self;
     total_housing_levy := total_housing_levy self |}.

Definition set_status (self : t) (v : Status.t) : t :=
  {| id := id self; year := year self; month := month self; name := name self;
     status := v; payment_date := payment_date self;
     prepared_by := prepared_by self; prepared_at := prepared_at self;
     hr_approved_by := hr_approved_by self;
     hr_approved_at := hr_approved_at self;
     hr_comments := hr_comments self;
     mgmt_approved_by := mgmt_approved_by self;
     mgmt_approved_at := mgmt_approved_at self;
     mgmt_comments := mgmt_comments self;
     total_gross := total_gross self; total_net := total_net self;
     total_paye := total_paye self; total_nssf := total_nssf self;
     total_sha := total_sha self;
     total_housing_levy := total_housing_levy self |}.

Definition set_prepared (self : t) (by_ : option UUID) (at_ : option DateTime) : t :=
  {| id := id self; year := year self; month := month self; name := name self;
     status := status self; payment_date := payment_date self;
     prepared_by := by_; prepared_at := at_;
     hr_approved_by := hr_approved_by self;
     hr_approved_at := hr_approved_at self;
     hr_comments := hr_comments self;
     mgmt_approved_by := mgmt_approved_by self;
     mgmt_approved_at := mgmt_approved_at self;
     mgmt_comments := mgmt_comments self;
     total_gross := total_gross self; total_net := total_net self;
     total_paye := total_paye self; total_nssf := total_nssf self;
     total_sha := total_sha self;
     total_housing_levy := total_housing_levy self |}.

Definition set_hr_approved (self : t) (by_ : option UUID) (at_ : option DateTime) : t :=
  {| id := id self; year := year self; month := month self; name := name self;
     status := status self; payment_date := payment_date self;
     prepared_by := prepared_by self; prepared_at := prepared_at self;
     hr_approved_by := by_;
     hr_approved_at := at_;
     hr_comments := hr_comments self;
     mgmt_approved_by := mgmt_approved_by self;
     mgmt_approved_at := mgmt_approved_at self;
     mgmt_comments := mgmt_comments self;
     total_gross := total_gross self; total_net := total_net self;
     total_paye := total_paye self; total_nssf := total_nssf self;
     total_sha := total_sha self;
     total_housing_levy := total_housing_levy self |}.

Definition set_hr_comments (self : t) (v : string) : t :=
  {| id := id self; year := year self; month := month self; name := name self;
     status := status self; payment_date := payment_date self;
     prepared_by := prepared_by self; prepared_at := prepared_at self;
     hr_approved_by := hr_approved_by self;
     hr_approved_at := hr_approved_at self;
     hr_comments := v;
     mgmt_approved_by := mgmt_approved_by self;
     mgmt_approved_at := mgmt_approved_at self;
     mgmt_comments := mgmt_comments self;
     total_gross := total_gross self; total_net := total_net self;
     total_paye := total_paye self; total_nssf := total_nssf self;
     total_sha := total_sha self;
     total_housing_levy := total_housing_levy self |}.

Definition set_mgmt_approved (self : t) (by_ : option UUID) (at_ : option DateTime) : t :=
  {| id := id self; year := year self; month := month self; name := name self;
     status := status self; payment_date := payment_date self;
     prepared_by := prepared_by self; prepared_at := prepared_at self;
     hr_approved_by := hr_approved_by self;
     hr_approved_at := hr_approved_at self;
     hr_comments := hr_comments self;
     mgmt_approved_by := by_;
     mgmt_approved_at := at_;
     mgmt_comments := mgmt_comments self;
     total_gross := total_gross self; total_net := total_net self;
     total_paye := total_paye self; total_nssf := total_nssf self;
     total_sha := total_sha self;
     total_housing_levy := total_housing_levy self |}.

Definition set_mgmt_comments (self : t) (v : string) : t :=
  {| id := id self; year := year self; month := month self; name := name self;
     status := status self; payment_date := payment_date self;
     prepared_by := prepared_by self; prepared_at := prepared_at self;
     hr_approved_by := hr_approved_by self;
     hr_approved_at := hr_approved_at self;
     hr_comments := hr_comments self;
     mgmt_approved_by := mgmt_approved_by self;
     mgmt_approved_at := mgmt_approved_at self;
     mgmt_comments := v;
     total_gross := total_gross self; total_net := total_net self;
     total_paye := total_paye self; total_nssf := total_nssf self;
     total_sha := total_sha self;
     total_housing_levy := total_housing_levy self |}.

Definition set_totals (self : t) (gross net paye_ nssf_ sha_ levy : Decimal) : t :=
  {| id := id self; year := year self; month := month self; name := name self;
     status := status self; payment_date := payment_date self;
     prepared_by := prepared_by self; prepared_at := prepared_at self;
     hr_approved_by := hr_approved_by self;
     hr_approved_at := hr_approved_at self;
     hr_comments := hr_comments self;
     mgmt_approved_by := mgmt_approved_by self;
     mgmt_approved_at := mgmt_approved_at self;
     mgmt_comments := mgmt_comments self;
     total_gross := gross; total_net := net;
     total_paye := paye_; total_nssf := nssf_;
     total_sha := sha_;
     total_housing_levy := levy |}.

End PayrollPeriod.

Module TaxTable.

Record t : Set :=
  { effective_from : Date;
    effective_to : option Date;
    is_active : bool;
    band_1_limit : Decimal;
    band_1_rate : Decimal;
    band_2_limit : Decimal;
    band_2_rate : Decimal;
    band_3_limit : Decimal;
    band_3_rate : Decimal;
    band_4_limit : Decimal;
    band_4_rate : Decimal;
    band_5_rate : Decimal;
    personal_relief : Decimal;
    insurance_relief_rate : Decimal;
    insurance_relief_max : Decimal;
    disability_exemption : Decimal;
    nssf_tier1_limit : Decimal;
    nssf_tier1_rate : Decimal;
    nssf_tier2_limit : Decimal;
    nssf_tier2_rate : Decimal;
    sha_rate : Decimal;
    housing_levy_rate : Decimal;
    pension_max_deduction : Decimal;
    mortgage_interest_max : Decimal }.

(** [Meta.ordering = ['-effective_from']] *)
Definition ordering (rows : list t) : list t :=
  order_by (fun a b => date_leb (effective_from b) (effective_from a)) rows.

(** [get_active(cls, date=None)]; [today] is [timezone.now().date()]. *)
Definition get_active (objects : list t) (today : Date) (date : option Date)
  : option t :=
  let date := match date with None => today | Some d => d end in
  first
    (ordering
       (filter (fun row =>
                  match effective_to row with
                  | None => true
                  | Some last => date_leb date last
                  end)
               (filter (fun row =>
                          is_active row && date_leb (effective_from row) date)
                       objects))).

End TaxTable.

(** The tables read and written by the processor. *)
Record Database : Type :=
  { users : list User.t;
    employee_allowances : list EmployeeAllowance.t;
    employee_deductions : list EmployeeDeduction.t;
    tax_tables : list TaxTable.t;
    payroll_periods : list PayrollPeriod.t;
    payroll_entries : list PayrollEntry.t }.

Definition set_payroll_periods (d : Database) (rows : list PayrollPeriod.t) : Database :=
  {| users := users d;
     employee_allowances := employee_allowances d;
     employee_deductions := employee_deductions d;
     tax_tables := tax_tables d;
     payroll_periods := rows;
     payroll_entries := payroll_entries d |}.

Definition set_payroll_entries (d : Database) (rows : list PayrollEntry.t) : Database :=
  {| users := users d;
     employee_allowances := employee_allowances d;
     employee_deductions := employee_deductions d;
     tax_tables := tax_tables d;
     payroll_periods := payroll_periods d;
     payroll_entries := rows |}.

(* ================================================================== *)
(** ** services/processor.py *)

Module Processor.

(** The state a processor acts on: its in-memory period object
    [self.payroll_period] and the database. *)
Record State : Type :=
  { payroll_period : PayrollPeriod.t;
    db : Database }.

(** Computations that read and write the state and may raise.  When a
    computation raises, the state reached so far is kept: assignments to
    the in-memory object are not undone by an exception. *)
Definition M (A : Type) : Type := State -> Result A * State.

Definition ret {A} (a : A) : M A := fun s => (Ok a, s).
Definition raise {A} (e : Exception) : M A := fun s => (Raise e, s).
Definition bind {A B} (m : M A) (k : A -> M B) : M B :=
  fun s =>
    match m s with
    | (Ok a, s') => k a s'
    | (Raise e, s') => (Raise e, s')
    end.
Definition lift {A} (r : Result A) : M A :=
  match r with Ok a => ret a | Raise e => raise e end.
Definition get_period : M PayrollPeriod.t := fun s => (Ok (payroll_period s), s).
Definition get_db : M Database := fun s => (Ok (db s), s).
Definition set_period (p : PayrollPeriod.t) : M unit :=
  fun s => (Ok tt, {| payroll_period := p; db := db s |}).
Definition set_db (d : Database) : M unit :=
  fun s => (Ok tt, {| payroll_period := payroll_period s; db := d |}).

Declare Scope monad_scope.
Delimit Scope monad_scope with monad.
Notation "x <- m ;; k" := (bind m (fun x => k))
  (at level 61, m at next level, right associativity) : monad_scope.
Notation "m ;; k" := (bind m (fun _ => k))
  (at level 61, right associativity) : monad_scope.
Local Open Scope monad_scope.

(** [for x in l: body(x)] *)
Fixpoint for_each {A} (l : list A) (body : A -> M unit) : M unit :=
  match l with
  | [] => ret tt
  | x :: rest => body x ;; for_each rest body
  end.

(** [@transaction.atomic]: the database changes of the block are rolled
    back when it raises, and the exception propagates. *)
Definition transaction_atomic {A} (block : M A) : M A :=
  fun s =>
    match block s with
    | (Ok a, s') => (Ok a, s')
    | (Raise e, s') =>
        (Raise e, {| payroll_period := payroll_period s'; db := db s |})
    end.

(** *** Model methods acting on [self.payroll_period] *)

(** The row with the primary key of [p] is replaced, or [p] is inserted. *)
Fixpoint write_period (rows : list PayrollPeriod.t) (p : PayrollPeriod.t)
  : list PayrollPeriod.t :=
  match rows with
  | [] => [p]
  | row :: rest =>
      if (PayrollPeriod.id row =? PayrollPeriod.id p)%N then p :: rest
      else row :: write_period rest p
  end.

(** [PayrollPeriod.save] *)
Definition save : M unit :=
  self <- get_period ;;
  (match PayrollPeriod.name self with
   | EmptyString =>
       month_name <- lift (PayrollPeriod.get_month_name self) ;;
       set_period
         (PayrollPeriod.set_name
            self (month_name ++ " " ++ str_of_int (PayrollPeriod.year self)))
   | _ => ret tt
   end) ;;
  self <- get_period ;;
  d <- get_db ;;
  set_db (set_payroll_periods d (write_period (payroll_periods d) self)).

(** [self.entries.all()] *)
Definition entries (d : Database) (self : PayrollPeriod.t) : list PayrollEntry.t :=
  filter (fun e => (PayrollEntry.payroll_period e =? PayrollPeriod.id self)%N)
         (payroll_entries d).

(** [PayrollPeriod.calculate_totals] *)
Definition calculate_totals : M unit :=
  self <- get_period ;;
  d <- get_db ;;
  let entries := entries d self in
  set_period
    (PayrollPeriod.set_totals self
       (Dec.sum (map PayrollEntry.gross_pay entries))
       (Dec.sum (map PayrollEntry.net_pay entries))
       (Dec.sum (map PayrollEntry.paye entries))
       (Dec.sum (map PayrollEntry.nssf entries))
       (Dec.sum (map PayrollEntry.sha entries))
       (Dec.sum (map PayrollEntry.housing_levy entries))) ;;
  save.

(** *** [PayrollEntry.objects.update_or_create] *)

(** A new row with the field defaults of the model. *)
Definition new_entry (period employee : UUID) : PayrollEntry.t :=
  {| PayrollEntry.payroll_period := period;
     PayrollEntry.employee := employee;
     PayrollEntry.basic_salary := Dec.zero;
     PayrollEntry.taxable_allowances := Dec.zero;
     PayrollEntry.non_taxable_allowances := Dec.zero;
     PayrollEntry.benefits_in_kind := Dec.zero;
     PayrollEntry.overtime := Dec.zero;
     PayrollEntry.bonus := Dec.zero;
     PayrollEntry.gross_pay := Dec.zero;
     PayrollEntry.pension_contribution := Dec.zero;
     PayrollEntry.owner_occupied_interest := Dec.zero;
     PayrollEntry.taxable_income := Dec.zero;
     PayrollEntry.tax_charged := Dec.zero;
     PayrollEntry.personal_relief := Dec.of_Z 2400;
     PayrollEntry.insurance_relief := Dec.zero;
     PayrollEntry.disability_exemption := Dec.zero;
     PayrollEntry.paye := Dec.zero;
     PayrollEntry.nssf := Dec.zero;
     PayrollEntry.sha := Dec.zero;
     PayrollEntry.housing_levy := Dec.zero;
     PayrollEntry.loan_deductions := Dec.zero;
     PayrollEntry.sacco_deductions := Dec.zero;
     PayrollEntry.other_deductions := Dec.zero;
     PayrollEntry.total_deductions := Dec.zero;
     PayrollEntry.net_pay := Dec.zero;
     PayrollEntry.allowance_details := [];
     PayrollEntry.deduction_details := [];
     PayrollEntry.payslip_generated := false;
     PayrollEntry.payslip_file := "" |}.

(** The [defaults] of [process_employee] written into a row. *)
Definition apply_defaults (row : PayrollEntry.t) (result : Calculator.PayrollResult)
  : PayrollEntry.t :=
  {| PayrollEntry.payroll_period := PayrollEntry.payroll_period row;
     PayrollEntry.employee := PayrollEntry.employee row;
     PayrollEntry.basic_salary := Calculator.basic_salary result;
     PayrollEntry.taxable_allowances := Calculator.taxable_allowances result;
     PayrollEntry.non_taxable_allowances := Calculator.non_taxable_allowances result;
     PayrollEntry.benefits_in_kind := PayrollEntry.benefits_in_kind row;
     PayrollEntry.overtime := PayrollEntry.overtime row;
     PayrollEntry.bonus := PayrollEntry.bonus row;
     PayrollEntry.gross_pay := Calculator.gross_pay result;
     PayrollEntry.pension_contribution := Calculator.pension_contribution result;
     PayrollEntry.owner_occupied_interest := Calculator.owner_occupied_interest result;
     PayrollEntry.taxable_income := Calculator.taxable_income result;
     PayrollEntry.tax_charged := Calculator.tax_charged result;
     PayrollEntry.personal_relief := Calculator.r_personal_relief result;
     PayrollEntry.insurance_relief := Calculator.insurance_relief result;
     PayrollEntry.disability_exemption := Calculator.r_disability_exemption result;
     PayrollEntry.paye := Calculator.paye result;
     PayrollEntry.nssf := Calculator.nssf result;
     PayrollEntry.sha := Calculator.sha result;
     PayrollEntry.housing_levy := Calculator.housing_levy result;
     PayrollEntry.loan_deductions := Calculator.loan_deductions result;
     PayrollEntry.sacco_deductions := Calculator.sacco_deductions result;
     PayrollEntry.other_deductions := Calculator.other_deductions result;
     PayrollEntry.total_deductions := Calculator.total_deductions result;
     PayrollEntry.net_pay := Calculator.net_pay result;
     PayrollEntry.allowance_details := Calculator.allowance_details result;
     PayrollEntry.deduction_details := Calculator.deduction_details result;
     PayrollEntry.payslip_generated := PayrollEntry.payslip_generated row;
     PayrollEntry.payslip_file := PayrollEntry.payslip_file row |}.

(** The lookup [payroll_period=..., employee=...]. *)
Definition is_entry_of (period employee : UUID) (row : PayrollEntry.t) : bool :=
  ((PayrollEntry.payroll_period row =? period)
   && (PayrollEntry.employee row =? employee))%N.

Definition update_or_create (period employee : UUID)
           (defaults : Calculator.PayrollResult) : M (PayrollEntry.t * bool) :=
  d <- get_db ;;
  match filter (is_entry_of period employee) (payroll_entries d) with
  | [] =>
      let entry := apply_defaults (new_entry period employee) defaults in
      set_db (set_payroll_entries d (payroll_entries d ++ [entry])) ;;
      ret (entry, true)
  | [found] =>
      let entry := apply_defaults found defaults in
      set_db (set_payroll_entries d
                (map (fun row =>
                        if is_entry_of period employee row
                        then apply_defaults row defaults else row)
                     (payroll_entries d))) ;;
      ret (entry, false)
  | _ => raise MultipleObjectsReturned
  end.

(** *** [class PayrollProcessor] *)

Record PayrollProcessor : Set :=
  { calculator : Calculator.PayrollCalculator }.

Definition config_of_tax_table (tax_table : TaxTable.t) : Calculator.ConfigDict :=
  fun key =>
    Some match key with
         | Calculator.band_1_limit => TaxTable.band_1_limit tax_table
         | Calculator.band_1_rate => TaxTable.band_1_rate tax_table
         | Calculator.band_2_limit => TaxTable.band_2_limit tax_table
         | Calculator.band_2_rate => TaxTable.band_2_rate tax_table
         | Calculator.band_3_limit => TaxTable.band_3_limit tax_table
         | Calculator.band_3_rate => TaxTable.band_3_rate tax_table
         | Calculator.band_4_limit => TaxTable.band_4_limit tax_table
         | Calculator.band_4_rate => TaxTable.band_4_rate tax_table
         | Calculator.band_5_rate => TaxTable.band_5_rate tax_table
         | Calculator.personal_relief => TaxTable.personal_relief tax_table
         | Calculator.insurance_relief_rate => TaxTable.insurance_relief_rate tax_table
         | Calculator.insurance_relief_max => TaxTable.insurance_relief_max tax_table
         | Calculator.disability_exemption => TaxTable.disability_exemption tax_table
         | Calculator.nssf_tier1_limit => TaxTable.nssf_tier1_limit tax_table
         | Calculator.nssf_tier1_rate => TaxTable.nssf_tier1_rate tax_table
         | Calculator.nssf_tier2_limit => TaxTable.nssf_tier2_limit tax_table
         | Calculator.nssf_tier2_rate => TaxTable.nssf_tier2_rate tax_table
         | Calculator.sha_rate => TaxTable.sha_rate tax_table
         | Calculator.housing_levy_rate => TaxTable.housing_levy_rate tax_table
         | Calculator.pension_max_deduction => TaxTable.pension_max_deduction tax_table
         | Calculator.mortgage_interest_max => TaxTable.mortgage_interest_max tax_table
         end.

(** [_get_calculator]: the tax table is looked up with [get_active()],
    that is, for the current date. *)
Definition _get_calculator (d : Database) (today : Date)
  : Calculator.PayrollCalculator :=
  let tax_table := TaxTable.get_active (tax_tables d) today None in
  match tax_table with
  | Some tax_table => Calculator.init (Some (config_of_tax_table tax_table))
  | None => Calculator.init None
  end.

(** [__init__] *)
Definition init (d : Database) (today : Date) (payroll_period : PayrollPeriod.t)
  : PayrollProcessor * State :=
  ({| calculator := _get_calculator d today |},
   {| payroll_period := payroll_period; db := d |}).

(** The names bound at module level in [processor.py]: its imports, the
    logger and the class. *)
Definition module_globals : Globals :=
  [ "Decimal"; "List"; "Optional"; "timezone"; "transaction"; "logging";
    "User"; "EmployeeAllowance"; "EmployeeDeduction";
    "PayrollPeriod"; "PayrollEntry"; "TaxTable";
    "PayrollCalculator"; "logger"; "PayrollProcessor" ].

Section Methods.

(** The global namespace in which the methods run. *)
Variable globals : Globals.
Variable self : PayrollProcessor.

Definition get_active_employees (d : Database) : list User.t :=
  User.ordering
    (filter (fun u =>
               EmploymentStatus.eqb (User.employment_status u)
                                    EmploymentStatus.ACTIVE
               && Bool.eqb (User.is_active u) true)
            (users d)).

(** The second [.filter(...)] evaluates [models.Q], a global name of
    the module; nothing has been read or written before. *)
Definition get_employee_allowances (d : Database) (employee : User.t)
           (period_date : Date) : Result (Dict Calculator.AllowanceItem) :=
  if is_bound globals "models" then
    let allowances :=
      EmployeeAllowance.ordering
        (filter (fun a =>
                   match EmployeeAllowance.effective_to a with
                   | None => true
                   | Some last => date_leb period_date last
                   end)
                (filter (fun a =>
                           (EmployeeAllowance.employee a =? User.id employee)%N
                           && date_leb (EmployeeAllowance.effective_from a)
                                       period_date)
                        (employee_allowances d))) in
    Ok (fold_left
          (fun result allowance =>
             let name :=
               str_or (EmployeeAllowance.name allowance)
                      (EmployeeAllowance.get_allowance_type_display allowance) in
             dict_set result name
               {| Calculator.a_amount := Some (EmployeeAllowance.amount allowance);
                  Calculator.a_taxable :=
                    Some (EmployeeAllowance.is_taxable allowance) |})
          allowances [])
  else Raise (NameError "models").

(** The rows selected by [get_employee_deductions], in query order. *)
Definition deduction_rows (d : Database) (employee : User.t)
           (period_date : Date) : list EmployeeDeduction.t :=
  EmployeeDeduction.ordering
    (filter (fun x =>
               match EmployeeDeduction.effective_to x with
               | None => true
               | Some last => date_leb period_date last
               end)
            (filter (fun x =>
                       (EmployeeDeduction.employee x =? User.id employee)%N
                       && date_leb (EmployeeDeduction.effective_from x)
                                   period_date)
                    (employee_deductions d))).

(** Here [models] is imported inside the function. *)
Definition get_employee_deductions (d : Database) (employee : User.t)
           (period_date : Date) : Dict Calculator.DeductionItem :=
  fold_left
    (fun result deduction =>
       dict_set result (EmployeeDeduction.name deduction)
         {| Calculator.d_amount := Some (EmployeeDeduction.amount deduction);
            Calculator.d_type :=
              Some (EmployeeDeduction.deduction_type deduction) |})
    (deduction_rows d employee period_date) [].

(** The row picked by [.first()] in [get_pension_contribution]. *)
Definition pension_row (d : Database) (employee : User.t) (period_date : Date)
  : option EmployeeDeduction.t :=
  first
    (EmployeeDeduction.ordering
       (filter (fun x =>
                  match EmployeeDeduction.effective_to x with
                  | None => true
                  | Some last => date_leb period_date last
                  end)
               (filter (fun x =>
                          (EmployeeDeduction.employee x =? User.id employee)%N
                          && String.eqb (EmployeeDeduction.deduction_type x)
                                        DeductionType.PENSION
                          && date_leb (EmployeeDeduction.effective_from x)
                                      period_date
                          && Bool.eqb (EmployeeDeduction.is_pretax x) true)
                       (employee_deductions d)))).

Definition get_pension_contribution (d : Database) (employee : User.t)
           (period_date : Date) : Decimal :=
  match pension_row d employee period_date with
  | Some pension => EmployeeDeduction.amount pension
  | None => Dec.zero
  end.

(** The row picked by [.first()] in [get_insurance_premium]. *)
Definition insurance_row (d : Database) (employee : User.t) (period_date : Date)
  : option EmployeeDeduction.t :=
  first
    (EmployeeDeduction.ordering
       (filter (fun x =>
                  match EmployeeDeduction.effective_to x with
                  | None => true
                  | Some last => date_leb period_date last
                  end)
               (filter (fun x =>
                          (EmployeeDeduction.employee x =? User.id employee)%N
                          && String.eqb (EmployeeDeduction.deduction_type x)
                                        DeductionType.INSURANCE
                          && date_leb (EmployeeDeduction.effective_from x)
                                      period_date)
                       (employee_deductions d)))).

Definition get_insurance_premium (d : Database) (employee : User.t)
           (period_date : Date) : Decimal :=
  match insurance_row d employee period_date with
  | Some insurance => EmployeeDeduction.amount insurance
  | None => Dec.zero
  end.

(** The call [self.calculator.calculate(...)] of [process_employee]:
    [mortgage_interest] is not passed and takes its default,
    [Decimal('0')]. *)
Definition calculate_payroll (employee : User.t)
           (allowances : Dict Calculator.AllowanceItem)
           (deductions : Dict Calculator.DeductionItem)
           (pension insurance : Decimal) : Calculator.PayrollResult :=
  Calculator.calculate (calculator self)
    (User.basic_salary employee)
    (Some allowances)
    (Some deductions)
    pension
    Dec.zero
    insurance
    (User.has_disability employee).

Definition process_employee (employee : User.t) : M PayrollEntry.t :=
  transaction_atomic (
    period <- get_period ;;
    period_date <- lift (datetime_date (PayrollPeriod.year period)
                                       (PayrollPeriod.month period) 1) ;;
    d <- get_db ;;
    allowances <- lift (get_employee_allowances d employee period_date) ;;
    let deductions := get_employee_deductions d employee period_date in
    let pension := get_pension_contribution d employee period_date in
    let insurance := get_insurance_premium d employee period_date in
    let result := calculate_payroll employee allowances deductions
                                    pension insurance in
    created <- update_or_create (PayrollPeriod.id period) (User.id employee)
                                result ;;
    ret (fst created)).

Definition process_all (prepared_by : User.t) (now : DateTime)
  : M PayrollPeriod.t :=
  transaction_atomic (
    d <- get_db ;;
    let employees := get_active_employees d in
    for_each employees (fun employee => process_employee employee ;; ret tt) ;;
    period <- get_period ;;
    set_period
      (PayrollPeriod.set_status
         (PayrollPeriod.set_prepared period (Some (User.id prepared_by)) (Some now))
         Status.PENDING_HR) ;;
    calculate_totals ;;
    get_period).

Definition approve_hr (approved_by : User.t) (comments : string) (now : DateTime)
  : M PayrollPeriod.t :=
  transaction_atomic (
    period <- get_period ;;
    if negb (Status.eqb (PayrollPeriod.status period) Status.PENDING_HR)
    then raise (ValueError "Payroll is not pending HR approval")
    else
      set_period
        (PayrollPeriod.set_status
           (PayrollPeriod.set_hr_comments
              (PayrollPeriod.set_hr_approved
                 period (Some (User.id approved_by)) (Some now))
              comments)
           Status.PENDING_MANAGEMENT) ;;
      save ;;
      get_period).

Definition approve_management (approved_by : User.t) (comments : string)
           (now : DateTime) : M PayrollPeriod.t :=
  transaction_atomic (
    period <- get_period ;;
    if negb (Status.eqb (PayrollPeriod.status period) Status.PENDING_MANAGEMENT)
    then raise (ValueError "Payroll is not pending management approval")
    else
      set_period
        (PayrollPeriod.set_status
           (PayrollPeriod.set_mgmt_comments
              (PayrollPeriod.set_mgmt_approved
                 period (Some (User.id approved_by)) (Some now))
              comments)
           Status.APPROVED) ;;
      save ;;
      get_period).

Definition newline : string := String (ascii_of_nat 10) EmptyString.

Definition reject (rejected_by : User.t) (comments : string)
  : M PayrollPeriod.t :=
  transaction_atomic (
    period <- get_period ;;
    let period :=
      PayrollPeriod.set_mgmt_approved
        (PayrollPeriod.set_hr_approved
           (PayrollPeriod.set_status period Status.DRAFT) None None)
        None None in
    let note :=
      "Rejected by " ++ User.get_full_name rejected_by ++ ": " ++ comments in
    let period :=
      match PayrollPeriod.hr_comments period with
      | EmptyString => PayrollPeriod.set_hr_comments period note
      | previous =>
          PayrollPeriod.set_hr_comments
            period (previous ++ newline ++ newline ++ note)
      end in
    set_period period ;;
    save ;;
    get_period).

End Methods.

End Processor.

(* ================================================================== *)
(** ** Intermediate quantities of [calculate], named for the statements *)

Section CalculateQuantities.

Import Calculator.
Local Open Scope decimal_scope.
Variable self : PayrollCalculator.

(** The running sums of the two loops of [calculate]. *)
Definition allowance_sums (allowances : Dict AllowanceItem) :=
  fold_left allowance_step allowances (0, 0, []).
Definition deduction_sums (deductions : Dict DeductionItem) :=
  fold_left deduction_step deductions (0, 0, 0, []).

(** The gross pay computed in step 2, before any rounding. *)
Definition gross_of (basic_salary : Decimal) (allowances : Dict AllowanceItem)
  : Decimal :=
  let '(taxable, non_taxable, _) := allowance_sums allowances in
  basic_salary + taxable + non_taxable.

(** The reliefs of step 8 added up in step 9. *)
Definition total_relief_of (insurance_premium : Decimal) (has_disability : bool)
  : Decimal :=
  config self personal_relief
  + calculate_insurance_relief self insurance_premium
  + (if has_disability then config self disability_exemption else 0).

(** The three sums of the loop of step 11. *)
Definition loan_total (deductions : Dict DeductionItem) : Decimal :=
  let '(loan, _, _, _) := deduction_sums deductions in loan.
Definition sacco_total (deductions : Dict DeductionItem) : Decimal :=
  let '(_, sacco, _, _) := deduction_sums deductions in sacco.
Definition other_total (deductions : Dict DeductionItem) : Decimal :=
  let '(_, _, other, _) := deduction_sums deductions in other.



End CalculateQuantities.

(* ================================================================== *)
(** ** The calculation in the words of the specification *)

Module Spec.

Local Open Scope decimal_scope.

Definition round (x : Decimal) : Decimal := Dec.quantize_half_up x.

(** Two-tier social security: tier 1 is [rate1 * min(gross, limit1)],
    tier 2 is [rate2 * (min(gross, limit2) - limit1)] if
    [gross > limit1] else 0, each tier rounded before summing. *)
Definition social_security (rate1 limit1 rate2 limit2 gross : Decimal)
  : Decimal :=
  let tier1 := round (rate1 * Dec.min gross limit1) in
  let tier2 :=
    if gross >? limit1
    then round (rate2 * (Dec.min gross limit2 - limit1))
    else 0 in
  tier1 + tier2.

(** Walk the ordered bands from the lowest: each bounded band
    [(upper, rate)] consumes [min(remaining, upper - previous upper)] at
    its rate, the final band is unbounded, each band's tax is rounded
    before it is accumulated, and the walk stops once the remaining income
    is exhausted. *)
Fixpoint walk_bands (previous_upper : Decimal)
         (bounded : list (Decimal * Decimal)) (top_rate : Decimal)
         (remaining : Decimal) : Decimal :=
  if remaining <=? 0 then 0
  else
    match bounded with
    | [] => round (remaining * top_rate)
    | (upper, rate) :: higher =>
        let consumed := Dec.min remaining (upper - previous_upper) in
        round (consumed * rate)
        + walk_bands upper higher top_rate (remaining - consumed)
    end.

Definition tax_charged (cfg : Calculator.Config) (taxable_income : Decimal)
  : Decimal :=
  walk_bands 0
    [ (cfg Calculator.band_1_limit, cfg Calculator.band_1_rate);
      (cfg Calculator.band_2_limit, cfg Calculator.band_2_rate);
      (cfg Calculator.band_3_limit, cfg Calculator.band_3_rate);
      (cfg Calculator.band_4_limit, cfg Calculator.band_4_rate) ]
    (cfg Calculator.band_5_rate)
    taxable_income.

End Spec.

(* ================================================================== *)
(** ** The batch run as a function of the tables, named for the statements *)

Section RunQuantities.

Import Processor.
Variable globals : Globals.
Variable self : PayrollProcessor.

Definition is_ok {A} (r : Result A) : bool :=
  match r with Ok _ => true | Raise _ => false end.

Definition value_or {A} (r : Result A) (default : A) : A :=
  match r with Ok a => a | Raise _ => default end.

(** What [process_employee] computes for an employee before it touches
    the entries: the period date, the four lookups and the calculation. *)
Definition employee_result (d : Database) (period : PayrollPeriod.t)
           (employee : User.t) : Result Calculator.PayrollResult :=
  match datetime_date (PayrollPeriod.year period) (PayrollPeriod.month period) 1 with
  | Raise e => Raise e
  | Ok period_date =>
      match get_employee_allowances globals d employee period_date with
      | Raise e => Raise e
      | Ok allowances =>
          Ok (calculate_payroll self employee allowances
                (get_employee_deductions d employee period_date)
                (get_pension_contribution d employee period_date)
                (get_insurance_premium d employee period_date))
      end
  end.

(** The effect of [update_or_create] on the table of entries. *)
Definition upsert (rows : list PayrollEntry.t) (period employee : UUID)
           (defaults : Calculator.PayrollResult)
  : Result (list PayrollEntry.t * PayrollEntry.t) :=
  match filter (is_entry_of period employee) rows with
  | [] =>
      let entry := apply_defaults (new_entry period employee) defaults in
      Ok ((rows ++ [entry])%list, entry)
  | [found] =>
      Ok (map (fun row =>
                 if is_entry_of period employee row
                 then apply_defaults row defaults else row) rows,
          apply_defaults found defaults)
  | _ => Raise MultipleObjectsReturned
  end.

(** The table of entries after the loop of [process_all]. *)
Fixpoint upsert_all (d : Database) (period : PayrollPeriod.t)
         (employees : list User.t) (rows : list PayrollEntry.t)
  : Result (list PayrollEntry.t) :=
  match employees with
  | [] => Ok rows
  | employee :: rest =>
      match employee_result d period employee with
      | Raise e => Raise e
      | Ok result =>
          match upsert rows (PayrollPeriod.id period) (User.id employee) result with
          | Raise e => Raise e
          | Ok (rows', _) => upsert_all d period rest rows'
          end
      end
  end.

(** The name defaulting of [PayrollPeriod.save]. *)
Definition with_name (p : PayrollPeriod.t) : Result PayrollPeriod.t :=
  match PayrollPeriod.name p with
  | EmptyString =>
      match PayrollPeriod.get_month_name p with
      | Ok month_name =>
          Ok (PayrollPeriod.set_name
                p (month_name ++ " " ++ str_of_int (PayrollPeriod.year p)))
      | Raise e => Raise e
      end
  | _ => Ok p
  end.

(** The period object as [process_all] stamps it before saving, given
    the entries of the period. *)
Definition stamped (p : PayrollPeriod.t) (prepared_by : User.t) (now : DateTime)
           (entries : list PayrollEntry.t) : PayrollPeriod.t :=
  PayrollPeriod.set_totals
    (PayrollPeriod.set_status
       (PayrollPeriod.set_prepared p (Some (User.id prepared_by)) (Some now))
       Status.PENDING_HR)
    (Dec.sum (map PayrollEntry.gross_pay entries))
    (Dec.sum (map PayrollEntry.net_pay entries))
    (Dec.sum (map PayrollEntry.paye entries))
    (Dec.sum (map PayrollEntry.nssf entries))
    (Dec.sum (map PayrollEntry.sha entries))
    (Dec.sum (map PayrollEntry.housing_levy entries)).

(** The period object as [reject] leaves it before saving. *)
Definition rejected (p : PayrollPeriod.t) (rejected_by : User.t)
           (comments : string) : PayrollPeriod.t :=
  let cleared :=
    PayrollPeriod.set_mgmt_approved
      (PayrollPeriod.set_hr_approved
         (PayrollPeriod.set_status p Status.DRAFT) None None)
      None None in
  let note :=
    "Rejected by " ++ User.get_full_name rejected_by ++ ": " ++ comments in
  match PayrollPeriod.hr_comments cleared with
  | EmptyString => PayrollPeriod.set_hr_comments cleared note
  | previous =>
      PayrollPeriod.set_hr_comments
        cleared (previous ++ newline ++ newline ++ note)
  end.

(** What a state-changing operation does once its period object [p] is
    ready: [save] and return the object. *)
Definition saved (p : PayrollPeriod.t) (s : State)
  : Result PayrollPeriod.t * State :=
  match with_name p with
  | Raise e => (Raise e, {| payroll_period := p; db := db s |})
  | Ok p2 =>
      (Ok p2,
       {| payroll_period := p2;
          db := set_payroll_periods
                  (db s) (write_period (payroll_periods (db s)) p2) |})
  end.

(** The table holds exactly one entry of the period for the employee, and
    writing [defaults] into it changes nothing. *)
Definition settled (rows : list PayrollEntry.t) (period employee : UUID)
           (defaults : Calculator.PayrollResult) : Prop :=
  exists row,
    filter (is_entry_of period employee) rows = [row]
    /\ apply_defaults row defaults = row.

(** The six totals of a period. *)
Definition totals (p : PayrollPeriod.t) : list Decimal :=
  [ PayrollPeriod.total_gross p; PayrollPeriod.total_net p;
    PayrollPeriod.total_paye p; PayrollPeriod.total_nssf p;
    PayrollPeriod.total_sha p; PayrollPeriod.total_housing_levy p ].

(** The field-wise sums over a list of entries, in the same order. *)
Definition entry_sums (rows : list PayrollEntry.t) : list Decimal :=
  [ Dec.sum (map PayrollEntry.gross_pay rows);
    Dec.sum (map PayrollEntry.net_pay rows);
    Dec.sum (map PayrollEntry.paye rows);
    Dec.sum (map PayrollEntry.nssf rows);
    Dec.sum (map PayrollEntry.sha rows);
    Dec.sum (map PayrollEntry.housing_levy rows) ].

End RunQuantities.

(* ================================================================== *)
(** ** Sample data *)

Module Sample.

(** The calculator of the unit tests: [PayrollCalculator()]. *)
Definition default_calculator : Calculator.PayrollCalculator :=
  Calculator.init None.

(** [calculate(basic_salary=Decimal('50000'), has_disability=...)] *)
Definition result_50000 (has_disability : bool) : Calculator.PayrollResult :=
  Calculator.calculate default_calculator (Dec.of_Z 50000) None None
                       Dec.zero Dec.zero Dec.zero has_disability.

Definition today : Date := {| year := 2024%Z; month := 5%Z; day := 15%Z |}.
Definition may_1 : Date := {| year := 2024%Z; month := 5%Z; day := 1%Z |}.
Definition jan_1 : Date := {| year := 2024%Z; month := 1%Z; day := 1%Z |}.

Definition alice : User.t :=
  {| User.id := 1%N; User.first_name := "Alice"; User.last_name := "Otieno";
     User.email := "alice@example.org";
     User.employment_status := EmploymentStatus.ACTIVE;
     User.is_active := true;
     User.basic_salary := Dec.of_Z 50000;
     User.has_disability := false |}.

Definition bob : User.t :=
  {| User.id := 2%N; User.first_name := "Bob"; User.last_name := "Mwangi";
     User.email := "bob@example.org";
     User.employment_status := EmploymentStatus.TERMINATED;
     User.is_active := false;
     User.basic_salary := Dec.of_Z 40000;
     User.has_disability := false |}.

(** The payroll officer, on leave and so outside the active workforce. *)
Definition officer : User.t :=
  {| User.id := 9%N; User.first_name := "Carol"; User.last_name := "Njeri";
     User.email := "carol@example.org";
     User.employment_status := EmploymentStatus.ON_LEAVE;
     User.is_active := true;
     User.basic_salary := Dec.of_Z 90000;
     User.has_disability := false |}.

Definition house_allowance : EmployeeAllowance.t :=
  {| EmployeeAllowance.employee := 1%N;
     EmployeeAllowance.allowance_type := AllowanceType.HOUSE;
     EmployeeAllowance.name := "";
     EmployeeAllowance.amount := Dec.of_Z 10000;
     EmployeeAllowance.is_taxable := true;
     EmployeeAllowance.effective_from := jan_1;
     EmployeeAllowance.effective_to := None |}.

Definition deduction (type name : string) (amount : Z) (pretax : bool)
  : EmployeeDeduction.t :=
  {| EmployeeDeduction.employee := 1%N;
     EmployeeDeduction.deduction_type := type;
     EmployeeDeduction.name := name;
     EmployeeDeduction.amount := Dec.of_Z amount;
     EmployeeDeduction.is_pretax := pretax;
     EmployeeDeduction.effective_from := jan_1;
     EmployeeDeduction.effective_to := None;
     EmployeeDeduction.total_amount := None;
     EmployeeDeduction.balance := None |}.

Definition pension_scheme := deduction DeductionType.PENSION "Staff Pension" 1080 true.
Definition bank_loan := deduction DeductionType.LOAN "Bank Loan" 5000 false.
Definition medical_cover := deduction DeductionType.INSURANCE "Medical Cover" 2000 false.

Definition period_may : PayrollPeriod.t :=
  {| PayrollPeriod.id := 100%N;
     PayrollPeriod.year := 2024%Z;
     PayrollPeriod.month := 5%Z;
     PayrollPeriod.name := "May 2024";
     PayrollPeriod.status := Status.DRAFT;
     PayrollPeriod.payment_date := None;
     PayrollPeriod.prepared_by := None;
     PayrollPeriod.prepared_at := None;
     PayrollPeriod.hr_approved_by := None;
     PayrollPeriod.hr_approved_at := None;
     PayrollPeriod.hr_comments := "";
     PayrollPeriod.mgmt_approved_by := None;
     PayrollPeriod.mgmt_approved_at := None;
     PayrollPeriod.mgmt_comments := "";
     PayrollPeriod.total_gross := Dec.zero;
     PayrollPeriod.total_net := Dec.zero;
     PayrollPeriod.total_paye := Dec.zero;
     PayrollPeriod.total_nssf := Dec.zero;
     PayrollPeriod.total_sha := Dec.zero;
     PayrollPeriod.total_housing_levy := Dec.zero |}.

(** The same period after both approvals. *)
Definition period_may_approved : PayrollPeriod.t :=
  PayrollPeriod.set_status
    (PayrollPeriod.set_mgmt_approved
       (PayrollPeriod.set_hr_approved
          (PayrollPeriod.set_prepared period_may (Some 9%N) (Some 1000%Z))
          (Some 9%N) (Some 2000%Z))
       (Some 9%N) (Some 3000%Z))
    Status.APPROVED.

(** An entry of the May period for Bob, who has since left. *)
Definition bob_entry : PayrollEntry.t :=
  Processor.apply_defaults (Processor.new_entry 100%N 2%N) (result_50000 false).

(** No active employee, no tax table, one entry in the May period. *)
Definition db_unstaffed : Database :=
  {| users := [bob; officer];
     employee_allowances := [];
     employee_deductions := [];
     tax_tables := [];
     payroll_periods := [period_may];
     payroll_entries := [bob_entry] |}.

(** One active employee with an allowance and three deductions. *)
Definition db_staffed : Database :=
  {| users := [alice; bob; officer];
     employee_allowances := [house_allowance];
     employee_deductions := [pension_scheme; bank_loan; medical_cover];
     tax_tables := [];
     payroll_periods := [period_may];
     payroll_entries := [] |}.

(** The namespace of [processor.py] with [models] added to it. *)
Definition globals_with_models : Globals :=
  "models" :: Processor.module_globals.

Definition processor (d : Database) : Processor.PayrollProcessor :=
  fst (Processor.init d today period_may).

Definition state (d : Database) (p : PayrollPeriod.t) : Processor.State :=
  {| Processor.payroll_period := p; Processor.db := d |}.

End Sample.

(* ================================================================== *)
(** ** Progressive bands in closed form *)

Module Bands.

Local Open Scope decimal_scope.

(** The part of [income] that lies between [lower] and [upper]. *)
Definition share (income lower upper : Decimal) : Decimal :=
  Dec.min (Dec.max (income - lower) 0) (upper - lower).

(** The part of [income] that lies above [lower]. *)
Definition excess (income lower : Decimal) : Decimal :=
  Dec.max (income - lower) 0.

(** Each band taxed on its share of the income, band by band. *)
Fixpoint charge (lower : Decimal) (bounded : list (Decimal * Decimal))
         (top_rate : Decimal) (income : Decimal) : Decimal :=
  match bounded with
  | [] => Spec.round (excess income lower * top_rate)
  | (upper, rate) :: higher =>
      Spec.round (share income lower upper * rate)
      + charge upper higher top_rate income
  end.

(** The upper limits do not decrease, starting from [lower]. *)
Fixpoint ordered (lower : Decimal) (bounded : list (Decimal * Decimal)) : Prop :=
  match bounded with
  | [] => True
  | (upper, _) :: higher => lower <= upper /\ ordered upper higher
  end.

(** No rate is negative. *)
Definition rates_nonneg (bounded : list (Decimal * Decimal)) (top_rate : Decimal)
  : Prop :=
  Forall (fun band => 0 <= snd band) bounded /\ 0 <= top_rate.

(** The bounded bands and the top rate of a configuration. *)
Definition bounded_of (cfg : Calculator.Config) : list (Decimal * Decimal) :=
  [ (cfg Calculator.band_1_limit, cfg Calculator.band_1_rate);
    (cfg Calculator.band_2_limit, cfg Calculator.band_2_rate);
    (cfg Calculator.band_3_limit, cfg Calculator.band_3_rate);
    (cfg Calculator.band_4_limit, cfg Calculator.band_4_rate) ].

End Bands.

(* ================================================================== *)
(** ** Items of the calculator's dictionaries *)

Module Items.

Local Open Scope decimal_scope.

(** The amount and the flag that [calculate] reads from an allowance item,
    and the item as its breakdown records it. *)
Definition allowance_amount (item : Calculator.AllowanceItem) : Decimal :=
  match Calculator.a_amount item with Some x => x | None => 0 end.

Definition allowance_taxable (item : Calculator.AllowanceItem) : bool :=
  match Calculator.a_taxable item with Some b => b | None => true end.

Definition allowance_recorded (item : Calculator.AllowanceItem)
  : Calculator.AllowanceDetail :=
  {| Calculator.detail_amount := float_of_decimal (allowance_amount item);
     Calculator.detail_taxable := allowance_taxable item |}.

(** The same for a deduction item. *)
Definition deduction_amount (item : Calculator.DeductionItem) : Decimal :=
  match Calculator.d_amount item with Some x => x | None => 0 end.

Definition deduction_kind (item : Calculator.DeductionItem) : string :=
  match Calculator.d_type item with Some ty => ty | None => "other" end.

Definition deduction_recorded (item : Calculator.DeductionItem)
  : Calculator.DeductionDetail :=
  {| Calculator.detail_deducted := float_of_decimal (deduction_amount item);
     Calculator.detail_type := deduction_kind item |}.

(** The sum of a list of decimals, first to last. *)
Fixpoint total (amounts : list Decimal) : Decimal :=
  match amounts with
  | [] => 0
  | x :: rest => x + total rest
  end.

(** [allowances or {}] and [deductions or {}] *)
Definition given {V : Type} (d : option (Dict V)) : Dict V :=
  match d with Some x => x | None => [] end.

(** The amounts of the allowance items and of the deduction items. *)
Definition allowance_amounts (allowances : Dict Calculator.AllowanceItem)
  : list Decimal :=
  map (fun kv => allowance_amount (snd kv)) allowances.

Definition deduction_amounts (deductions : Dict Calculator.DeductionItem)
  : list Decimal :=
  map (fun kv => deduction_amount (snd kv)) deductions.

(** Every amount has at most two decimals. *)
Definition all_cents (amounts : list Decimal) : Prop :=
  Forall Dec.is_cents amounts.

End Items.

(** Sample dictionaries for the calculator. *)
Module SampleItems.

Definition allowance (amount : Z) (taxable : bool) : Calculator.AllowanceItem :=
  {| Calculator.a_amount := Some (Dec.of_Z amount);
     Calculator.a_taxable := Some taxable |}.

Definition deduction (amount : Z) (type : string) : Calculator.DeductionItem :=
  {| Calculator.d_amount := Some (Dec.of_Z amount);
     Calculator.d_type := Some type |}.

(** The allowances of [test_allowances_non_taxable], and the same with the
    lunch allowance flagged taxable. *)
Definition house_and_lunch : Dict Calculator.AllowanceItem :=
  [ ("House Allowance", allowance 10000 true);
    ("Lunch Allowance", allowance 5000 false) ].

Definition house_and_lunch_taxable : Dict Calculator.AllowanceItem :=
  [ ("House Allowance", allowance 10000 true);
    ("Lunch Allowance", allowance 5000 true) ].

(** The deductions of [test_deductions]. *)
Definition loan_and_sacco : Dict Calculator.DeductionItem :=
  [ ("Bank Loan", deduction 5000 "loan");
    ("SACCO Contribution", deduction 3000 "sacco") ].

(** A loan repayment larger than the salary it is taken from. *)
Definition heavy_loan : Dict Calculator.DeductionItem :=
  [ ("Bank Loan", deduction 5000 "loan") ].

End SampleItems.

(* ================================================================== *)
(** ** The conditions of the queries, named for the statements *)

Module Query.

(** A tax table that [get_active] may return for [date]. *)
Definition tax_table_in_force (date : Date) (row : TaxTable.t) : bool :=
  TaxTable.is_active row
  && in_window (TaxTable.effective_from row) (TaxTable.effective_to row) date.

(** A deduction row of the employee that is valid on [date]. *)
Definition deduction_valid (employee : User.t) (date : Date)
           (row : EmployeeDeduction.t) : bool :=
  (EmployeeDeduction.employee row =? User.id employee)%N
  && in_window (EmployeeDeduction.effective_from row)
               (EmployeeDeduction.effective_to row) date.

(** The rows that [get_pension_contribution] and [get_insurance_premium]
    look for. *)
Definition pension_qualifies (employee : User.t) (date : Date)
           (row : EmployeeDeduction.t) : bool :=
  deduction_valid employee date row
  && String.eqb (EmployeeDeduction.deduction_type row) DeductionType.PENSION
  && EmployeeDeduction.is_pretax row.

Definition insurance_qualifies (employee : User.t) (date : Date)
           (row : EmployeeDeduction.t) : bool :=
  deduction_valid employee date row
  && String.eqb (EmployeeDeduction.deduction_type row) DeductionType.INSURANCE.

(** The item that [get_employee_deductions] builds from a row. *)
Definition deduction_item (row : EmployeeDeduction.t) : Calculator.DeductionItem :=
  {| Calculator.d_amount := Some (EmployeeDeduction.amount row);
     Calculator.d_type := Some (EmployeeDeduction.deduction_type row) |}.

(** The last row of a list that carries a given name. *)
Definition last_named (name : string) (rows : list EmployeeDeduction.t)
  : option EmployeeDeduction.t :=
  find (fun row => String.eqb (EmployeeDeduction.name row) name) (rev rows).

(** A user that [get_active_employees] selects. *)
Definition on_payroll (u : User.t) : bool :=
  EmploymentStatus.eqb (User.employment_status u) EmploymentStatus.ACTIVE
  && User.is_active u.

(** A value that an [IntegerField] can hold. *)
Definition integer_field (z : Z) : Prop :=
  (-2147483648 <= z <= 2147483647)%Z.

End Query.

Module SampleTables.

(** A tax table with the rates of the defaults and another personal
    relief, in force from a given date. *)
Definition table (from : Date) (to : option Date) (active : bool) (relief : Z)
  : TaxTable.t :=
  {| TaxTable.effective_from := from;
     TaxTable.effective_to := to;
     TaxTable.is_active := active;
     TaxTable.band_1_limit := Calculator.DEFAULT_CONFIG Calculator.band_1_limit;
     TaxTable.band_1_rate := Calculator.DEFAULT_CONFIG Calculator.band_1_rate;
     TaxTable.band_2_limit := Calculator.DEFAULT_CONFIG Calculator.band_2_limit;
     TaxTable.band_2_rate := Calculator.DEFAULT_CONFIG Calculator.band_2_rate;
     TaxTable.band_3_limit := Calculator.DEFAULT_CONFIG Calculator.band_3_limit;
     TaxTable.band_3_rate := Calculator.DEFAULT_CONFIG Calculator.band_3_rate;
     TaxTable.band_4_limit := Calculator.DEFAULT_CONFIG Calculator.band_4_limit;
     TaxTable.band_4_rate := Calculator.DEFAULT_CONFIG Calculator.band_4_rate;
     TaxTable.band_5_rate := Calculator.DEFAULT_CONFIG Calculator.band_5_rate;
     TaxTable.personal_relief := Dec.of_Z relief;
     TaxTable.insurance_relief_rate :=
       Calculator.DEFAULT_CONFIG Calculator.insurance_relief_rate;
     TaxTable.insurance_relief_max :=
       Calculator.DEFAULT_CONFIG Calculator.insurance_relief_max;
     TaxTable.disability_exemption :=
       Calculator.DEFAULT_CONFIG Calculator.disability_exemption;
     TaxTable.nssf_tier1_limit := Calculator.DEFAULT_CONFIG Calculator.nssf_tier1_limit;
     TaxTable.nssf_tier1_rate := Calculator.DEFAULT_CONFIG Calculator.nssf_tier1_rate;
     TaxTable.nssf_tier2_limit := Calculator.DEFAULT_CONFIG Calculator.nssf_tier2_limit;
     TaxTable.nssf_tier2_rate := Calculator.DEFAULT_CONFIG Calculator.nssf_tier2_rate;
     TaxTable.sha_rate := Calculator.DEFAULT_CONFIG Calculator.sha_rate;
     TaxTable.housing_levy_rate :=
       Calculator.DEFAULT_CONFIG Calculator.housing_levy_rate;
     TaxTable.pension_max_deduction :=
       Calculator.DEFAULT_CONFIG Calculator.pension_max_deduction;
     TaxTable.mortgage_interest_max :=
       Calculator.DEFAULT_CONFIG Calculator.mortgage_interest_max |}.

Definition table_2024 : TaxTable.t := table Sample.jan_1 None true 2400.

(** The staffed database with a tax table. *)
Definition db_taxed : Database :=
  {| users := users Sample.db_staffed;
     employee_allowances := employee_allowances Sample.db_staffed;
     employee_deductions := employee_deductions Sample.db_staffed;
     tax_tables := [table_2024];
     payroll_periods := payroll_periods Sample.db_staffed;
     payroll_entries := payroll_entries Sample.db_staffed |}.



(** A period that has no name and no valid month. *)
Definition period_unnamed (month : Z) : PayrollPeriod.t :=
  {| PayrollPeriod.id := 101%N;
     PayrollPeriod.year := 2024%Z;
     PayrollPeriod.month := month;
     PayrollPeriod.name := "";
     PayrollPeriod.status := Status.DRAFT;
     PayrollPeriod.payment_date := None;
     PayrollPeriod.prepared_by := None;
     PayrollPeriod.prepared_at := None;
     PayrollPeriod.hr_approved_by := None;
     PayrollPeriod.hr_approved_at := None;
     PayrollPeriod.hr_comments := "";
     PayrollPeriod.mgmt_approved_by := None;
     PayrollPeriod.mgmt_approved_at := None;
     PayrollPeriod.mgmt_comments := "";
     PayrollPeriod.total_gross := Dec.zero;
     PayrollPeriod.total_net := Dec.zero;
     PayrollPeriod.total_paye := Dec.zero;
     PayrollPeriod.total_nssf := Dec.zero;
     PayrollPeriod.total_sha := Dec.zero;
     PayrollPeriod.total_housing_levy := Dec.zero |}.

(** The May period waiting for the HR approval. *)
Definition period_may_pending : PayrollPeriod.t :=
  PayrollPeriod.set_status
    (PayrollPeriod.set_prepared Sample.period_may (Some 9%N) (Some 1000%Z))
    Status.PENDING_HR.

End SampleTables.

(* ================================================================== *)
(** * Properties *)

Unset Implicit Arguments.
Local Open Scope decimal_scope.

(** ** Decimal arithmetic *)

Ltac dec_atoms :=
  repeat match goal with
         | |- context [this ?t] => generalize dependent (this t); intros
         | H : context [this ?t] |- _ => generalize dependent (this t); intros
         end.
Ltac dec_unfold :=
  unfold Dec.le, Dec.lt, Dec.add, Dec.sub, Dec.mul, Dec.neg, Dec.zero,
         Dec.of_Z, Dec.dec, Decimal in *;
  repeat (progress (unfold Qcle, Qclt, Qcminus, Qcopp, Qcplus, Qcmult, Q2Qc in *;
                    cbn [this] in *));
  dec_atoms;
  rewrite ?Qred_correct;
  repeat match goal with
         | H : context [Qred _] |- _ => progress (rewrite ?Qred_correct in H)
         end;
  unfold inject_Z in *.
Ltac dec_lra := dec_unfold; lra.
Ltac dec_eq := apply Qc_is_canon; dec_lra.
Ltac dec_ring := apply Qc_is_canon; dec_unfold; ring.
Ltac dec_compute := apply Qc_is_canon; vm_compute; reflexivity.

Lemma leb_le x y : (x <=? y) = true <-> x <= y.
Proof. unfold Dec.leb, Dec.le, Qcle. apply Qle_bool_iff. Qed.

Lemma leb_gt x y : (x <=? y) = false <-> y < x.
Proof.
  unfold Dec.leb, Dec.lt, Qclt. split; intro H.
  - apply Qnot_le_lt. intro L. apply Qle_bool_iff in L. congruence.
  - destruct (Qle_bool x y) eqn:E; auto.
    apply Qle_bool_iff in E. apply Qle_not_lt in E. tauto.
Qed.

Lemma ltb_lt x y : (x <? y) = true <-> x < y.
Proof. unfold Dec.ltb. rewrite negb_true_iff. apply leb_gt. Qed.

Lemma ltb_ge x y : (x <? y) = false <-> y <= x.
Proof. unfold Dec.ltb. rewrite negb_false_iff. apply leb_le. Qed.

Lemma gtb_gt x y : (x >? y) = true <-> y < x.
Proof. apply ltb_lt. Qed.

Lemma gtb_le x y : (x >? y) = false <-> x <= y.
Proof. apply ltb_ge. Qed.

Lemma min_l a b : a <= b -> Dec.min a b = a.
Proof. intro H. unfold Dec.min. apply ltb_ge in H. now rewrite H. Qed.

Lemma min_r a b : b <= a -> Dec.min a b = b.
Proof.
  intro H. unfold Dec.min. destruct (b <? a) eqn:E; auto.
  apply ltb_ge in E. dec_eq.
Qed.

Lemma max_l a b : b <= a -> Dec.max a b = a.
Proof. intro H. unfold Dec.max. apply gtb_le in H. now rewrite H. Qed.

Lemma max_r a b : a <= b -> Dec.max a b = b.
Proof.
  intro H. unfold Dec.max. destruct (b >? a) eqn:E; auto.
  apply gtb_le in E. dec_eq.
Qed.

Lemma max_ge_l a b : a <= Dec.max a b.
Proof.
  unfold Dec.max. destruct (b >? a) eqn:E.
  - apply gtb_gt in E. dec_lra.
  - dec_lra.
Qed.

Lemma max_ge_r a b : b <= Dec.max a b.
Proof.
  unfold Dec.max. destruct (b >? a) eqn:E.
  - dec_lra.
  - now apply gtb_le in E.
Qed.

Lemma quantize_zero : Dec.quantize_half_up 0 = 0.
Proof. dec_compute. Qed.

Lemma quantize_nonneg x : 0 <= x -> 0 <= Dec.quantize_half_up x.
Proof.
  intro H. unfold Dec.quantize_half_up.
  apply leb_le in H as Hb. rewrite Hb.
  assert (F : (0 <= Qfloor (x * Dec.dec 100 1 + Dec.dec 1 2)%Qc)%Z).
  { change 0%Z with (Qfloor 0). apply Qfloor_resp_le. dec_lra. }
  unfold Dec.le, Dec.zero, Dec.of_Z, Qcle, Q2Qc. cbn [this].
  rewrite !Qred_correct. unfold Qle. cbn [Qnum Qden inject_Z].
  revert F. generalize (Qfloor (x * Dec.dec 100 1 + Dec.dec 1 2)%Qc).
  intros; lia.
Qed.

Lemma floor_half (n : Z) : Qfloor ((2 * n + 1) # 2) = n.
Proof.
  unfold Qfloor. change (Z.pos 2) with 2%Z.
  symmetry. apply Z.div_unique with (r := 1%Z); lia.
Qed.

Lemma quantize_cents (n : Z) :
  Dec.quantize_half_up (Dec.dec n 100) = Dec.dec n 100.
Proof.
  unfold Dec.quantize_half_up.
  destruct (0 <=? Dec.dec n 100) eqn:E.
  - apply leb_le in E.
    assert (F : Qfloor (Dec.dec n 100 * Dec.dec 100 1 + Dec.dec 1 2)%Qc = n).
    { transitivity (Qfloor ((2 * n + 1) # 2)); [ | apply floor_half ].
      apply Qfloor_comp.
      clear E. dec_unfold. unfold Qeq. cbn [Qnum Qden Qplus Qmult]. lia. }
    rewrite F. reflexivity.
  - apply leb_gt in E.
    assert (F : Qfloor (Dec.neg (Dec.dec n 100) * Dec.dec 100 1 + Dec.dec 1 2)%Qc
                = (- n)%Z).
    { transitivity (Qfloor ((2 * (- n) + 1) # 2)); [ | apply floor_half ].
      apply Qfloor_comp.
      clear E. dec_unfold. unfold Qeq. cbn [Qnum Qden Qplus Qmult Qopp]. lia. }
    rewrite F. apply Qc_is_canon. clear. dec_unfold.
    unfold Qeq. cbn [Qnum Qden Qopp]. lia.
Qed.

Lemma quantize_is_cents x : Dec.is_cents (Dec.quantize_half_up x).
Proof.
  unfold Dec.quantize_half_up. destruct (0 <=? x).
  - eexists. reflexivity.
  - exists (- Qfloor (Dec.neg x * Dec.dec 100 1 + Dec.dec 1 2)%Qc)%Z.
    apply Qc_is_canon. generalize (Qfloor (Dec.neg x * Dec.dec 100 1 + Dec.dec 1 2)%Qc).
    intro z. dec_unfold. unfold Qeq. cbn [Qnum Qden Qopp]. lia.
Qed.

Lemma quantize_idem x : Dec.is_cents x -> Dec.quantize_half_up x = x.
Proof. intros [n ->]. apply quantize_cents. Qed.

Lemma is_cents_zero : Dec.is_cents 0.
Proof. exists 0%Z. dec_compute. Qed.

Lemma is_cents_add x y : Dec.is_cents x -> Dec.is_cents y -> Dec.is_cents (x + y).
Proof.
  intros [n ->] [m ->]. exists (n + m)%Z. apply Qc_is_canon.
  dec_unfold. unfold Qeq. cbn [Qnum Qden Qplus]. lia.
Qed.

(* ================================================================== *)
(** ** Calculator *)

Section CalculatorFacts.

Import Calculator.
Variable self : PayrollCalculator.

Lemma round_zero : _round 0 = 0.
Proof. apply quantize_zero. Qed.

Lemma nssf_spec gross :
  calculate_nssf self gross
  = Spec.social_security (config self nssf_tier1_rate)
                         (config self nssf_tier1_limit)
                         (config self nssf_tier2_rate)
                         (config self nssf_tier2_limit) gross.
Proof.
  unfold calculate_nssf, Spec.social_security, Spec.round, _round.
  replace (Dec.min gross (config self nssf_tier1_limit) * config self nssf_tier1_rate)
    with (config self nssf_tier1_rate * Dec.min gross (config self nssf_tier1_limit))
    by dec_ring.
  destruct (gross >? config self nssf_tier1_limit); [ | reflexivity ].
  replace ((Dec.min gross (config self nssf_tier2_limit)
            - config self nssf_tier1_limit) * config self nssf_tier2_rate)
    with (config self nssf_tier2_rate
          * (Dec.min gross (config self nssf_tier2_limit)
             - config self nssf_tier1_limit))
    by dec_ring.
  reflexivity.
Qed.

Lemma nssf_below_tier1 gross :
  gross <= config self nssf_tier1_limit ->
  calculate_nssf self gross = _round (config self nssf_tier1_rate * gross).
Proof.
  intro H. unfold calculate_nssf.
  rewrite (min_l _ _ H). apply gtb_le in H. rewrite H.
  replace (gross * config self nssf_tier1_rate)
    with (config self nssf_tier1_rate * gross) by dec_ring.
  dec_ring.
Qed.

Lemma nssf_above_tier2 gross :
  config self nssf_tier1_limit <= config self nssf_tier2_limit ->
  config self nssf_tier2_limit <= gross ->
  calculate_nssf self gross
  = _round (config self nssf_tier1_rate * config self nssf_tier1_limit)
    + _round (config self nssf_tier2_rate
              * (config self nssf_tier2_limit - config self nssf_tier1_limit)).
Proof.
  intros H12 H2. unfold calculate_nssf.
  assert (H1 : config self nssf_tier1_limit <= gross) by dec_lra.
  rewrite (min_r _ _ H1), (min_r _ _ H2).
  replace (config self nssf_tier1_limit * config self nssf_tier1_rate)
    with (config self nssf_tier1_rate * config self nssf_tier1_limit) by dec_ring.
  f_equal.
  destruct (gross >? config self nssf_tier1_limit) eqn:E.
  - f_equal. dec_ring.
  - apply gtb_le in E.
    assert (Z : config self nssf_tier2_limit - config self nssf_tier1_limit = 0)
      by dec_eq.
    rewrite Z.
    replace (config self nssf_tier2_rate * 0) with 0 by dec_ring.
    symmetry. apply round_zero.
Qed.

Lemma tax_loop_walk bounded top_rate :
  forall tax remaining previous,
    tax_loop (map (fun b => (Some (fst b), snd b)) bounded ++ [(None, top_rate)])%list
             tax remaining previous
    = tax + Spec.walk_bands previous bounded top_rate remaining.
Proof.
  induction bounded as [ | [upper rate] higher IH ]; intros tax remaining previous.
  - cbn [map app tax_loop Spec.walk_bands].
    destruct (remaining <=? 0); [ dec_ring | ].
    destruct (remaining - remaining <=? 0); reflexivity.
  - cbn [map app tax_loop Spec.walk_bands fst snd].
    destruct (remaining <=? 0); [ dec_ring | ].
    rewrite IH. unfold Spec.round, _round. dec_ring.
Qed.

Lemma calculate_tax_spec taxable_income :
  calculate_tax self taxable_income = Spec.tax_charged (config self) taxable_income.
Proof.
  unfold calculate_tax, Spec.tax_charged.
  destruct (taxable_income <=? 0) eqn:E.
  - cbn [Spec.walk_bands]. now rewrite E.
  - change (bands self)
      with (map (fun b => (Some (fst b), snd b))
                [ (config self band_1_limit, config self band_1_rate);
                  (config self band_2_limit, config self band_2_rate);
                  (config self band_3_limit, config self band_3_rate);
                  (config self band_4_limit, config self band_4_rate) ]
            ++ [(None, config self band_5_rate)])%list.
    rewrite tax_loop_walk. dec_ring.
Qed.

Lemma tax_loop_cents bs :
  forall tax remaining previous,
    Dec.is_cents tax -> Dec.is_cents (tax_loop bs tax remaining previous).
Proof.
  induction bs as [ | [limit rate] rest IH ]; intros tax remaining previous H.
  - exact H.
  - cbn [tax_loop]. destruct (remaining <=? 0); [ exact H | ].
    apply IH. apply is_cents_add; [ exact H | apply quantize_is_cents ].
Qed.

Lemma calculate_tax_cents taxable_income :
  Dec.is_cents (calculate_tax self taxable_income).
Proof.
  unfold calculate_tax. destruct (taxable_income <=? 0).
  - apply is_cents_zero.
  - apply tax_loop_cents, is_cents_zero.
Qed.

End CalculatorFacts.

Section CalculateFacts.

Import Calculator.
Variable self : PayrollCalculator.

Lemma insurance_relief_capped premium :
  calculate_insurance_relief self premium <= config self insurance_relief_max.
Proof.
  unfold calculate_insurance_relief, Dec.min.
  destruct (_ <? _) eqn:E.
  - dec_lra.
  - now apply ltb_ge in E.
Qed.

Ltac open_calculate :=
  unfold calculate, gross_of, allowance_sums, deduction_sums in *;
  repeat match goal with
         | |- context [fold_left allowance_step ?l ?a] =>
             destruct (fold_left allowance_step l a) as [[? ?] ?]
         | |- context [fold_left deduction_step ?l ?a] =>
             destruct (fold_left deduction_step l a) as [[[? ?] ?] ?]
         end;
  cbn [basic_salary taxable_allowances non_taxable_allowances gross_pay
       pension_contribution pension_deductible owner_occupied_interest
       taxable_income tax_charged r_personal_relief insurance_relief
       r_disability_exemption paye nssf sha housing_levy loan_deductions
       sacco_deductions other_deductions total_deductions net_pay
       allowance_details deduction_details].

Lemma calculate_tax_charged b a d p m i h :
  tax_charged (calculate self b a d p m i h)
  = calculate_tax self
      (Dec.max (gross_of b (match a with Some x => x | None => [] end)
                - calculate_nssf self
                    (gross_of b (match a with Some x => x | None => [] end))
                - Dec.min p (config self pension_max_deduction)
                - Dec.min m (config self mortgage_interest_max)) 0).
Proof.
  open_calculate. unfold _round.
  apply quantize_idem, calculate_tax_cents.
Qed.

Lemma calculate_paye b a d p m i h :
  paye (calculate self b a d p m i h)
  = _round (Dec.max (tax_charged (calculate self b a d p m i h)
                     - total_relief_of self i h) 0).
Proof.
  rewrite calculate_tax_charged.
  open_calculate. unfold total_relief_of. reflexivity.
Qed.

Lemma calculate_paye_nonneg b a d p m i h :
  0 <= paye (calculate self b a d p m i h).
Proof.
  rewrite calculate_paye. apply quantize_nonneg, max_ge_r.
Qed.

Lemma calculate_paye_zero b a d p m i h :
  tax_charged (calculate self b a d p m i h) <= total_relief_of self i h ->
  paye (calculate self b a d p m i h) = 0.
Proof.
  intro H. rewrite calculate_paye.
  rewrite max_r by dec_lra. apply round_zero.
Qed.

Lemma calculate_owner_occupied b a d p m i h :
  owner_occupied_interest (calculate self b a d p m i h)
  = _round (Dec.min m (config self mortgage_interest_max)).
Proof. open_calculate. reflexivity. Qed.

Lemma calculate_taxable_income b a d p m i h :
  taxable_income (calculate self b a d p m i h)
  = _round
      (Dec.max (gross_of b (match a with Some x => x | None => [] end)
                - calculate_nssf self
                    (gross_of b (match a with Some x => x | None => [] end))
                - Dec.min p (config self pension_max_deduction)
                - Dec.min m (config self mortgage_interest_max)) 0).
Proof. open_calculate. reflexivity. Qed.

End CalculateFacts.

(* ================================================================== *)
(** ** Dictionaries *)

Section DictFacts.

Variable V : Type.
Implicit Types (d : Dict V) (k : string) (v : V).

Lemma dict_get_set_same d k v : dict_get (dict_set d k v) k = Some v.
Proof.
  induction d as [ | [k' v'] rest IH ]; cbn.
  - now rewrite String.eqb_refl.
  - destruct (String.eqb k' k) eqn:E; cbn; rewrite E; auto.
Qed.

Lemma dict_get_set_other d k k' v :
  k' <> k -> dict_get (dict_set d k v) k' = dict_get d k'.
Proof.
  intro N. induction d as [ | [k0 v0] rest IH ]; cbn.
  - destruct (String.eqb_spec k k'); congruence.
  - destruct (String.eqb_spec k0 k); cbn.
    + subst. destruct (String.eqb_spec k k'); congruence.
    + destruct (String.eqb_spec k0 k'); auto.
Qed.

Lemma dict_set_keys_in d k v k' :
  In k' (map fst (dict_set d k v)) <-> k' = k \/ In k' (map fst d).
Proof.
  induction d as [ | [k0 v0] rest IH ]; cbn.
  - intuition.
  - destruct (String.eqb_spec k0 k); cbn.
    + subst. intuition.
    + rewrite IH. intuition.
Qed.

Lemma dict_set_NoDup d k v :
  NoDup (map fst d) -> NoDup (map fst (dict_set d k v)).
Proof.
  induction d as [ | [k0 v0] rest IH ]; cbn; intro H.
  - constructor; [ intros [] | constructor ].
  - inversion H as [ | ? ? Hn Hr ]; subst.
    destruct (String.eqb_spec k0 k); cbn.
    + constructor; auto.
    + constructor; auto.
      rewrite dict_set_keys_in. intros [ -> | ? ]; tauto.
Qed.

Lemma dict_get_None d k : ~ In k (map fst d) -> dict_get d k = None.
Proof.
  induction d as [ | [k0 v0] rest IH ]; cbn; intro H; auto.
  destruct (String.eqb_spec k0 k); [ tauto | auto ].
Qed.



Lemma dict_fill_NoDup (A : Type) (key : A -> string) (val : A -> V) :
  forall (rows : list A) d,
    NoDup (map fst d) ->
    NoDup (map fst (fold_left (fun acc x => dict_set acc (key x) (val x)) rows d)).
Proof.
  induction rows as [ | q rest IH ]; intros d H; cbn; auto.
  apply IH, dict_set_NoDup, H.
Qed.

End DictFacts.

(** ** Queries *)

Section OrmFacts.

Variable A : Type.
Variable le : A -> A -> bool.

Lemma insert_by_In x y (l : list A) :
  In y (insert_by le x l) <-> y = x \/ In y l.
Proof.
  induction l as [ | z l IH ]; cbn.
  - intuition.
  - destruct (le x z); cbn; [ intuition | ].
    rewrite IH. intuition.
Qed.

Lemma order_by_In y (l : list A) : In y (order_by le l) <-> In y l.
Proof.
  unfold order_by. induction l as [ | z l IH ]; cbn; [ tauto | ].
  rewrite insert_by_In, IH. intuition.
Qed.

Lemma first_In (l : list A) x : first l = Some x -> In x l.
Proof. destruct l; cbn; intro H; inversion H; auto. Qed.

End OrmFacts.

(** ** The deductions loop of [calculate] *)

Section DeductionLoop.

Import Calculator.





End DeductionLoop.

(* ================================================================== *)
(** ** Processor *)

Section ProcessorFacts.

Import Processor.
Variable globals : Globals.
Variable self : PayrollProcessor.

Lemma state_eta (s : State) :
  {| payroll_period := payroll_period s; db := db s |} = s.
Proof. now destruct s. Qed.

Lemma employee_result_entries d rows period employee :
  employee_result globals self (set_payroll_entries d rows) period employee
  = employee_result globals self d period employee.
Proof. reflexivity. Qed.

Lemma process_employee_eq employee (s : State) :
  process_employee globals self employee s
  = match employee_result globals self (db s) (payroll_period s) employee with
    | Raise e => (Raise e, s)
    | Ok result =>
        match upsert (payroll_entries (db s))
                     (PayrollPeriod.id (payroll_period s)) (User.id employee)
                     result with
        | Raise e => (Raise e, s)
        | Ok (rows, entry) =>
            (Ok entry,
             {| payroll_period := payroll_period s;
                db := set_payroll_entries (db s) rows |})
        end
    end.
Proof.
  destruct s as [p d].
  unfold process_employee, employee_result, transaction_atomic, bind,
    get_period, get_db, lift.
  cbn [payroll_period db].
  destruct (datetime_date _ _ _) as [ period_date | e ]; [ | reflexivity ].
  cbn [ret raise].
  destruct (get_employee_allowances _ _ _ _) as [ allowances | e ];
    [ | reflexivity ].
  cbn [ret raise].
  unfold update_or_create, upsert, bind, get_db, set_db, ret, raise.
  cbn [payroll_period db].
  destruct (filter _ (payroll_entries d)) as [ | found [ | ? ? ] ]; reflexivity.
Qed.

Lemma upsert_all_entries d rows0 period employees :
  forall rows,
    upsert_all globals self (set_payroll_entries d rows0) period employees rows
    = upsert_all globals self d period employees rows.
Proof.
  induction employees as [ | employee rest IH ]; intro rows; cbn [upsert_all].
  - reflexivity.
  - rewrite employee_result_entries.
    destruct (employee_result _ _ _ _ _) as [ result | e ]; [ | reflexivity ].
    destruct (upsert _ _ _ _) as [ [rows' entry] | e ]; [ apply IH | reflexivity ].
Qed.

Lemma for_each_cons (A : Type) (body : A -> M unit) x rest (s : State) :
  for_each (x :: rest) body s
  = match body x s with
    | (Ok _, s') => for_each rest body s'
    | (Raise e, s') => (Raise e, s')
    end.
Proof. reflexivity. Qed.

Lemma process_each_eq employee (s : State) :
  bind (process_employee globals self employee) (fun _ => ret tt) s
  = match employee_result globals self (db s) (payroll_period s) employee with
    | Raise e => (Raise e, s)
    | Ok result =>
        match upsert (payroll_entries (db s))
                     (PayrollPeriod.id (payroll_period s)) (User.id employee)
                     result with
        | Raise e => (Raise e, s)
        | Ok (rows, _) =>
            (Ok tt,
             {| payroll_period := payroll_period s;
                db := set_payroll_entries (db s) rows |})
        end
    end.
Proof.
  unfold bind. rewrite process_employee_eq.
  destruct (employee_result _ _ _ _ _) as [ result | e ]; [ | reflexivity ].
  destruct (upsert _ _ _ _) as [ [rows entry] | e ]; reflexivity.
Qed.

(** The loop of [process_all]: it leaves the in-memory period alone and,
    when no employee fails, rewrites the table of entries. *)
Lemma for_each_run employees :
  forall (s : State),
    let run :=
      for_each employees
               (fun employee => bind (process_employee globals self employee)
                                     (fun _ => ret tt)) s in
    payroll_period (snd run) = payroll_period s
    /\ match upsert_all globals self (db s) (payroll_period s) employees
                        (payroll_entries (db s)) with
       | Ok rows =>
           run = (Ok tt, {| payroll_period := payroll_period s;
                            db := set_payroll_entries (db s) rows |})
       | Raise e => fst run = Raise e
       end.
Proof.
  induction employees as [ | employee rest IH ]; intro s.
  - cbn. destruct s as [p d]. destruct d. split; reflexivity.
  - cbv zeta. rewrite for_each_cons, process_each_eq.
    cbn [upsert_all].
    destruct (employee_result _ _ _ _ _) as [ result | e ];
      [ | split; reflexivity ].
    destruct (upsert _ _ _ _) as [ [rows entry] | e ];
      [ | split; reflexivity ].
    specialize (IH {| payroll_period := payroll_period s;
                      db := set_payroll_entries (db s) rows |}).
    cbv zeta in IH. cbn [payroll_period db] in IH.
    destruct IH as [P E]. split; [ exact P | ].
    change (payroll_entries (set_payroll_entries (db s) rows)) with rows in E.
    rewrite upsert_all_entries in E.
    destruct (upsert_all _ _ _ _ _ rows) as [ rows' | e ]; exact E.
Qed.

Lemma save_eq (s : State) :
  save s
  = match with_name (payroll_period s) with
    | Raise e => (Raise e, s)
    | Ok p =>
        (Ok tt,
         {| payroll_period := p;
            db := set_payroll_periods
                    (db s) (write_period (payroll_periods (db s)) p) |})
    end.
Proof.
  destruct s as [p d].
  unfold save, with_name, bind, get_period, get_db, set_db, set_period, lift.
  cbn [payroll_period db].
  destruct (PayrollPeriod.name p) eqn:N.
  - destruct (PayrollPeriod.get_month_name p); reflexivity.
  - unfold ret. reflexivity.
Qed.

Lemma process_all_eq prepared_by now (s : State) :
  process_all globals self prepared_by now s
  = match upsert_all globals self (db s) (payroll_period s)
                     (get_active_employees (db s)) (payroll_entries (db s)) with
    | Raise e => (Raise e, s)
    | Ok rows =>
        let d1 := set_payroll_entries (db s) rows in
        let p1 := stamped (payroll_period s) prepared_by now
                          (entries d1 (payroll_period s)) in
        match with_name p1 with
        | Raise e => (Raise e, {| payroll_period := p1; db := db s |})
        | Ok p2 =>
            (Ok p2,
             {| payroll_period := p2;
                db := set_payroll_periods
                        d1 (write_period (payroll_periods d1) p2) |})
        end
    end.
Proof.
  unfold process_all, transaction_atomic.
  unfold bind at 1. unfold get_db at 1.
  unfold bind at 1.
  destruct (for_each_run (get_active_employees (db s)) s) as [P E].
  cbv zeta in P, E.
  destruct (upsert_all _ _ _ _ _ _) as [ rows | e ].
  - rewrite E. cbv zeta.
    unfold bind at 1. unfold get_period at 1.
    unfold bind at 1. unfold set_period at 1. cbn [payroll_period db].
    unfold bind at 1. unfold calculate_totals.
    unfold bind at 1. unfold get_period at 1.
    unfold bind at 1. unfold get_db at 1. cbn [payroll_period db].
    unfold bind at 1. unfold set_period at 1. cbn [payroll_period db].
    rewrite save_eq. cbn [payroll_period db].
    unfold stamped.
    destruct (with_name _) as [ p2 | e ]; reflexivity.
  - destruct (for_each _ _ s) as [r s'].
    cbn [fst snd] in *. subst r. rewrite P. now rewrite state_eta.
Qed.

Lemma approve_hr_eq approved_by comments now (s : State) :
  approve_hr approved_by comments now s
  = if negb (Status.eqb (PayrollPeriod.status (payroll_period s)) Status.PENDING_HR)
    then (Raise (ValueError "Payroll is not pending HR approval"), s)
    else saved (PayrollPeriod.set_status
                  (PayrollPeriod.set_hr_comments
                     (PayrollPeriod.set_hr_approved
                        (payroll_period s) (Some (User.id approved_by)) (Some now))
                     comments)
                  Status.PENDING_MANAGEMENT) s.
Proof.
  unfold approve_hr, transaction_atomic, saved.
  unfold bind at 1. unfold get_period at 1.
  destruct (negb _).
  - unfold raise. now rewrite state_eta.
  - unfold bind at 1. unfold set_period at 1.
    unfold bind at 1. rewrite save_eq. cbn [payroll_period db].
    destruct (with_name _); reflexivity.
Qed.

Lemma approve_management_eq approved_by comments now (s : State) :
  approve_management approved_by comments now s
  = if negb (Status.eqb (PayrollPeriod.status (payroll_period s))
                        Status.PENDING_MANAGEMENT)
    then (Raise (ValueError "Payroll is not pending management approval"), s)
    else saved (PayrollPeriod.set_status
                  (PayrollPeriod.set_mgmt_comments
                     (PayrollPeriod.set_mgmt_approved
                        (payroll_period s) (Some (User.id approved_by)) (Some now))
                     comments)
                  Status.APPROVED) s.
Proof.
  unfold approve_management, transaction_atomic, saved.
  unfold bind at 1. unfold get_period at 1.
  destruct (negb _).
  - unfold raise. now rewrite state_eta.
  - unfold bind at 1. unfold set_period at 1.
    unfold bind at 1. rewrite save_eq. cbn [payroll_period db].
    destruct (with_name _); reflexivity.
Qed.

Lemma reject_eq rejected_by comments (s : State) :
  reject rejected_by comments s
  = saved (rejected (payroll_period s) rejected_by comments) s.
Proof.
  unfold reject, transaction_atomic, saved, rejected.
  unfold bind at 1. unfold get_period at 1.
  unfold bind at 1. unfold set_period at 1.
  unfold bind at 1. rewrite save_eq. cbn [payroll_period db].
  destruct (with_name _); reflexivity.
Qed.

End ProcessorFacts.

(** ** What a successful or failed batch run leaves behind *)

Section RunFacts.

Import Processor.
Variable globals : Globals.
Variable self : PayrollProcessor.

Lemma with_name_fields p p2 :
  with_name p = Ok p2 ->
  PayrollPeriod.id p2 = PayrollPeriod.id p
  /\ PayrollPeriod.status p2 = PayrollPeriod.status p
  /\ totals p2 = totals p
  /\ PayrollPeriod.year p2 = PayrollPeriod.year p
  /\ PayrollPeriod.month p2 = PayrollPeriod.month p
  /\ PayrollPeriod.hr_approved_by p2 = PayrollPeriod.hr_approved_by p
  /\ PayrollPeriod.mgmt_approved_by p2 = PayrollPeriod.mgmt_approved_by p
  /\ PayrollPeriod.name p2 <> "".
Proof.
  unfold with_name. destruct (PayrollPeriod.name p) eqn:N.
  - destruct (PayrollPeriod.get_month_name p) as [ m | e ]; [ | discriminate ].
    intro H. inversion H; subst. cbn.
    repeat split; try reflexivity.
    destruct m; cbn; discriminate.
  - intro H. inversion H; subst.
    repeat split; try reflexivity. rewrite N. discriminate.
Qed.

Lemma with_name_named p :
  PayrollPeriod.name p <> "" -> with_name p = Ok p.
Proof.
  unfold with_name. destruct (PayrollPeriod.name p); [ congruence | reflexivity ].
Qed.

(** A successful [process_all]: the loop has rewritten the entries, and
    the period object has been stamped from them and saved. *)
Lemma process_all_ok prepared_by now (s s' : State) p :
  process_all globals self prepared_by now s = (Ok p, s') ->
  exists rows,
    upsert_all globals self (db s) (payroll_period s)
               (get_active_employees (db s)) (payroll_entries (db s)) = Ok rows
    /\ payroll_entries (db s') = rows
    /\ payroll_period s' = p
    /\ with_name (stamped (payroll_period s) prepared_by now
                          (entries (set_payroll_entries (db s) rows)
                                   (payroll_period s))) = Ok p
    /\ users (db s') = users (db s)
    /\ employee_allowances (db s') = employee_allowances (db s)
    /\ employee_deductions (db s') = employee_deductions (db s)
    /\ tax_tables (db s') = tax_tables (db s).
Proof.
  rewrite process_all_eq.
  destruct (upsert_all _ _ _ _ _ _) as [ rows | e ]; [ | discriminate ].
  cbv zeta. destruct (with_name _) as [ p2 | e ] eqn:W; [ | discriminate ].
  intro H. inversion H; subst. exists rows.
  repeat split; try reflexivity. exact W.
Qed.

(** A failed [process_all] whose loop failed: nothing has changed. *)
Lemma process_all_loop_raises prepared_by now (s : State) e :
  upsert_all globals self (db s) (payroll_period s)
             (get_active_employees (db s)) (payroll_entries (db s)) = Raise e ->
  process_all globals self prepared_by now s = (Raise e, s).
Proof. intro H. rewrite process_all_eq, H. reflexivity. Qed.

Lemma entries_after d periods p p2 :
  PayrollPeriod.id p2 = PayrollPeriod.id p ->
  entries (set_payroll_periods d periods) p2 = entries d p.
Proof. intro H. unfold entries. cbn. now rewrite H. Qed.

End RunFacts.

Lemma outcome_ok (A S : Type) (r : Result A * S) (default : A) :
  is_ok (fst r) = true -> r = (Ok (value_or (fst r) default), snd r).
Proof. destruct r as [[a | e] s]; cbn; [ reflexivity | discriminate ]. Qed.

Lemma write_period_In rows p : In p (Processor.write_period rows p).
Proof.
  induction rows as [ | row rest IH ]; cbn; [ now left | ].
  destruct (PayrollPeriod.id row =? PayrollPeriod.id p)%N; cbn; auto.
Qed.

Lemma sum_nil : Dec.sum [] = 0.
Proof. reflexivity. Qed.

(** ** Writing entries twice *)

Section UpsertFacts.

Import Processor.

Lemma filter_map_same (A : Type) (keep : A -> bool) (f : A -> A) (l : list A) :
  (forall x, keep (f x) = keep x) ->
  filter keep (map f l) = map f (filter keep l).
Proof.
  intro K. induction l as [ | x l IH ]; cbn; [ reflexivity | ].
  rewrite K. destruct (keep x); cbn; now rewrite IH.
Qed.

Lemma filter_map_fixed (A : Type) (keep : A -> bool) (f : A -> A) (l : list A) :
  (forall x, keep (f x) = keep x) ->
  (forall x, keep x = true -> f x = x) ->
  filter keep (map f l) = filter keep l.
Proof.
  intros K F. rewrite filter_map_same by exact K.
  induction l as [ | x l IH ]; cbn; [ reflexivity | ].
  destruct (keep x) eqn:E; cbn; [ | exact IH ].
  rewrite IH. now rewrite F.
Qed.

Lemma is_entry_of_defaults period employee row defaults :
  is_entry_of period employee (apply_defaults row defaults)
  = is_entry_of period employee row.
Proof. reflexivity. Qed.

Lemma apply_defaults_idem row defaults :
  apply_defaults (apply_defaults row defaults) defaults
  = apply_defaults row defaults.
Proof. reflexivity. Qed.

Lemma is_entry_of_new period employee employee' :
  is_entry_of period employee (new_entry period employee')
  = (employee' =? employee)%N.
Proof. unfold is_entry_of. cbn. now rewrite N.eqb_refl. Qed.

Lemma is_entry_of_other period employee employee' row :
  employee <> employee' ->
  is_entry_of period employee row = true ->
  is_entry_of period employee' row = false.
Proof.
  unfold is_entry_of. intros N H.
  apply andb_true_iff in H. destruct H as [_ H]. apply N.eqb_eq in H.
  apply andb_false_iff. right. apply N.eqb_neq. congruence.
Qed.

(** After [update_or_create] the entry of the employee is settled. *)
Lemma upsert_settles rows period employee defaults rows' entry :
  upsert rows period employee defaults = Ok (rows', entry) ->
  settled rows' period employee defaults.
Proof.
  unfold upsert, settled.
  destruct (filter (is_entry_of period employee) rows)
    as [ | found [ | ? ? ] ] eqn:F; intro H; inversion H; subst; clear H.
  - exists (apply_defaults (new_entry period employee) defaults).
    rewrite filter_app, F. cbn [filter app].
    rewrite is_entry_of_defaults, is_entry_of_new, N.eqb_refl.
    split; reflexivity.
  - exists (apply_defaults found defaults).
    rewrite filter_map_same.
    + rewrite F. cbn [map].
      assert (In found (filter (is_entry_of period employee) rows))
        as I by (rewrite F; now left).
      apply filter_In in I. destruct I as [_ I]. rewrite I.
      split; reflexivity.
    + intro x. destruct (is_entry_of period employee x) eqn:E;
        [ now rewrite is_entry_of_defaults | exact E ].
Qed.

(** [update_or_create] for one employee leaves the entries of the others. *)
Lemma upsert_other rows period employee employee' defaults rows' entry :
  upsert rows period employee' defaults = Ok (rows', entry) ->
  employee <> employee' ->
  filter (is_entry_of period employee) rows'
  = filter (is_entry_of period employee) rows.
Proof.
  unfold upsert. intros H N.
  destruct (filter (is_entry_of period employee') rows)
    as [ | found [ | ? ? ] ] eqn:F; inversion H; subst; clear H.
  - rewrite filter_app. cbn [filter].
    rewrite is_entry_of_defaults, is_entry_of_new.
    destruct (N.eqb_spec employee' employee); [ congruence | ].
    now rewrite app_nil_r.
  - apply filter_map_fixed.
    + intro x. destruct (is_entry_of period employee' x);
        [ now rewrite is_entry_of_defaults | reflexivity ].
    + intros x E.
      now rewrite (is_entry_of_other period employee employee' x N E).
Qed.

(** On a settled entry [update_or_create] changes nothing. *)
Lemma upsert_settled rows period employee defaults :
  settled rows period employee defaults ->
  exists entry, upsert rows period employee defaults = Ok (rows, entry).
Proof.
  intros (row & F & Fix). unfold upsert. rewrite F.
  exists (apply_defaults row defaults). f_equal. f_equal.
  rewrite <- (map_id rows) at 2. apply map_ext_in.
  intros x I. destruct (is_entry_of period employee x) eqn:E; [ | reflexivity ].
  assert (In x (filter (is_entry_of period employee) rows)) as I'
      by (apply filter_In; auto).
  rewrite F in I'. destruct I' as [ <- | [] ]. exact Fix.
Qed.

Variable globals : Globals.
Variable self : PayrollProcessor.

Lemma upsert_all_other d period employees employee :
  forall rows rows',
    upsert_all globals self d period employees rows = Ok rows' ->
    (forall e, In e employees -> User.id e <> employee) ->
    filter (is_entry_of (PayrollPeriod.id period) employee) rows'
    = filter (is_entry_of (PayrollPeriod.id period) employee) rows.
Proof.
  induction employees as [ | e rest IH ]; intros rows rows' H N; cbn in H.
  - now inversion H.
  - destruct (employee_result _ _ _ _ _) as [ result | ? ]; [ | discriminate ].
    destruct (upsert _ _ _ _) as [ [rows1 entry] | ? ] eqn:U; [ | discriminate ].
    rewrite (IH _ _ H) by (intros; apply N; now right).
    apply (upsert_other _ _ _ _ _ _ _ U).
    intro E. apply (N e); [ now left | now symmetry ].
Qed.

(** After a loop that went through, every employee of the loop has a
    settled entry. *)
Lemma upsert_all_settles d period employees :
  forall rows rows',
    NoDup (map User.id employees) ->
    upsert_all globals self d period employees rows = Ok rows' ->
    forall e, In e employees ->
      exists result,
        employee_result globals self d period e = Ok result
        /\ settled rows' (PayrollPeriod.id period) (User.id e) result.
Proof.
  induction employees as [ | e0 rest IH ]; intros rows rows' D H e I.
  - destruct I.
  - cbn in H. inversion D as [ | ? ? Hn Hd ]; subst.
    destruct (employee_result globals self d period e0) as [ result | ? ] eqn:R;
      [ | discriminate ].
    destruct (upsert _ _ _ _) as [ [rows1 entry] | ? ] eqn:U; [ | discriminate ].
    destruct I as [ <- | I ].
    + exists result. split; [ exact R | ].
      destruct (upsert_settles _ _ _ _ _ _ U) as (row & F & Fix).
      exists row. split; [ | exact Fix ].
      rewrite (upsert_all_other _ _ _ _ _ _ H); [ exact F | ].
      intros e' I' E. apply Hn. rewrite <- E. now apply in_map.
    + apply (IH _ _ Hd H e I).
Qed.

(** A loop over employees whose entries are all settled changes nothing. *)
Lemma upsert_all_settled d period employees rows :
  (forall e, In e employees ->
     exists result,
       employee_result globals self d period e = Ok result
       /\ settled rows (PayrollPeriod.id period) (User.id e) result) ->
  upsert_all globals self d period employees rows = Ok rows.
Proof.
  induction employees as [ | e0 rest IH ]; intro H; cbn; [ reflexivity | ].
  destruct (H e0 (or_introl eq_refl)) as (result & R & S).
  rewrite R. destruct (upsert_settled _ _ _ _ S) as (entry & U). rewrite U.
  apply IH. intros e I. apply H. now right.
Qed.

(** The calculation for an employee reads the period's year and month,
    the allowances and the deductions, and nothing else of the state. *)
Lemma employee_result_indep d d' period period' employee :
  employee_allowances d' = employee_allowances d ->
  employee_deductions d' = employee_deductions d ->
  PayrollPeriod.year period' = PayrollPeriod.year period ->
  PayrollPeriod.month period' = PayrollPeriod.month period ->
  employee_result globals self d' period' employee
  = employee_result globals self d period employee.
Proof.
  intros A D Y M.
  unfold employee_result, get_employee_allowances, get_employee_deductions,
    deduction_rows, get_pension_contribution, pension_row,
    get_insurance_premium, insurance_row.
  now rewrite A, D, Y, M.
Qed.

Lemma upsert_all_indep d d' period period' employees :
  employee_allowances d' = employee_allowances d ->
  employee_deductions d' = employee_deductions d ->
  PayrollPeriod.year period' = PayrollPeriod.year period ->
  PayrollPeriod.month period' = PayrollPeriod.month period ->
  PayrollPeriod.id period' = PayrollPeriod.id period ->
  forall rows,
    upsert_all globals self d' period' employees rows
    = upsert_all globals self d period employees rows.
Proof.
  intros A D Y M I.
  induction employees as [ | e rest IH ]; intro rows; cbn; [ reflexivity | ].
  rewrite (employee_result_indep d d' period period' e A D Y M), I.
  destruct (employee_result _ _ _ _ _); [ | reflexivity ].
  destruct (upsert _ _ _ _) as [ [rows1 entry] | ? ]; [ apply IH | reflexivity ].
Qed.

Lemma order_by_Permutation (A : Type) (le : A -> A -> bool) (l : list A) :
  Permutation (order_by le l) l.
Proof.
  assert (Ins : forall x m, Permutation (insert_by le x m) (x :: m)).
  { intros x m. induction m as [ | y m IH ]; cbn; [ reflexivity | ].
    destruct (le x y); [ reflexivity | ].
    rewrite IH. apply perm_swap. }
  unfold order_by. induction l as [ | x l IH ]; cbn; [ reflexivity | ].
  rewrite Ins. now constructor.
Qed.

Lemma NoDup_map_filter (A B : Type) (f : A -> B) (keep : A -> bool) (l : list A) :
  NoDup (map f l) -> NoDup (map f (filter keep l)).
Proof.
  induction l as [ | x l IH ]; cbn; intro H; [ constructor | ].
  inversion H as [ | ? ? Hn Hd ]; subst.
  destruct (keep x); cbn; [ | auto ].
  constructor; [ | auto ].
  intro I. apply Hn. apply in_map_iff in I. destruct I as (y & E & I).
  apply filter_In in I. rewrite <- E. apply in_map. tauto.
Qed.

Lemma active_employees_NoDup d :
  NoDup (map User.id (users d)) ->
  NoDup (map User.id (get_active_employees d)).
Proof.
  intro H. unfold get_active_employees, User.ordering.
  eapply Permutation_NoDup.
  - apply Permutation_map. symmetry.
    etransitivity; apply order_by_Permutation.
  - now apply NoDup_map_filter.
Qed.

End UpsertFacts.

(* ================================================================== *)
(** * The claims *)

(** ** Dictionaries filled from query rows *)

Section FillFacts.

Variables (V A : Type) (key : A -> string) (val : A -> V).

Lemma find_last (f : A -> bool) (l : list A) (x : A) :
  find f (l ++ [x])%list
  = match find f l with
    | Some y => Some y
    | None => if f x then Some x else None
    end.
Proof.
  induction l as [ | y l IH ]; cbn; [ reflexivity | ].
  destruct (f y); [ reflexivity | exact IH ].
Qed.

(** Under a key the filled dictionary holds the value of the last row
    with that key. *)
Lemma dict_fill_last (k : string) :
  forall (rows : list A) (d : Dict V),
    dict_get (fold_left (fun acc x => dict_set acc (key x) (val x)) rows d) k
    = match find (fun x => String.eqb (key x) k) (rev rows) with
      | Some x => Some (val x)
      | None => dict_get d k
      end.
Proof.
  induction rows as [ | q rest IH ]; intro d; cbn [fold_left rev];
    [ reflexivity | ].
  rewrite IH, find_last.
  destruct (find _ (rev rest)); [ reflexivity | ].
  destruct (String.eqb_spec (key q) k) as [ E | N ].
  - rewrite <- E. apply dict_get_set_same.
  - apply dict_get_set_other. congruence.
Qed.

Lemma dict_set_length (d : Dict V) k v :
  (List.length (dict_set d k v) <= S (List.length d))%nat.
Proof.
  induction d as [ | [k0 v0] rest IH ]; cbn; [ lia | ].
  destruct (String.eqb k0 k); cbn; lia.
Qed.

Lemma dict_fill_length :
  forall (rows : list A) (d : Dict V),
    (List.length (fold_left (fun acc x => dict_set acc (key x) (val x)) rows d)
     <= List.length rows + List.length d)%nat.
Proof.
  induction rows as [ | q rest IH ]; intro d; cbn [fold_left]; [ cbn; lia | ].
  pose proof (IH (dict_set d (key q) (val q))) as H.
  pose proof (dict_set_length d (key q) (val q)). cbn [List.length]. lia.
Qed.

End FillFacts.

Section Claims.

Import Processor.

(** ** C3 *)

(** C3. After a successful [process_all] (a first run or a later
  reprocessing alike), each aggregate total of the period (gross, net,
  PAYE, social security, health levy, housing levy) is the sum of that
  field over all entries the period then has; this holds of the period
  object returned, which is also the row stored. *)
Theorem C3_totals_equal_entry_sums
      (globals : Globals) (self : PayrollProcessor)
      (prepared_by : User.t) (now : DateTime) (s s' : State)
      (p : PayrollPeriod.t) :
process_all globals self prepared_by now s = (Ok p, s') ->
let current := entries (db s') p in
PayrollPeriod.total_gross p = Dec.sum (map PayrollEntry.gross_pay current)
/\ PayrollPeriod.total_net p = Dec.sum (map PayrollEntry.net_pay current)
/\ PayrollPeriod.total_paye p = Dec.sum (map PayrollEntry.paye current)
/\ PayrollPeriod.total_nssf p = Dec.sum (map PayrollEntry.nssf current)
/\ PayrollPeriod.total_sha p = Dec.sum (map PayrollEntry.sha current)
/\ PayrollPeriod.total_housing_levy p
   = Dec.sum (map PayrollEntry.housing_levy current)
/\ payroll_period s' = p
/\ In p (payroll_periods (db s')).
Proof.
intro H. rewrite process_all_eq in H.
destruct (upsert_all _ _ _ _ _ _) as [ rows | e ]; [ | discriminate ].
cbv zeta in H. destruct (with_name _) as [ p2 | e ] eqn:W; [ | discriminate ].
inversion H; subst; clear H.
destruct (with_name_fields _ _ W) as (Hid & _ & Ht & _).
cbv zeta. cbn [db payroll_period].
rewrite (entries_after _ _ (payroll_period s) p) by exact Hid.
unfold totals in Ht. inversion Ht as [ [H1 H2 H3 H4 H5 H6] ].
repeat split; try reflexivity.
cbn. apply write_period_In.
Qed.

Lemma C3_totals_equal_entry_sums_witness :
let run :=
  process_all module_globals (Sample.processor Sample.db_unstaffed)
              Sample.officer 5000%Z
              (Sample.state Sample.db_unstaffed Sample.period_may) in
is_ok (fst run) = true
/\ PayrollPeriod.total_gross (value_or (fst run) Sample.period_may)
   = Dec.of_Z 50000
/\ PayrollPeriod.total_gross (value_or (fst run) Sample.period_may)
   = Dec.sum (map PayrollEntry.gross_pay
                  (entries (db (snd run)) (value_or (fst run) Sample.period_may))).
Proof.
cbv zeta.
assert (O : is_ok (fst (process_all module_globals
                          (Sample.processor Sample.db_unstaffed)
                          Sample.officer 5000%Z
                          (Sample.state Sample.db_unstaffed Sample.period_may)))
            = true) by (vm_compute; reflexivity).
split; [ exact O | ].
split; [ dec_compute | ].
exact (proj1 (C3_totals_equal_entry_sums _ _ _ _ _ _ _
                (outcome_ok _ _ _ Sample.period_may O))).
Defined.

(** ** C8 *)

Lemma allowances_name_error d employee period_date :
  get_employee_allowances module_globals d employee period_date
  = Raise (NameError "models").
Proof. reflexivity. Qed.

Lemma employee_result_raises self d period employee :
  exists e,
    employee_result module_globals self d period employee = Raise e
    /\ (is_ok (datetime_date (PayrollPeriod.year period)
                             (PayrollPeriod.month period) 1) = true ->
        e = NameError "models").
Proof.
  unfold employee_result.
  destruct (datetime_date _ _ _) as [ period_date | e ].
  - rewrite allowances_name_error. eexists; split; reflexivity.
  - exists e. split; [ reflexivity | discriminate ].
Qed.

Lemma upsert_all_raises self d period employees rows :
  employees <> [] ->
  exists e,
    upsert_all module_globals self d period employees rows = Raise e
    /\ (is_ok (datetime_date (PayrollPeriod.year period)
                             (PayrollPeriod.month period) 1) = true ->
        e = NameError "models").
Proof.
  destruct employees as [ | employee rest ]; [ congruence | intros _ ].
  cbn [upsert_all].
  destruct (employee_result_raises self d period employee) as (e & E & N).
  rewrite E. exists e. split; [ reflexivity | exact N ].
Qed.

(** C8. [get_employee_allowances] refers to the name [models], which the
    namespace of [processor.py] does not bind, so it raises [NameError] for
    every employee.  Hence [process_all] raises, leaving the period object
    and every table as they were, whenever there is an active employee (the
    exception is this [NameError] when the period has a valid year and
    month); and when it completes, the active workforce was empty, the
    period is stamped [PENDING_HR], no entry has been written, and each
    total is the sum over the entries that the period already had, which
    is zero for a period that has no entries.  With an empty
    active workforce and a named period it does complete. *)
Theorem C8_allowance_lookup_raises_name_error (self : PayrollProcessor) :
  (forall d employee period_date,
      get_employee_allowances module_globals d employee period_date
      = Raise (NameError "models"))
  /\ (forall prepared_by now (s : State),
         get_active_employees (db s) <> [] ->
         exists e,
           process_all module_globals self prepared_by now s = (Raise e, s)
           /\ (is_ok (datetime_date
                        (PayrollPeriod.year (payroll_period s))
                        (PayrollPeriod.month (payroll_period s)) 1) = true ->
               e = NameError "models"))
  /\ (forall prepared_by now (s s' : State) p,
         process_all module_globals self prepared_by now s = (Ok p, s') ->
         get_active_employees (db s) = []
         /\ PayrollPeriod.status p = Status.PENDING_HR
         /\ payroll_entries (db s') = payroll_entries (db s)
         /\ totals p = entry_sums (entries (db s) (payroll_period s))
         /\ (entries (db s) (payroll_period s) = [] ->
             PayrollPeriod.total_gross p = 0
             /\ PayrollPeriod.total_net p = 0
             /\ PayrollPeriod.total_paye p = 0
             /\ PayrollPeriod.total_nssf p = 0
             /\ PayrollPeriod.total_sha p = 0
             /\ PayrollPeriod.total_housing_levy p = 0))
  /\ (forall prepared_by now (s : State),
         get_active_employees (db s) = [] ->
         PayrollPeriod.name (payroll_period s) <> "" ->
         is_ok (fst (process_all module_globals self prepared_by now s)) = true).
Proof.
  split; [ | split; [ | split ] ].
  - intros. apply allowances_name_error.
  - intros prepared_by now s H.
    destruct (upsert_all_raises self (db s) (payroll_period s)
                (get_active_employees (db s)) (payroll_entries (db s)) H)
      as (e & E & N).
    exists e. split; [ | exact N ].
    now apply process_all_loop_raises.
  - intros prepared_by now s s' p H.
    destruct (get_active_employees (db s)) as [ | employee rest ] eqn:A.
    + apply process_all_ok in H.
      destruct H as (rows & U & R & _ & W & _).
      rewrite A in U. cbn [upsert_all] in U.
      assert (U' : payroll_entries (db s) = rows) by congruence.
      rewrite <- U' in *. clear U U' rows.
      destruct (with_name_fields _ _ W) as (_ & St & Ht & _).
      split; [ reflexivity | ].
      split; [ exact St | ].
      split; [ exact R | ].
      split; [ exact Ht | ].
      intro Empty.
      assert (En : entries (set_payroll_entries (db s) (payroll_entries (db s)))
                           (payroll_period s) = []) by exact Empty.
      rewrite En in Ht. unfold totals in Ht.
      inversion Ht as [ [H1 H2 H3 H4 H5 H6] ].
      change (Dec.sum []) with 0 in H1.
      repeat split; congruence.
    + exfalso.
      assert (N : get_active_employees (db s) <> []) by (rewrite A; discriminate).
      destruct (upsert_all_raises self (db s) (payroll_period s)
                  (get_active_employees (db s)) (payroll_entries (db s)) N)
        as (e & E & _).
      rewrite (process_all_loop_raises _ _ _ _ _ _ E) in H. discriminate.
  - intros prepared_by now s A Named.
    rewrite process_all_eq, A. cbn [upsert_all]. cbv zeta.
    rewrite with_name_named by exact Named. reflexivity.
Qed.

Lemma C8_allowance_lookup_raises_name_error_witness :
  fst (process_all module_globals (Sample.processor Sample.db_staffed)
                   Sample.officer 5000%Z
                   (Sample.state Sample.db_staffed Sample.period_may))
  = Raise (NameError "models")
  /\ snd (process_all module_globals (Sample.processor Sample.db_staffed)
                      Sample.officer 5000%Z
                      (Sample.state Sample.db_staffed Sample.period_may))
     = Sample.state Sample.db_staffed Sample.period_may.
Proof.
  destruct (proj1 (proj2 (C8_allowance_lookup_raises_name_error
                            (Sample.processor Sample.db_staffed)))
                  Sample.officer 5000%Z
                  (Sample.state Sample.db_staffed Sample.period_may))
    as (e & E & N).
  - vm_compute. discriminate.
  - rewrite E. cbn [fst snd]. split; [ | reflexivity ].
    f_equal. apply N. vm_compute. reflexivity.
Defined.

(** C8 as claimed fails: a run that completes need not leave zero totals.
    The May period of a workforce without active employees holds the entry
    of a former employee; [process_all] completes on it and the total gross
    pay is the 50,000 of that entry. *)
Lemma C8_counterexample :
  ~ (is_ok (fst (process_all module_globals
                   (Sample.processor Sample.db_unstaffed) Sample.officer 5000%Z
                   (Sample.state Sample.db_unstaffed Sample.period_may)))
     = true ->
     PayrollPeriod.total_gross
       (value_or (fst (process_all module_globals
                         (Sample.processor Sample.db_unstaffed)
                         Sample.officer 5000%Z
                         (Sample.state Sample.db_unstaffed Sample.period_may)))
                 Sample.period_may)
     = 0).
Proof.
  intro H.
  assert (T : PayrollPeriod.total_gross
                (value_or (fst (process_all module_globals
                                  (Sample.processor Sample.db_unstaffed)
                                  Sample.officer 5000%Z
                                  (Sample.state Sample.db_unstaffed
                                                Sample.period_may)))
                          Sample.period_may)
              = Dec.of_Z 50000) by dec_compute.
  rewrite T in H.
  assert (Z : Dec.of_Z 50000 = 0) by (apply H; vm_compute; reflexivity).
  apply (f_equal (fun x : Decimal => Qnum (this x))) in Z.
  vm_compute in Z. discriminate.
Qed.

(** ** C1 *)

Lemma get_calculator_default d today :
  TaxTable.get_active (tax_tables d) today None = None ->
  _get_calculator d today = Calculator.init None.
Proof. unfold _get_calculator. now intros ->. Qed.

Lemma init_none_config key :
  Calculator.config (Calculator.init None) key = Calculator.DEFAULT_CONFIG key.
Proof. reflexivity. Qed.

(** C1, as the code has it.  The tax table is looked up once, when the
    processor is constructed, with [TaxTable.get_active()].  When no table
    is found, the processor holds the calculator built with no argument,
    whose configuration is [DEFAULT_CONFIG]; constructing the processor does
    not fail, and every calculation of [process_employee] is the one of
    [PayrollCalculator()]. *)
Theorem C1_missing_tax_table_falls_back_to_defaults
        (d : Database) (today : Date) (period : PayrollPeriod.t) :
  TaxTable.get_active (tax_tables d) today None = None ->
  calculator (fst (init d today period)) = Calculator.init None
  /\ (forall key,
         Calculator.config (calculator (fst (init d today period))) key
         = Calculator.DEFAULT_CONFIG key)
  /\ snd (init d today period) = {| payroll_period := period; db := d |}
  /\ (forall employee allowances deductions pension insurance,
         calculate_payroll (fst (init d today period)) employee allowances
                           deductions pension insurance
         = Calculator.calculate (Calculator.init None)
             (User.basic_salary employee) (Some allowances) (Some deductions)
             pension 0 insurance (User.has_disability employee)).
Proof.
  intro H. cbn [init fst snd calculator].
  rewrite (get_calculator_default _ _ H).
  repeat split; try reflexivity.
Qed.

Lemma C1_missing_tax_table_falls_back_to_defaults_witness :
  calculator (fst (init Sample.db_staffed Sample.today Sample.period_may))
  = Calculator.init None
  /\ Calculator.config
       (calculator (fst (init Sample.db_staffed Sample.today Sample.period_may)))
       Calculator.personal_relief
     = Calculator.DEFAULT_CONFIG Calculator.personal_relief.
Proof.
  split.
  - exact (proj1 (C1_missing_tax_table_falls_back_to_defaults
                    Sample.db_staffed Sample.today Sample.period_may eq_refl)).
  - exact (proj1 (proj2 (C1_missing_tax_table_falls_back_to_defaults
                           Sample.db_staffed Sample.today Sample.period_may
                           eq_refl))
                 Calculator.personal_relief).
Defined.

(** C1 as claimed fails: with no tax table at all, neither for the current
    date nor for the period date, [process_all] completes. *)
Lemma C1_counterexample :
  ~ (TaxTable.get_active (tax_tables Sample.db_unstaffed) Sample.today None = None ->
     TaxTable.get_active (tax_tables Sample.db_unstaffed) Sample.today
                         (Some Sample.may_1) = None ->
     is_ok (fst (process_all module_globals
                   (fst (init Sample.db_unstaffed Sample.today Sample.period_may))
                   Sample.officer 5000%Z
                   (snd (init Sample.db_unstaffed Sample.today Sample.period_may))))
     = false).
Proof.
  intro H. specialize (H eq_refl eq_refl). vm_compute in H. discriminate.
Qed.

(** With [models] bound, the entries of a staffed run are computed and
    written under the default configuration as well. *)
Lemma default_configuration_run_writes_entries :
  TaxTable.get_active (tax_tables Sample.db_staffed) Sample.today None = None
  /\ map PayrollEntry.employee
         (payroll_entries
            (db (snd (process_all Sample.globals_with_models
                        (Sample.processor Sample.db_staffed)
                        Sample.officer 5000%Z
                        (Sample.state Sample.db_staffed Sample.period_may)))))
     = [1%N].
Proof. split; vm_compute; reflexivity. Qed.

(** ** C2 *)

Lemma approve_hr_guard approved_by comments now (s : State) :
  PayrollPeriod.status (payroll_period s) <> Status.PENDING_HR ->
  approve_hr approved_by comments now s
  = (Raise (ValueError "Payroll is not pending HR approval"), s).
Proof.
  intro H. rewrite approve_hr_eq.
  destruct (PayrollPeriod.status (payroll_period s)); try reflexivity.
  congruence.
Qed.

Lemma approve_management_guard approved_by comments now (s : State) :
  PayrollPeriod.status (payroll_period s) <> Status.PENDING_MANAGEMENT ->
  approve_management approved_by comments now s
  = (Raise (ValueError "Payroll is not pending management approval"), s).
Proof.
  intro H. rewrite approve_management_eq.
  destruct (PayrollPeriod.status (payroll_period s)); try reflexivity.
  congruence.
Qed.

Lemma rejected_fields p rejected_by comments :
  PayrollPeriod.status (rejected p rejected_by comments) = Status.DRAFT
  /\ PayrollPeriod.hr_approved_by (rejected p rejected_by comments) = None
  /\ PayrollPeriod.mgmt_approved_by (rejected p rejected_by comments) = None
  /\ PayrollPeriod.name (rejected p rejected_by comments) = PayrollPeriod.name p.
Proof.
  unfold rejected. cbn.
  destruct (PayrollPeriod.hr_comments p); cbn; repeat split; reflexivity.
Qed.

(** C2, where the code departs from it.  [approve_hr] and
    [approve_management] check the status and raise [ValueError] with the
    state untouched.  [reject] and [process_all] check nothing: on a period
    of any status (with a name, so that [save] cannot fail) [reject] returns
    a period in [DRAFT] with both approval stamps cleared, and with no
    active employee [process_all] returns it in [PENDING_HR]; so they do on
    the approved May period. *)
Theorem C2_reject_and_process_all_have_no_status_guard
        (globals : Globals) (self : PayrollProcessor) :
  (forall approved_by comments now (s : State),
      PayrollPeriod.status (payroll_period s) <> Status.PENDING_HR ->
      approve_hr approved_by comments now s
      = (Raise (ValueError "Payroll is not pending HR approval"), s))
  /\ (forall approved_by comments now (s : State),
         PayrollPeriod.status (payroll_period s) <> Status.PENDING_MANAGEMENT ->
         approve_management approved_by comments now s
         = (Raise (ValueError "Payroll is not pending management approval"), s))
  /\ (forall rejected_by comments (s : State),
         PayrollPeriod.name (payroll_period s) <> "" ->
         exists p s',
           reject rejected_by comments s = (Ok p, s')
           /\ PayrollPeriod.status p = Status.DRAFT
           /\ PayrollPeriod.hr_approved_by p = None
           /\ PayrollPeriod.mgmt_approved_by p = None)
  /\ (forall prepared_by now (s : State),
         PayrollPeriod.name (payroll_period s) <> "" ->
         get_active_employees (db s) = [] ->
         exists p s',
           process_all globals self prepared_by now s = (Ok p, s')
           /\ PayrollPeriod.status p = Status.PENDING_HR)
  /\ PayrollPeriod.status Sample.period_may_approved = Status.APPROVED
  /\ option_map PayrollPeriod.status
       (match fst (reject Sample.officer "late change"
                          (Sample.state Sample.db_unstaffed
                                        Sample.period_may_approved)) with
        | Ok p => Some p
        | Raise _ => None
        end)
     = Some Status.DRAFT.
Proof.
  split; [ | split; [ | split; [ | split; [ | split ] ] ] ].
  - intros. now apply approve_hr_guard.
  - intros. now apply approve_management_guard.
  - intros rejected_by comments s Named.
    rewrite reject_eq. unfold saved.
    destruct (rejected_fields (payroll_period s) rejected_by comments)
      as (St & Hr & Mg & Nm).
    rewrite with_name_named by (rewrite Nm; exact Named).
    eexists. eexists. split; [ reflexivity | ]. auto.
  - intros prepared_by now s Named A.
    rewrite process_all_eq, A. cbn [upsert_all]. cbv zeta.
    rewrite with_name_named by exact Named.
    eexists. eexists. split; reflexivity.
  - reflexivity.
  - vm_compute. reflexivity.
Qed.

Lemma C2_reject_and_process_all_have_no_status_guard_witness :
  (exists p s',
      reject Sample.officer "late change"
             (Sample.state Sample.db_unstaffed Sample.period_may_approved)
      = (Ok p, s')
      /\ PayrollPeriod.status p = Status.DRAFT
      /\ PayrollPeriod.hr_approved_by p = None
      /\ PayrollPeriod.mgmt_approved_by p = None)
  /\ (exists p s',
         process_all module_globals (Sample.processor Sample.db_unstaffed)
                     Sample.officer 5000%Z
                     (Sample.state Sample.db_unstaffed Sample.period_may_approved)
         = (Ok p, s')
         /\ PayrollPeriod.status p = Status.PENDING_HR)
  /\ approve_hr Sample.officer "ok" 6000%Z
               (Sample.state Sample.db_unstaffed Sample.period_may_approved)
     = (Raise (ValueError "Payroll is not pending HR approval"),
        Sample.state Sample.db_unstaffed Sample.period_may_approved).
Proof.
  destruct (C2_reject_and_process_all_have_no_status_guard
              module_globals (Sample.processor Sample.db_unstaffed))
    as (Hhr & _ & Hrej & Hall & _).
  split; [ | split ].
  - apply Hrej. vm_compute. discriminate.
  - apply Hall; [ vm_compute; discriminate | vm_compute; reflexivity ].
  - apply Hhr. vm_compute. discriminate.
Defined.

(** ** C5 *)

(** C5. The social-security contribution is the two-tier sum of the
    specification, each tier rounded half-up to two decimals before summing:
    [round(rate1 * min(gross, limit1))] plus, when [gross > limit1],
    [round(rate2 * (min(gross, limit2) - limit1))].  For a gross pay up to
    the tier-1 limit it is [round(rate1 * gross)]; from the tier-2 limit on
    (the tier-1 limit not exceeding the tier-2 limit) it is the cap
    [round(rate1 * limit1) + round(rate2 * (limit2 - limit1))], whatever
    the gross pay.  Under the default configuration: 300.00 at 5,000,
    420.00 at 7,000, 2,160.00 at 36,000 and at 100,000. *)
Theorem C5_social_security_two_tier
        (self : Calculator.PayrollCalculator) (gross : Decimal) :
  let rate1 := Calculator.config self Calculator.nssf_tier1_rate in
  let limit1 := Calculator.config self Calculator.nssf_tier1_limit in
  let rate2 := Calculator.config self Calculator.nssf_tier2_rate in
  let limit2 := Calculator.config self Calculator.nssf_tier2_limit in
  Calculator.calculate_nssf self gross
  = Spec.social_security rate1 limit1 rate2 limit2 gross
  /\ (gross <= limit1 ->
      Calculator.calculate_nssf self gross = Spec.round (rate1 * gross))
  /\ (limit1 <= limit2 -> limit2 <= gross ->
      Calculator.calculate_nssf self gross
      = Spec.round (rate1 * limit1) + Spec.round (rate2 * (limit2 - limit1)))
  /\ Calculator.calculate_nssf Sample.default_calculator (Dec.of_Z 5000)
     = Dec.of_Z 300
  /\ Calculator.calculate_nssf Sample.default_calculator (Dec.of_Z 7000)
     = Dec.of_Z 420
  /\ Calculator.calculate_nssf Sample.default_calculator (Dec.of_Z 36000)
     = Dec.of_Z 2160
  /\ Calculator.calculate_nssf Sample.default_calculator (Dec.of_Z 100000)
     = Dec.of_Z 2160.
Proof.
  cbv zeta.
  split; [ apply nssf_spec | ].
  split; [ apply nssf_below_tier1 | ].
  split; [ apply nssf_above_tier2 | ].
  repeat split; dec_compute.
Qed.

Lemma C5_social_security_two_tier_witness :
  Calculator.calculate_nssf Sample.default_calculator (Dec.of_Z 6999)
  = Spec.round (Dec.dec 6 100 * Dec.of_Z 6999)
  /\ Calculator.calculate_nssf Sample.default_calculator (Dec.of_Z 250000)
     = Spec.round (Dec.dec 6 100 * Dec.of_Z 7000)
       + Spec.round (Dec.dec 6 100 * (Dec.of_Z 36000 - Dec.of_Z 7000)).
Proof.
  split.
  - apply (proj1 (proj2 (C5_social_security_two_tier
                           Sample.default_calculator (Dec.of_Z 6999)))).
    vm_compute. discriminate.
  - apply (proj1 (proj2 (proj2 (C5_social_security_two_tier
                                  Sample.default_calculator (Dec.of_Z 250000))))).
    + vm_compute. discriminate.
    + vm_compute. discriminate.
Defined.

(** ** C6 *)

(** C6. For every taxable income (in particular every non-negative one)
    the tax charged is the walk over the ordered bands that the
    specification describes: from the lowest band up, each bounded band
    consumes [min(remaining, upper limit - previous upper limit)] at its
    rate, the final band is unbounded, each band's tax is rounded half-up
    to two decimals before it is added, and the walk stops when nothing
    remains.  Under the default configuration a taxable income of 30,000
    gives exactly 3,900.00 and one of 20,000 gives 2,000.00. *)
Theorem C6_tax_charged_walks_the_bands
        (self : Calculator.PayrollCalculator) (taxable_income : Decimal) :
  Calculator.calculate_tax self taxable_income
  = Spec.tax_charged (Calculator.config self) taxable_income
  /\ Calculator.calculate_tax Sample.default_calculator (Dec.of_Z 30000)
     = Dec.dec 390000 100
  /\ Calculator.calculate_tax Sample.default_calculator (Dec.of_Z 20000)
     = Dec.dec 200000 100.
Proof.
  split; [ apply calculate_tax_spec | ].
  split; dec_compute.
Qed.

(** ** C7 *)

(** C7. PAYE is [max(tax_charged - total_relief, 0)] rounded, where the
    total relief is the personal relief plus the insurance relief (which
    never exceeds its cap) plus, when the disability flag is set, the
    disability exemption.  PAYE is never negative, and it is zero whenever
    the total relief is at least the tax charged.  Under the default
    configuration a basic salary of 50,000 with the flag set gives PAYE
    0.00 and a net pay strictly above the one without the flag. *)
Theorem C7_paye_is_tax_less_relief_floored_at_zero
        (self : Calculator.PayrollCalculator)
        (basic_salary : Decimal)
        (allowances : option (Dict Calculator.AllowanceItem))
        (deductions : option (Dict Calculator.DeductionItem))
        (pension_contribution mortgage_interest insurance_premium : Decimal)
        (has_disability : bool) :
  let result :=
    Calculator.calculate self basic_salary allowances deductions
      pension_contribution mortgage_interest insurance_premium has_disability in
  let total_relief :=
    Calculator.config self Calculator.personal_relief
    + Calculator.calculate_insurance_relief self insurance_premium
    + (if has_disability
       then Calculator.config self Calculator.disability_exemption else 0) in
  Calculator.paye result
  = Spec.round (Dec.max (Calculator.tax_charged result - total_relief) 0)
  /\ Calculator.calculate_insurance_relief self insurance_premium
     <= Calculator.config self Calculator.insurance_relief_max
  /\ 0 <= Calculator.paye result
  /\ (Calculator.tax_charged result <= total_relief -> Calculator.paye result = 0)
  /\ Calculator.paye (Sample.result_50000 true) = Dec.dec 0 100
  /\ Calculator.net_pay (Sample.result_50000 false)
     < Calculator.net_pay (Sample.result_50000 true).
Proof.
  cbv zeta.
  split; [ apply calculate_paye | ].
  split; [ apply insurance_relief_capped | ].
  split; [ apply calculate_paye_nonneg | ].
  split; [ apply calculate_paye_zero | ].
  split; [ dec_compute | vm_compute; reflexivity ].
Qed.

Lemma C7_paye_is_tax_less_relief_floored_at_zero_witness :
  Calculator.paye (Sample.result_50000 true) = 0.
Proof.
  apply (proj1 (proj2 (proj2 (proj2
           (C7_paye_is_tax_less_relief_floored_at_zero
              Sample.default_calculator (Dec.of_Z 50000) None None 0 0 0 true))))).
  vm_compute. discriminate.
Defined.

(** ** C9 *)

(** C9. [process_employee] calls the calculator without a mortgage
    interest, so the argument takes its default 0.  For a configuration
    whose mortgage cap is not negative, the owner-occupied interest of the
    result, which is what the entry stores, is exactly 0, and the taxable
    income is the gross pay less the social-security contribution and the
    capped pension only, floored at zero and rounded: no mortgage interest
    reduces it, whatever the data of the employee.  So it is for every entry
    that [process_employee] returns. *)
Theorem C9_no_mortgage_interest_reaches_the_calculator
        (self : PayrollProcessor) (employee : User.t)
        (allowances : Dict Calculator.AllowanceItem)
        (deductions : Dict Calculator.DeductionItem)
        (pension insurance : Decimal) :
  0 <= Calculator.config (calculator self) Calculator.mortgage_interest_max ->
  let result :=
    calculate_payroll self employee allowances deductions pension insurance in
  let gross := gross_of (User.basic_salary employee) allowances in
  result
  = Calculator.calculate (calculator self) (User.basic_salary employee)
      (Some allowances) (Some deductions) pension 0 insurance
      (User.has_disability employee)
  /\ Calculator.owner_occupied_interest result = 0
  /\ Calculator.taxable_income result
     = Spec.round
         (Dec.max (gross
                   - Calculator.calculate_nssf (calculator self) gross
                   - Dec.min pension
                       (Calculator.config (calculator self)
                                          Calculator.pension_max_deduction))
                  0)
  /\ (forall globals (s s' : State) entry,
         process_employee globals self employee s = (Ok entry, s') ->
         PayrollEntry.owner_occupied_interest entry = 0).
Proof.
  intro Cap. cbv zeta.
  assert (Z : Dec.min 0 (Calculator.config (calculator self)
                                           Calculator.mortgage_interest_max) = 0)
    by (apply min_l; exact Cap).
  assert (O : forall a d p i,
             Calculator.owner_occupied_interest
               (calculate_payroll self employee a d p i) = 0).
  { intros. unfold calculate_payroll.
    rewrite calculate_owner_occupied, Z. apply round_zero. }
  split; [ reflexivity | ].
  split; [ apply O | ].
  split.
  - unfold calculate_payroll. rewrite calculate_taxable_income, Z.
    unfold Spec.round, Calculator._round. f_equal. f_equal. dec_ring.
  - intros globals s s' entry H.
    rewrite process_employee_eq in H.
    unfold employee_result in H.
    destruct (datetime_date _ _ _) as [ period_date | e ]; [ | discriminate ].
    destruct (get_employee_allowances _ _ _ _) as [ al | e ]; [ | discriminate ].
    unfold upsert in H.
    destruct (filter _ _) as [ | found [ | ? ? ] ]; inversion H; subst; clear H;
      cbn [apply_defaults PayrollEntry.owner_occupied_interest]; apply O.
Qed.

Lemma C9_no_mortgage_interest_reaches_the_calculator_witness :
  Calculator.owner_occupied_interest
    (calculate_payroll (Sample.processor Sample.db_staffed) Sample.alice
                       [] [] (Dec.of_Z 1080) (Dec.of_Z 2000))
  = 0.
Proof.
  apply (proj1 (proj2 (C9_no_mortgage_interest_reaches_the_calculator
                         (Sample.processor Sample.db_staffed) Sample.alice
                         [] [] (Dec.of_Z 1080) (Dec.of_Z 2000)
                         ltac:(vm_compute; discriminate)))).
Defined.

(** ** C4 *)

Lemma stamped_name p prepared_by now rows :
  PayrollPeriod.name (stamped p prepared_by now rows) = PayrollPeriod.name p.
Proof. reflexivity. Qed.

(** C4. When [process_all] has completed on a period, running it again
    with the workforce and the compensation data as they are (user ids
    being unique, as primary keys are) completes as well and is idempotent:
    the table of entries after the second run is the table after the first,
    so the entry count is the same and nothing is duplicated; each active
    employee has exactly one entry of the period, the one keyed by
    (period, employee), which the second run has updated in place; and the
    six totals of the period are the same. *)
Theorem C4_reprocessing_is_idempotent
        (globals : Globals) (self : PayrollProcessor)
        (prepared_by prepared_by' : User.t) (now now' : DateTime)
        (s s1 : State) (p1 : PayrollPeriod.t) :
  NoDup (map User.id (users (db s))) ->
  process_all globals self prepared_by now s = (Ok p1, s1) ->
  exists p2 s2,
    process_all globals self prepared_by' now' s1 = (Ok p2, s2)
    /\ payroll_entries (db s2) = payroll_entries (db s1)
    /\ List.length (payroll_entries (db s2)) = List.length (payroll_entries (db s1))
    /\ entries (db s2) p2 = entries (db s1) p1
    /\ totals p2 = totals p1
    /\ (forall employee,
           In employee (get_active_employees (db s1)) ->
           List.length (filter (is_entry_of (PayrollPeriod.id p2) (User.id employee))
                               (payroll_entries (db s2))) = 1%nat).
Proof.
  intros D H.
  destruct (process_all_ok _ _ _ _ _ _ _ H)
    as (rows & U & R & P & W & Us & Al & De & _).
  destruct (with_name_fields _ _ W) as (Id & _ & Tot & Yr & Mo & _ & _ & Named).
  cbn in Id, Yr, Mo.
  assert (Act : get_active_employees (db s1) = get_active_employees (db s))
    by (unfold get_active_employees; now rewrite Us).
  pose proof (upsert_all_settles globals self _ _ _ _ _
                (active_employees_NoDup _ D) U) as Settled.
  assert (U2 : upsert_all globals self (db s1) (payroll_period s1)
                          (get_active_employees (db s1)) (payroll_entries (db s1))
               = Ok rows).
  { rewrite R. rewrite P. rewrite Act.
    rewrite (upsert_all_indep globals self (db s) (db s1) (payroll_period s) p1
               _ Al De Yr Mo Id).
    apply upsert_all_settled. exact Settled. }
  rewrite process_all_eq, U2. cbv zeta.
  rewrite with_name_named by (rewrite stamped_name, P; exact Named).
  eexists. eexists. split; [ reflexivity | ].
  cbn [db payroll_period payroll_entries set_payroll_periods set_payroll_entries].
  assert (E : entries (set_payroll_entries (db s1) rows) (payroll_period s1)
              = entries (set_payroll_entries (db s) rows) (payroll_period s)).
  { unfold entries. cbn. now rewrite P, Id. }
  split; [ now rewrite R | ].
  split; [ now rewrite R | ].
  split.
  - rewrite (entries_after _ _ p1) by (cbn; now rewrite P).
    unfold entries. cbn [payroll_entries set_payroll_entries]. now rewrite R.
  - split.
    + rewrite Tot, E. reflexivity.
    + intros employee I. rewrite Act in I.
      destruct (Settled employee I) as (result & _ & row & F & _).
      cbn. rewrite P, Id, F. reflexivity.
Qed.

Lemma C4_reprocessing_is_idempotent_witness :
  (let first_run :=
     process_all Sample.globals_with_models (Sample.processor Sample.db_staffed)
                 Sample.officer 5000%Z
                 (Sample.state Sample.db_staffed Sample.period_may) in
   exists p2 s2,
     process_all Sample.globals_with_models (Sample.processor Sample.db_staffed)
                 Sample.officer 6000%Z (snd first_run) = (Ok p2, s2)
     /\ payroll_entries (db s2) = payroll_entries (db (snd first_run))
     /\ totals p2 = totals (value_or (fst first_run) Sample.period_may))
  /\ (let first_run :=
        process_all module_globals (Sample.processor Sample.db_unstaffed)
                    Sample.officer 5000%Z
                    (Sample.state Sample.db_unstaffed Sample.period_may) in
      exists p2 s2,
        process_all module_globals (Sample.processor Sample.db_unstaffed)
                    Sample.officer 6000%Z (snd first_run) = (Ok p2, s2)
        /\ payroll_entries (db s2) = payroll_entries (db (snd first_run))
        /\ totals p2 = totals (value_or (fst first_run) Sample.period_may)).
Proof.
  assert (O1 : is_ok (fst (process_all Sample.globals_with_models
                             (Sample.processor Sample.db_staffed)
                             Sample.officer 5000%Z
                             (Sample.state Sample.db_staffed Sample.period_may)))
               = true) by (vm_compute; reflexivity).
  assert (O2 : is_ok (fst (process_all module_globals
                             (Sample.processor Sample.db_unstaffed)
                             Sample.officer 5000%Z
                             (Sample.state Sample.db_unstaffed Sample.period_may)))
               = true) by (vm_compute; reflexivity).
  assert (D1 : NoDup (map User.id (users (db (Sample.state Sample.db_staffed
                                                           Sample.period_may)))))
    by (vm_compute; repeat constructor; cbn; intuition discriminate).
  assert (D2 : NoDup (map User.id (users (db (Sample.state Sample.db_unstaffed
                                                           Sample.period_may)))))
    by (vm_compute; repeat constructor; cbn; intuition discriminate).
  split; cbv zeta.
  - destruct (C4_reprocessing_is_idempotent
                Sample.globals_with_models (Sample.processor Sample.db_staffed)
                Sample.officer Sample.officer 5000%Z 6000%Z
                (Sample.state Sample.db_staffed Sample.period_may) _ _
                D1 (outcome_ok _ _ _ Sample.period_may O1))
      as (p2 & s2 & H & E & _ & _ & T & _).
    exists p2, s2. auto.
  - destruct (C4_reprocessing_is_idempotent
                module_globals (Sample.processor Sample.db_unstaffed)
                Sample.officer Sample.officer 5000%Z 6000%Z
                (Sample.state Sample.db_unstaffed Sample.period_may) _ _
                D2 (outcome_ok _ _ _ Sample.period_may O2))
      as (p2 & s2 & H & E & _ & _ & T & _).
    exists p2, s2. auto.
Defined.

(** ** C10 *)











End Claims.

(* ================================================================== *)
(** * Further properties of the code *)

(* ================================================================== *)
(** * Further properties of the calculator *)

(** ** Decimals seen as rationals *)

Lemma le_this (x y : Decimal) : x <= y <-> (this x <= this y)%Q.
Proof. reflexivity. Qed.

Lemma lt_this (x y : Decimal) : x < y <-> (this x < this y)%Q.
Proof. reflexivity. Qed.

Lemma eq_this (x y : Decimal) : x = y <-> (this x == this y)%Q.
Proof. split; [ now intros -> | apply Qc_is_canon ]. Qed.

Lemma this_zero : (this 0%dec == 0)%Q.
Proof. reflexivity. Qed.

Lemma this_add (x y : Decimal) : (this (x + y) == this x + this y)%Q.
Proof. unfold Dec.add, Qcplus, Q2Qc. cbn [this]. now rewrite Qred_correct. Qed.

Lemma this_sub (x y : Decimal) : (this (x - y) == this x - this y)%Q.
Proof.
  unfold Dec.sub, Qcminus, Qcplus, Qcopp, Q2Qc. cbn [this].
  now rewrite !Qred_correct.
Qed.

Lemma this_mul (x y : Decimal) : (this (x * y) == this x * this y)%Q.
Proof. unfold Dec.mul, Qcmult, Q2Qc. cbn [this]. now rewrite Qred_correct. Qed.

Lemma this_neg (x : Decimal) : (this (Dec.neg x) == - this x)%Q.
Proof. unfold Dec.neg, Qcopp, Q2Qc. cbn [this]. now rewrite Qred_correct. Qed.

Lemma this_dec n d : (this (Dec.dec n d) == n # d)%Q.
Proof. unfold Dec.dec, Q2Qc. cbn [this]. now rewrite Qred_correct. Qed.

Lemma this_cents (z : Z) : (this (Dec.dec z 100) == inject_Z z * (1 # 100))%Q.
Proof.
  rewrite this_dec. unfold Qeq, inject_Z. cbn [Qnum Qden Qmult]. lia.
Qed.

Lemma this_scaled (x : Decimal) :
  (this (x * Dec.dec 100 1 + Dec.dec 1 2)%Qc == this x * 100 + (1 # 2))%Q.
Proof.
  unfold Dec.dec, Qcplus, Qcmult, Q2Qc. cbn [this].
  rewrite !Qred_correct. reflexivity.
Qed.

Lemma sign_cases (x : Decimal) : 0 <= x \/ x < 0.
Proof.
  destruct (0 <=? x) eqn:E; [ left; now apply leb_le | right; now apply leb_gt ].
Qed.

Lemma order_cases (x y : Decimal) : x <= y \/ y < x.
Proof.
  destruct (x <=? y) eqn:E; [ left; now apply leb_le | right; now apply leb_gt ].
Qed.

Lemma neg_neg (x : Decimal) : Dec.neg (Dec.neg x) = x.
Proof. apply eq_this. rewrite !this_neg. ring. Qed.

Lemma mul_le_r (a b r : Decimal) : a <= b -> 0 <= r -> a * r <= b * r.
Proof.
  rewrite !le_this, !this_mul, this_zero. intros H R.
  now apply Qmult_le_compat_r.
Qed.

Lemma mul_nonneg (a r : Decimal) : 0 <= a -> 0 <= r -> 0 <= a * r.
Proof.
  rewrite !le_this, !this_mul, this_zero. intros H R.
  now apply Qmult_le_0_compat.
Qed.

Lemma mul_zero_l (r : Decimal) : 0 * r = 0.
Proof. apply eq_this. rewrite this_mul, this_zero. ring. Qed.

(** Case analysis on Python's [min] and [max]. *)
Lemma min_cases (a b : Decimal) :
  (a <= b /\ Dec.min a b = a) \/ (b < a /\ Dec.min a b = b).
Proof.
  unfold Dec.min. destruct (b <? a) eqn:E.
  - right. split; [ now apply ltb_lt | reflexivity ].
  - left. split; [ now apply ltb_ge | reflexivity ].
Qed.

Lemma max_cases (a b : Decimal) :
  (b <= a /\ Dec.max a b = a) \/ (a < b /\ Dec.max a b = b).
Proof.
  unfold Dec.max, Dec.gtb. destruct (a <? b) eqn:E.
  - right. split; [ now apply ltb_lt | reflexivity ].
  - left. split; [ now apply ltb_ge | reflexivity ].
Qed.

Ltac minmax :=
  repeat match goal with
         | |- context [Dec.min ?a ?b] =>
             let H := fresh in let E := fresh in
             destruct (min_cases a b) as [ [H E] | [H E] ]; rewrite E in *; clear E
         | |- context [Dec.max ?a ?b] =>
             let H := fresh in let E := fresh in
             destruct (max_cases a b) as [ [H E] | [H E] ]; rewrite E in *; clear E
         | X : context [Dec.min ?a ?b] |- _ =>
             let H := fresh in let E := fresh in
             destruct (min_cases a b) as [ [H E] | [H E] ]; rewrite E in *; clear E
         | X : context [Dec.max ?a ?b] |- _ =>
             let H := fresh in let E := fresh in
             destruct (max_cases a b) as [ [H E] | [H E] ]; rewrite E in *; clear E
         end.

(** Linear reasoning on decimals through their rational values. *)
Ltac dec_linear :=
  repeat match goal with
         | H : _ <= _ |- _ => rewrite le_this in H
         | H : _ < _ |- _ => rewrite lt_this in H
         | H : @eq Decimal _ _ |- _ => apply eq_this in H
         end;
  try apply eq_this;
  rewrite ?le_this, ?lt_this;
  repeat (rewrite ?this_add, ?this_sub, ?this_neg, ?this_zero in * );
  lra.

(** ** [_round] *)

Lemma floor_bounds (q : Q) :
  (inject_Z (Qfloor q) <= q /\ q < inject_Z (Qfloor q) + 1)%Q.
Proof.
  split; [ apply Qfloor_le | ].
  generalize (Qlt_floor q). rewrite inject_Z_plus. auto.
Qed.

Lemma quantize_pos x :
  0 <= x ->
  Dec.quantize_half_up x
  = Dec.dec (Qfloor (x * Dec.dec 100 1 + Dec.dec 1 2)%Qc) 100.
Proof. intro H. unfold Dec.quantize_half_up. apply leb_le in H. now rewrite H. Qed.

Lemma quantize_neg x :
  x < 0 ->
  Dec.quantize_half_up x
  = Dec.neg (Dec.dec (Qfloor (Dec.neg x * Dec.dec 100 1 + Dec.dec 1 2)%Qc) 100).
Proof. intro H. unfold Dec.quantize_half_up. apply leb_gt in H. now rewrite H. Qed.

Lemma quantize_error x :
  x - Dec.dec 1 200 <= Dec.quantize_half_up x
  /\ Dec.quantize_half_up x <= x + Dec.dec 1 200.
Proof.
  rewrite !le_this, this_sub, this_add, this_dec.
  destruct (sign_cases x) as [H | H].
  - rewrite (quantize_pos x H), this_cents.
    destruct (floor_bounds (this (x * Dec.dec 100 1 + Dec.dec 1 2)%Qc)) as [L U].
    set (f := inject_Z _) in *. clearbody f.
    rewrite this_scaled in L, U. lra.
  - rewrite (quantize_neg x H), this_neg, this_cents.
    destruct (floor_bounds (this (Dec.neg x * Dec.dec 100 1 + Dec.dec 1 2)%Qc))
      as [L U].
    set (f := inject_Z _) in *. clearbody f.
    rewrite this_scaled, this_neg in L, U. lra.
Qed.

Lemma quantize_monotone x y :
  x <= y -> Dec.quantize_half_up x <= Dec.quantize_half_up y.
Proof.
  intro H. rewrite le_this in *.
  assert (C : forall a b : Z,
             (a <= b)%Z ->
             (inject_Z a * (1 # 100) <= inject_Z b * (1 # 100))%Q).
  { intros a b L. rewrite Zle_Qle in L. lra. }
  destruct (sign_cases x) as [Hx | Hx], (sign_cases y) as [Hy | Hy].
  - rewrite (quantize_pos x Hx), (quantize_pos y Hy), !this_cents.
    apply C, Qfloor_resp_le. rewrite !this_scaled. lra.
  - exfalso. rewrite le_this, this_zero in Hx. rewrite lt_this, this_zero in Hy. lra.
  - rewrite (quantize_neg x Hx), (quantize_pos y Hy), this_neg, !this_cents.
    rewrite le_this, this_zero in Hy. rewrite lt_this, this_zero in Hx.
    assert (F1 : (0 <= Qfloor (Dec.neg x * Dec.dec 100 1 + Dec.dec 1 2)%Qc)%Z).
    { change 0%Z with (Qfloor 0). apply Qfloor_resp_le.
      rewrite this_scaled, this_neg. lra. }
    assert (F2 : (0 <= Qfloor (y * Dec.dec 100 1 + Dec.dec 1 2)%Qc)%Z).
    { change 0%Z with (Qfloor 0). apply Qfloor_resp_le. rewrite this_scaled. lra. }
    rewrite Zle_Qle in F1, F2.
    change (inject_Z 0) with 0%Q in *.
    set (f := inject_Z _) in *. clearbody f.
    set (g := inject_Z _) in *. clearbody g. lra.
  - rewrite (quantize_neg x Hx), (quantize_neg y Hy), !this_neg, !this_cents.
    assert (F : (Qfloor (Dec.neg y * Dec.dec 100 1 + Dec.dec 1 2)%Qc
                 <= Qfloor (Dec.neg x * Dec.dec 100 1 + Dec.dec 1 2)%Qc)%Z).
    { apply Qfloor_resp_le. rewrite !this_scaled, !this_neg. lra. }
    apply C in F. lra.
Qed.

Lemma quantize_odd x :
  Dec.quantize_half_up (Dec.neg x) = Dec.neg (Dec.quantize_half_up x).
Proof.
  destruct (sign_cases x) as [H | H].
  - destruct (order_cases x 0) as [Z | P].
    + assert (x = 0) as -> by dec_linear.
      apply Qc_is_canon. vm_compute. reflexivity.
    + assert (N : Dec.neg x < 0) by dec_linear.
      rewrite (quantize_neg _ N), (quantize_pos _ H), neg_neg. reflexivity.
  - assert (N : 0 <= Dec.neg x) by dec_linear.
    rewrite (quantize_pos _ N), (quantize_neg _ H), neg_neg. reflexivity.
Qed.

Lemma quantize_tie (n : Z) :
  (0 <= n)%Z ->
  Dec.quantize_half_up (Dec.dec (2 * n + 1) 200) = Dec.dec (n + 1) 100.
Proof.
  intro H.
  assert (P : 0 <= Dec.dec (2 * n + 1) 200).
  { rewrite le_this, this_zero, this_dec. unfold Qle. cbn [Qnum Qden]. lia. }
  rewrite (quantize_pos _ P). f_equal.
  transitivity (Qfloor (inject_Z (n + 1))); [ | apply Qfloor_Z ].
  apply Qfloor_comp. rewrite this_scaled, this_dec.
  unfold Qeq, inject_Z. cbn [Qnum Qden Qplus Qmult]. lia.
Qed.

(** X1.  [_round] gives a value with two decimals that is within half a
    cent of its argument; a value with two decimals is not changed, so
    rounding twice is rounding once. *)
Theorem round_is_nearest_cent (value : Decimal) :
  Dec.is_cents (Calculator._round value)
  /\ value - Dec.dec 1 200 <= Calculator._round value
  /\ Calculator._round value <= value + Dec.dec 1 200
  /\ (Dec.is_cents value -> Calculator._round value = value)
  /\ Calculator._round (Calculator._round value) = Calculator._round value.
Proof.
  unfold Calculator._round.
  split; [ apply quantize_is_cents | ].
  split; [ apply quantize_error | ].
  split; [ apply quantize_error | ].
  split; [ apply quantize_idem | ].
  apply quantize_idem, quantize_is_cents.
Qed.

(** X2.  [_round] is monotone and odd, and a tie goes away from zero:
    [(2n+1)/200] rounds to [(n+1)/100] and its opposite to the opposite. *)
Theorem round_monotone_ties_away_from_zero (x y : Decimal) (n : Z) :
  (x <= y -> Calculator._round x <= Calculator._round y)
  /\ Calculator._round (Dec.neg x) = Dec.neg (Calculator._round x)
  /\ ((0 <= n)%Z ->
      Calculator._round (Dec.dec (2 * n + 1) 200) = Dec.dec (n + 1) 100
      /\ Calculator._round (Dec.neg (Dec.dec (2 * n + 1) 200))
         = Dec.neg (Dec.dec (n + 1) 100)).
Proof.
  unfold Calculator._round.
  split; [ apply quantize_monotone | ].
  split; [ apply quantize_odd | ].
  intro H. split; [ now apply quantize_tie | ].
  rewrite quantize_odd. f_equal. now apply quantize_tie.
Qed.

(** ** Statutory deductions *)

Section StatutoryFacts.

Import Calculator.
Variable self : PayrollCalculator.

Lemma round_mul_monotone (a b r : Decimal) :
  a <= b -> 0 <= r -> _round (a * r) <= _round (b * r).
Proof. intros. apply quantize_monotone. now apply mul_le_r. Qed.

Lemma round_mul_nonneg (a r : Decimal) :
  0 <= a -> 0 <= r -> 0 <= _round (a * r).
Proof. intros. apply quantize_nonneg. now apply mul_nonneg. Qed.

Lemma round_mul_zero (r : Decimal) : _round (0 * r) = 0.
Proof. rewrite mul_zero_l. apply quantize_zero. Qed.

(** The two tiers of [calculate_nssf] without the test on the gross pay. *)
Lemma nssf_clamped gross :
  config self nssf_tier1_limit <= config self nssf_tier2_limit ->
  calculate_nssf self gross
  = _round (Dec.min gross (config self nssf_tier1_limit)
            * config self nssf_tier1_rate)
    + _round (Dec.max (Dec.min gross (config self nssf_tier2_limit)
                       - config self nssf_tier1_limit) 0
              * config self nssf_tier2_rate).
Proof.
  intro L. unfold calculate_nssf. f_equal.
  destruct (gross >? config self nssf_tier1_limit) eqn:E.
  - apply gtb_gt in E. f_equal. f_equal. symmetry. apply max_l.
    minmax; dec_linear.
  - apply gtb_le in E. rewrite max_r by (minmax; dec_linear).
    symmetry. apply round_mul_zero.
Qed.

Lemma add_le (a b c d : Decimal) : a <= b -> c <= d -> a + c <= b + d.
Proof. intros. dec_linear. Qed.

Lemma nssf_monotone gross gross' :
  config self nssf_tier1_limit <= config self nssf_tier2_limit ->
  0 <= config self nssf_tier1_rate ->
  0 <= config self nssf_tier2_rate ->
  gross <= gross' ->
  calculate_nssf self gross <= calculate_nssf self gross'.
Proof.
  intros L R1 R2 G. rewrite !nssf_clamped by exact L.
  apply add_le; apply round_mul_monotone; try assumption;
    minmax; dec_linear.
Qed.

End StatutoryFacts.

(** X3.  The health contribution and the housing levy are the rate times
    the gross pay, to the nearest cent; they are zero on a zero gross pay
    and, for a rate that is not negative, never negative on a gross pay that
    is not negative and monotone in the gross pay. *)
Theorem sha_and_housing_levy_follow_gross
        (self : Calculator.PayrollCalculator) (gross gross' : Decimal) :
  0 <= Calculator.config self Calculator.sha_rate ->
  0 <= Calculator.config self Calculator.housing_levy_rate ->
  Calculator.calculate_sha self 0 = 0
  /\ Calculator.calculate_housing_levy self 0 = 0
  /\ gross * Calculator.config self Calculator.sha_rate - Dec.dec 1 200
     <= Calculator.calculate_sha self gross
  /\ Calculator.calculate_sha self gross
     <= gross * Calculator.config self Calculator.sha_rate + Dec.dec 1 200
  /\ gross * Calculator.config self Calculator.housing_levy_rate - Dec.dec 1 200
     <= Calculator.calculate_housing_levy self gross
  /\ Calculator.calculate_housing_levy self gross
     <= gross * Calculator.config self Calculator.housing_levy_rate + Dec.dec 1 200
  /\ (0 <= gross ->
      0 <= Calculator.calculate_sha self gross
      /\ 0 <= Calculator.calculate_housing_levy self gross)
  /\ (gross <= gross' ->
      Calculator.calculate_sha self gross <= Calculator.calculate_sha self gross'
      /\ Calculator.calculate_housing_levy self gross
         <= Calculator.calculate_housing_levy self gross').
Proof.
  intros S H. unfold Calculator.calculate_sha, Calculator.calculate_housing_levy.
  split; [ apply round_mul_zero | ].
  split; [ apply round_mul_zero | ].
  split; [ apply quantize_error | ].
  split; [ apply quantize_error | ].
  split; [ apply quantize_error | ].
  split; [ apply quantize_error | ].
  split.
  - intro G. split; now apply round_mul_nonneg.
  - intro G. split; now apply round_mul_monotone.
Qed.

Lemma sha_and_housing_levy_follow_gross_witness :
  Calculator.calculate_sha Sample.default_calculator (Dec.of_Z 50000)
  <= Calculator.calculate_sha Sample.default_calculator (Dec.of_Z 53000)
  /\ 0 <= Calculator.calculate_housing_levy Sample.default_calculator
                                             (Dec.of_Z 50000).
Proof.
  destruct (sha_and_housing_levy_follow_gross
              Sample.default_calculator (Dec.of_Z 50000) (Dec.of_Z 53000))
    as (_ & _ & _ & _ & _ & _ & N & M).
  - vm_compute. discriminate.
  - vm_compute. discriminate.
  - split.
    + apply M. vm_compute. discriminate.
    + apply N. vm_compute. discriminate.
Defined.

(** X4.  With both rates not negative and [0 <= tier-1 limit <= tier-2
    limit], the social-security contribution is monotone in the gross pay,
    not negative for a gross pay that is not negative, and never above the
    cap reached at the tier-2 limit. *)
Theorem nssf_is_monotone_and_capped
        (self : Calculator.PayrollCalculator) (gross gross' : Decimal) :
  0 <= Calculator.config self Calculator.nssf_tier1_limit ->
  Calculator.config self Calculator.nssf_tier1_limit
  <= Calculator.config self Calculator.nssf_tier2_limit ->
  0 <= Calculator.config self Calculator.nssf_tier1_rate ->
  0 <= Calculator.config self Calculator.nssf_tier2_rate ->
  (gross <= gross' ->
   Calculator.calculate_nssf self gross <= Calculator.calculate_nssf self gross')
  /\ (0 <= gross -> 0 <= Calculator.calculate_nssf self gross)
  /\ Calculator.calculate_nssf self gross
     <= Calculator.calculate_nssf
          self (Calculator.config self Calculator.nssf_tier2_limit)
  /\ (Calculator.config self Calculator.nssf_tier2_limit <= gross ->
      Calculator.calculate_nssf self gross
      = Calculator.calculate_nssf
          self (Calculator.config self Calculator.nssf_tier2_limit)).
Proof.
  intros L1 L12 R1 R2.
  assert (Cap : forall g,
             Calculator.config self Calculator.nssf_tier2_limit <= g ->
             Calculator.calculate_nssf self g
             = Calculator.calculate_nssf
                 self (Calculator.config self Calculator.nssf_tier2_limit)).
  { intros g G.
    rewrite (nssf_above_tier2 self g L12 G).
    rewrite (nssf_above_tier2 self _ L12) by dec_linear. reflexivity. }
  split; [ now apply nssf_monotone | ].
  split.
  - intro G.
    assert (Z : Calculator.calculate_nssf self 0 = 0).
    { rewrite nssf_clamped by exact L12.
      rewrite (min_l 0 _ L1).
      assert (M : Dec.max (Dec.min 0 (Calculator.config self Calculator.nssf_tier2_limit)
                           - Calculator.config self Calculator.nssf_tier1_limit) 0 = 0)
        by (apply max_r; minmax; dec_linear).
      rewrite M, !round_mul_zero. dec_linear. }
    rewrite <- Z. now apply nssf_monotone.
  - split; [ | apply Cap ].
    destruct (order_cases gross (Calculator.config self Calculator.nssf_tier2_limit))
      as [G | G].
    + now apply nssf_monotone.
    + rewrite (Cap gross) by dec_linear. dec_linear.
Qed.

Lemma nssf_is_monotone_and_capped_witness :
  Calculator.calculate_nssf Sample.default_calculator (Dec.of_Z 20000)
  <= Calculator.calculate_nssf Sample.default_calculator (Dec.of_Z 36000).
Proof.
  apply (proj1 (proj2 (proj2
           (nssf_is_monotone_and_capped
              Sample.default_calculator (Dec.of_Z 20000) (Dec.of_Z 20000)
              ltac:(vm_compute; discriminate) ltac:(vm_compute; discriminate)
              ltac:(vm_compute; discriminate) ltac:(vm_compute; discriminate))))).
Defined.

(** ** The tax bands *)

Section BandFacts.

Import Bands.

Lemma share_zero income lower upper :
  income <= lower -> lower <= upper -> share income lower upper = 0.
Proof. intros. unfold share. minmax; dec_linear. Qed.

Lemma excess_zero income lower : income <= lower -> excess income lower = 0.
Proof. intros. unfold excess. minmax; dec_linear. Qed.

Lemma share_monotone income income' lower upper :
  income <= income' -> share income lower upper <= share income' lower upper.
Proof. intros. unfold share. minmax; dec_linear. Qed.

Lemma excess_monotone income income' lower :
  income <= income' -> excess income lower <= excess income' lower.
Proof. intros. unfold excess. minmax; dec_linear. Qed.

Lemma charge_zero bounded top_rate income :
  forall lower,
    ordered lower bounded -> income <= lower ->
    charge lower bounded top_rate income = 0.
Proof.
  induction bounded as [ | [upper rate] higher IH ]; intros lower O H; cbn.
  - rewrite excess_zero by exact H. unfold Spec.round.
    rewrite mul_zero_l, quantize_zero. reflexivity.
  - destruct O as [L O].
    rewrite share_zero by assumption.
    rewrite IH by (try assumption; dec_linear).
    unfold Spec.round. rewrite mul_zero_l, quantize_zero. dec_linear.
Qed.

(** The walk over the bands gives each band its share. *)
Lemma walk_charge bounded top_rate income :
  forall lower remaining,
    ordered lower bounded ->
    remaining = excess income lower ->
    Spec.walk_bands lower bounded top_rate remaining
    = charge lower bounded top_rate income.
Proof.
  induction bounded as [ | [upper rate] higher IH ];
    intros lower remaining O R; cbn [Spec.walk_bands charge].
  - destruct (remaining <=? 0) eqn:E.
    + apply leb_le in E.
      assert (Z : excess income lower = 0)
        by (subst remaining; unfold excess in *; minmax; dec_linear).
      rewrite Z. unfold Spec.round. now rewrite mul_zero_l, quantize_zero.
    + now subst remaining.
  - destruct O as [L O].
    destruct (remaining <=? 0) eqn:E.
    + apply leb_le in E.
      assert (I : income <= lower)
        by (subst remaining; unfold excess in E; minmax; dec_linear).
      rewrite share_zero by assumption.
      rewrite charge_zero by (try assumption; dec_linear).
      unfold Spec.round. rewrite mul_zero_l, quantize_zero. dec_linear.
    + apply leb_gt in E. f_equal.
      * f_equal. f_equal. subst remaining. reflexivity.
      * apply IH; [ exact O | ].
        subst remaining. unfold excess in *. minmax; dec_linear.
Qed.

Lemma charge_monotone bounded top_rate income income' :
  rates_nonneg bounded top_rate ->
  income <= income' ->
  forall lower,
    charge lower bounded top_rate income <= charge lower bounded top_rate income'.
Proof.
  intros [F T] H. induction bounded as [ | [upper rate] higher IH ];
    intro lower; cbn.
  - apply quantize_monotone, mul_le_r; [ now apply excess_monotone | exact T ].
  - inversion F as [ | ? ? R F' ]; subst. cbn in R.
    apply add_le.
    + apply quantize_monotone, mul_le_r; [ now apply share_monotone | exact R ].
    + now apply IH.
Qed.

Variable self : Calculator.PayrollCalculator.

Lemma calculate_tax_charge taxable_income :
  ordered 0 (bounded_of (Calculator.config self)) ->
  Calculator.calculate_tax self taxable_income
  = charge 0 (bounded_of (Calculator.config self))
           (Calculator.config self Calculator.band_5_rate) taxable_income.
Proof.
  intro O. rewrite calculate_tax_spec. unfold Spec.tax_charged.
  destruct (order_cases taxable_income 0) as [N | P].
  - rewrite charge_zero by assumption.
    cbn [Spec.walk_bands]. apply leb_le in N. now rewrite N.
  - apply walk_charge; [ exact O | ].
    unfold excess. symmetry. rewrite max_l by dec_linear. dec_linear.
Qed.

End BandFacts.

(** X5.  When the band limits are in order, [0 <= limit 1 <= limit 2 <=
    limit 3 <= limit 4], the tax charged is the sum over the five bands of
    the band's rate times the share of the income that lies in the band,
    each product rounded to the cent.  So an income within the first band is
    taxed at the first rate alone, and above the fourth limit only the last
    term, the top rate on the excess, still grows. *)
Theorem tax_is_the_sum_of_the_band_shares
        (self : Calculator.PayrollCalculator) (taxable_income : Decimal) :
  let cfg := Calculator.config self in
  0 <= cfg Calculator.band_1_limit ->
  cfg Calculator.band_1_limit <= cfg Calculator.band_2_limit ->
  cfg Calculator.band_2_limit <= cfg Calculator.band_3_limit ->
  cfg Calculator.band_3_limit <= cfg Calculator.band_4_limit ->
  Calculator.calculate_tax self taxable_income
  = Spec.round (Bands.share taxable_income 0 (cfg Calculator.band_1_limit)
                * cfg Calculator.band_1_rate)
    + (Spec.round (Bands.share taxable_income (cfg Calculator.band_1_limit)
                               (cfg Calculator.band_2_limit)
                   * cfg Calculator.band_2_rate)
       + (Spec.round (Bands.share taxable_income (cfg Calculator.band_2_limit)
                                  (cfg Calculator.band_3_limit)
                      * cfg Calculator.band_3_rate)
          + (Spec.round (Bands.share taxable_income (cfg Calculator.band_3_limit)
                                     (cfg Calculator.band_4_limit)
                         * cfg Calculator.band_4_rate)
             + Spec.round (Bands.excess taxable_income (cfg Calculator.band_4_limit)
                           * cfg Calculator.band_5_rate))))
  /\ (taxable_income <= cfg Calculator.band_1_limit ->
      Calculator.calculate_tax self taxable_income
      = Spec.round (Dec.max taxable_income 0 * cfg Calculator.band_1_rate))
  /\ (cfg Calculator.band_4_limit <= taxable_income ->
      Calculator.calculate_tax self taxable_income
      = Calculator.calculate_tax self (cfg Calculator.band_4_limit)
        + Spec.round ((taxable_income - cfg Calculator.band_4_limit)
                      * cfg Calculator.band_5_rate)).
Proof.
  cbv zeta. intros L1 L2 L3 L4.
  assert (O : Bands.ordered 0 (Bands.bounded_of (Calculator.config self)))
    by (cbn; tauto).
  assert (E : forall t,
             Calculator.calculate_tax self t
             = Bands.charge 0 (Bands.bounded_of (Calculator.config self))
                 (Calculator.config self Calculator.band_5_rate) t)
    by (intro t; now apply calculate_tax_charge).
  split; [ rewrite E; reflexivity | ].
  split.
  - intro H. rewrite E. cbn [Bands.charge Bands.bounded_of].
    rewrite (share_zero taxable_income (Calculator.config self Calculator.band_1_limit))
      by assumption.
    rewrite (share_zero taxable_income (Calculator.config self Calculator.band_2_limit))
      by (try assumption; dec_linear).
    rewrite (share_zero taxable_income (Calculator.config self Calculator.band_3_limit))
      by (try assumption; dec_linear).
    rewrite (excess_zero taxable_income) by dec_linear.
    unfold Spec.round. rewrite !mul_zero_l, !quantize_zero.
    assert (S : Bands.share taxable_income 0
                            (Calculator.config self Calculator.band_1_limit)
                = Dec.max taxable_income 0)
      by (unfold Bands.share; minmax; dec_linear).
    rewrite S. dec_linear.
  - intro H. rewrite !E. cbn [Bands.charge Bands.bounded_of].
    assert (S : forall lower upper,
               lower <= upper ->
               upper <= Calculator.config self Calculator.band_4_limit ->
               Bands.share taxable_income lower upper
               = Bands.share (Calculator.config self Calculator.band_4_limit)
                             lower upper)
      by (intros; unfold Bands.share; minmax; dec_linear).
    rewrite (S 0) by (try assumption; dec_linear).
    rewrite (S (Calculator.config self Calculator.band_1_limit))
      by (try assumption; dec_linear).
    rewrite (S (Calculator.config self Calculator.band_2_limit))
      by (try assumption; dec_linear).
    rewrite (S (Calculator.config self Calculator.band_3_limit))
      by (try assumption; dec_linear).
    rewrite (excess_zero (Calculator.config self Calculator.band_4_limit))
      by dec_linear.
    assert (X : Bands.excess taxable_income
                             (Calculator.config self Calculator.band_4_limit)
                = taxable_income - Calculator.config self Calculator.band_4_limit)
      by (unfold Bands.excess; minmax; dec_linear).
    rewrite X. unfold Spec.round. rewrite mul_zero_l, quantize_zero.
    dec_linear.
Qed.

Lemma tax_is_the_sum_of_the_band_shares_witness :
  Calculator.calculate_tax Sample.default_calculator (Dec.of_Z 1000000)
  = Calculator.calculate_tax Sample.default_calculator (Dec.of_Z 800000)
    + Spec.round ((Dec.of_Z 1000000 - Dec.of_Z 800000) * Dec.dec 35 100).
Proof.
  apply (proj2 (proj2 (tax_is_the_sum_of_the_band_shares
                         Sample.default_calculator (Dec.of_Z 1000000)
                         ltac:(vm_compute; discriminate)
                         ltac:(vm_compute; discriminate)
                         ltac:(vm_compute; discriminate)
                         ltac:(vm_compute; discriminate)))).
  vm_compute. discriminate.
Defined.

(** X6.  With the band limits in order and no negative rate, the tax
    charged is monotone in the taxable income, never negative, and zero for
    an income that is not positive. *)
Theorem tax_is_monotone_and_nonnegative
        (self : Calculator.PayrollCalculator) (income income' : Decimal) :
  Bands.ordered 0 (Bands.bounded_of (Calculator.config self)) ->
  Bands.rates_nonneg (Bands.bounded_of (Calculator.config self))
                     (Calculator.config self Calculator.band_5_rate) ->
  (income <= income' ->
   Calculator.calculate_tax self income <= Calculator.calculate_tax self income')
  /\ 0 <= Calculator.calculate_tax self income
  /\ (income <= 0 -> Calculator.calculate_tax self income = 0).
Proof.
  intros O R.
  assert (Z : forall t, t <= 0 -> Calculator.calculate_tax self t = 0).
  { intros t H. unfold Calculator.calculate_tax. apply leb_le in H. now rewrite H. }
  assert (M : forall a b, a <= b ->
                          Calculator.calculate_tax self a
                          <= Calculator.calculate_tax self b).
  { intros a b H. rewrite !calculate_tax_charge by exact O.
    now apply charge_monotone. }
  split; [ apply M | ].
  split; [ | apply Z ].
  destruct (order_cases income 0) as [N | P].
  - rewrite Z by exact N. dec_linear.
  - rewrite <- (Z 0) by dec_linear. apply M. dec_linear.
Qed.

Lemma tax_is_monotone_and_nonnegative_witness :
  Calculator.calculate_tax Sample.default_calculator (Dec.of_Z 30000)
  <= Calculator.calculate_tax Sample.default_calculator (Dec.of_Z 47840).
Proof.
  apply (proj1 (tax_is_monotone_and_nonnegative
                  Sample.default_calculator (Dec.of_Z 30000) (Dec.of_Z 47840)
                  ltac:(cbn; repeat split; vm_compute; discriminate)
                  ltac:(split; [ repeat constructor | ]; vm_compute; discriminate))).
  vm_compute. discriminate.
Defined.

(** ** The result of [calculate] *)

Section ResultFacts.

Import Calculator Items.
Variable self : PayrollCalculator.

Lemma is_cents_sub x y : Dec.is_cents x -> Dec.is_cents y -> Dec.is_cents (x - y).
Proof.
  intros [n ->] [m ->]. exists (n - m)%Z. apply eq_this.
  rewrite this_sub, !this_dec. unfold Qeq. cbn. lia.
Qed.

Lemma is_cents_total amounts : all_cents amounts -> Dec.is_cents (total amounts).
Proof.
  induction 1 as [ | x rest H _ IH ]; cbn;
    [ apply is_cents_zero | now apply is_cents_add ].
Qed.

Lemma allowance_step_eq t n (dd : list (string * AllowanceDetail)) name details :
  allowance_step (t, n, dd) (name, details)
  = if allowance_taxable details
    then (t + allowance_amount details, n,
          dict_set dd name (allowance_recorded details))
    else (t, n + allowance_amount details,
          dict_set dd name (allowance_recorded details)).
Proof.
  destruct details as [ amount [ [ | ] | ] ]; reflexivity.
Qed.

Lemma deduction_step_eq lo sa ot (dd : list (string * DeductionDetail)) name details :
  deduction_step (lo, sa, ot, dd) (name, details)
  = if String.eqb (deduction_kind details) "loan"
    then (lo + deduction_amount details, sa, ot,
          dict_set dd name (deduction_recorded details))
    else if String.eqb (deduction_kind details) "sacco"
    then (lo, sa + deduction_amount details, ot,
          dict_set dd name (deduction_recorded details))
    else (lo, sa, ot + deduction_amount details,
          dict_set dd name (deduction_recorded details)).
Proof. reflexivity. Qed.

(** The allowance loop adds every amount to one of its two sums. *)
Lemma allowance_fold (l : Dict AllowanceItem) :
  forall t n (dd : list (string * AllowanceDetail)),
    fst (fst (fold_left allowance_step l (t, n, dd)))
    = t + total (map (fun kv => allowance_amount (snd kv))
                     (filter (fun kv => allowance_taxable (snd kv)) l))
    /\ snd (fst (fold_left allowance_step l (t, n, dd)))
       = n + total (map (fun kv => allowance_amount (snd kv))
                        (filter (fun kv => negb (allowance_taxable (snd kv))) l)).
Proof.
  induction l as [ | [name details] rest IH ]; intros t n dd.
  - cbn. split; dec_linear.
  - cbn [fold_left filter snd]. rewrite allowance_step_eq.
    destruct (allowance_taxable details); cbn [negb map total snd];
      unfold Dict in *;
      match goal with
      | |- context [fold_left allowance_step rest (?a, ?b, ?c)] =>
          destruct (IH a b c) as [E1 E2]
      end; rewrite E1, E2; split; dec_linear.
Qed.

(** The deduction loop adds every amount to one of its three sums. *)
Lemma deduction_fold (l : Dict DeductionItem) :
  forall lo sa ot (dd : list (string * DeductionDetail)),
    let kind_is k (kv : string * DeductionItem) :=
      String.eqb (deduction_kind (snd kv)) k in
    let amounts keep :=
      total (map (fun kv => deduction_amount (snd kv)) (filter keep l)) in
    let sums := fold_left deduction_step l (lo, sa, ot, dd) in
    fst (fst (fst sums)) = lo + amounts (kind_is "loan")
    /\ snd (fst (fst sums))
       = sa + amounts (fun kv => negb (kind_is "loan" kv) && kind_is "sacco" kv)
    /\ snd (fst sums)
       = ot + amounts (fun kv => negb (kind_is "loan" kv)
                                 && negb (kind_is "sacco" kv)).
Proof.
  induction l as [ | [name details] rest IH ]; intros lo sa ot dd; cbv zeta.
  - cbn. repeat split; dec_linear.
  - cbn [fold_left filter snd]. rewrite deduction_step_eq.
    destruct (String.eqb (deduction_kind details) "loan");
      [ | destruct (String.eqb (deduction_kind details) "sacco") ];
      cbn [negb andb map total snd];
      unfold Dict in *;
      match goal with
      | |- context [fold_left deduction_step rest (?a, ?b, ?c, ?e)] =>
          destruct (IH a b c e) as (E1 & E2 & E3)
      end; rewrite E1, E2, E3;
      repeat split; dec_linear.
Qed.

Lemma totals_projections (d : Dict DeductionItem) :
  loan_total d = fst (fst (fst (deduction_sums d)))
  /\ sacco_total d = snd (fst (fst (deduction_sums d)))
  /\ other_total d = snd (fst (deduction_sums d)).
Proof.
  unfold loan_total, sacco_total, other_total.
  destruct (deduction_sums d) as [[[? ?] ?] ?]. repeat split.
Qed.

Lemma total_split (A : Type) (f : A -> Decimal) (keep : A -> bool) (l : list A) :
  total (map f (filter keep l)) + total (map f (filter (fun x => negb (keep x)) l))
  = total (map f l).
Proof.
  induction l as [ | x l IH ]; cbn; [ dec_linear | ].
  destruct (keep x); cbn; rewrite <- IH; dec_linear.
Qed.

Lemma gross_of_sums b (a : Dict AllowanceItem) :
  gross_of b a
  = b + fst (fst (allowance_sums a)) + snd (fst (allowance_sums a)).
Proof.
  unfold gross_of. now destruct (allowance_sums a) as [[t n] dd].
Qed.

Lemma gross_of_total b (a : Dict AllowanceItem) :
  gross_of b a = b + total (allowance_amounts a).
Proof.
  rewrite gross_of_sums. unfold allowance_sums, allowance_amounts.
  destruct (allowance_fold a 0 0 []) as [E1 E2].
  rewrite <- (total_split _ (fun kv => allowance_amount (snd kv))
                          (fun kv => allowance_taxable (snd kv)) a).
  unfold Dict in *. rewrite E1, E2. dec_linear.
Qed.

Lemma filter_and (A : Type) (p q : A -> bool) (l : list A) :
  filter q (filter p l) = filter (fun x => p x && q x) l.
Proof.
  induction l as [ | x l IH ]; cbn; [ reflexivity | ].
  destruct (p x); cbn; [ | exact IH ].
  destruct (q x); now rewrite IH.
Qed.

Lemma buckets_total (d : Dict DeductionItem) :
  loan_total d + sacco_total d + other_total d = total (deduction_amounts d).
Proof.
  destruct (totals_projections d) as (-> & -> & ->).
  unfold deduction_sums, deduction_amounts.
  destruct (deduction_fold d 0 0 0 []) as (E1 & E2 & E3).
  unfold Dict in *. rewrite E1, E2, E3.
  rewrite <- (total_split _ (fun kv => deduction_amount (snd kv))
                          (fun kv => String.eqb (deduction_kind (snd kv)) "loan") d).
  rewrite <- (total_split _ (fun kv => deduction_amount (snd kv))
                (fun kv => String.eqb (deduction_kind (snd kv)) "sacco")
                (filter (fun kv => negb (String.eqb (deduction_kind (snd kv)) "loan")) d)).
  rewrite !filter_and. dec_linear.
Qed.

(** The fields of the result in terms of the gross pay and the sums of
    the two loops. *)
Lemma calculate_fields b a d p m i h :
  let r := calculate self b a d p m i h in
  let g := gross_of b (given a) in
  let taken :=
    paye r + nssf r + sha r + housing_levy r
    + loan_total (given d) + sacco_total (given d) + other_total (given d) in
  basic_salary r = _round b
  /\ taxable_allowances r = _round (fst (fst (allowance_sums (given a))))
  /\ non_taxable_allowances r = _round (snd (fst (allowance_sums (given a))))
  /\ gross_pay r = _round g
  /\ nssf r = calculate_nssf self g
  /\ sha r = calculate_sha self g
  /\ housing_levy r = calculate_housing_levy self g
  /\ loan_deductions r = _round (loan_total (given d))
  /\ sacco_deductions r = _round (sacco_total (given d))
  /\ other_deductions r = _round (other_total (given d))
  /\ total_deductions r = _round taken
  /\ net_pay r = _round (g - taken)
  /\ allowance_details r = snd (allowance_sums (given a))
  /\ deduction_details r = snd (deduction_sums (given d)).
Proof.
  cbv zeta.
  unfold calculate, gross_of, loan_total, sacco_total, other_total, given.
  fold (allowance_sums match a with Some x => x | None => [] end).
  fold (deduction_sums match d with Some x => x | None => [] end).
  destruct (allowance_sums _) as [[t n] ad].
  destruct (deduction_sums _) as [[[lo sa] ot] dd].
  cbn [fst snd basic_salary taxable_allowances non_taxable_allowances gross_pay
       paye nssf sha housing_levy loan_deductions sacco_deductions
       other_deductions total_deductions net_pay allowance_details
       deduction_details].
  repeat split.
Qed.

End ResultFacts.

Section PayslipFacts.

Import Calculator Items.
Variable self : PayrollCalculator.

Lemma dict_fill_fresh (V A : Type) (key : A -> string) (val : A -> V) :
  forall (rows : list A) (d : Dict V),
    NoDup (map key rows) ->
    (forall row, In row rows -> ~ In (key row) (map fst d)) ->
    fold_left (fun acc x => dict_set acc (key x) (val x)) rows d
    = (d ++ map (fun x => (key x, val x)) rows)%list.
Proof.
  assert (Fresh : forall (d : Dict V) k v,
             ~ In k (map fst d) -> dict_set d k v = (d ++ [(k, v)])%list).
  { induction d as [ | [k0 v0] rest IH ]; intros k v N; cbn; [ reflexivity | ].
    destruct (String.eqb_spec k0 k) as [ E | E ].
    - exfalso. apply N. now left.
    - f_equal. apply IH. intro I. apply N. now right. }
  induction rows as [ | x rest IH ]; intros d N F; cbn.
  - now rewrite app_nil_r.
  - inversion N as [ | ? ? Hn Hd ]; subst.
    rewrite Fresh by (apply F; now left).
    rewrite IH.
    + rewrite <- app_assoc. reflexivity.
    + exact Hd.
    + intros row I. rewrite map_app, in_app_iff. cbn.
      intros [ J | [ J | [] ] ].
      * apply (F row); [ now right | exact J ].
      * apply Hn. rewrite J. now apply in_map.
Qed.

Lemma allowance_fold_details (l : Dict AllowanceItem) :
  forall t n (dd : list (string * AllowanceDetail)),
    snd (fold_left allowance_step l (t, n, dd))
    = fold_left (fun acc kv => dict_set acc (fst kv) (allowance_recorded (snd kv)))
                l dd.
Proof.
  induction l as [ | [name details] rest IH ]; intros t n dd; [ reflexivity | ].
  cbn [fold_left fst snd]. rewrite allowance_step_eq.
  destruct (allowance_taxable details); unfold Dict in *; apply IH.
Qed.

Lemma deduction_fold_details (l : Dict DeductionItem) :
  forall lo sa ot (dd : list (string * DeductionDetail)),
    snd (fold_left deduction_step l (lo, sa, ot, dd))
    = fold_left (fun acc kv => dict_set acc (fst kv) (deduction_recorded (snd kv)))
                l dd.
Proof.
  induction l as [ | [name details] rest IH ]; intros lo sa ot dd; [ reflexivity | ].
  cbn [fold_left fst snd]. rewrite deduction_step_eq.
  destruct (String.eqb (deduction_kind details) "loan");
    [ | destruct (String.eqb (deduction_kind details) "sacco") ];
    unfold Dict in *; apply IH.
Qed.

Lemma is_cents_round x : Dec.is_cents (_round x).
Proof. apply quantize_is_cents. Qed.

Lemma nssf_cents g : Dec.is_cents (calculate_nssf self g).
Proof.
  unfold calculate_nssf. apply is_cents_add; [ apply is_cents_round | ].
  destruct (_ >? _); [ apply is_cents_round | apply is_cents_zero ].
Qed.

Lemma paye_cents b a d p m i h : Dec.is_cents (paye (calculate self b a d p m i h)).
Proof. rewrite calculate_paye. apply is_cents_round. Qed.

Lemma filter_cents (A : Type) (f : A -> Decimal) (keep : A -> bool) (l : list A) :
  all_cents (map f l) -> all_cents (map f (filter keep l)).
Proof.
  unfold all_cents. induction l as [ | x l IH ]; cbn; intro H; [ constructor | ].
  inversion H; subst. destruct (keep x); cbn; [ constructor | ]; auto.
Qed.

End PayslipFacts.

(** X7.  Every allowance is part of the gross pay with its amount, whether
    flagged taxable or not, and every deduction is part of the total
    deductions with its amount, whatever its type; an item without an
    amount counts 0.  The net pay is the difference, to the cent. *)
Theorem gross_and_deductions_count_every_item
        (self : Calculator.PayrollCalculator)
        (basic_salary : Decimal)
        (allowances : option (Dict Calculator.AllowanceItem))
        (deductions : option (Dict Calculator.DeductionItem))
        (pension mortgage premium : Decimal) (has_disability : bool) :
  let r := Calculator.calculate self basic_salary allowances deductions
                                pension mortgage premium has_disability in
  let gross :=
    basic_salary + Items.total (Items.allowance_amounts (Items.given allowances)) in
  let taken :=
    Calculator.paye r + Calculator.nssf r + Calculator.sha r
    + Calculator.housing_levy r
    + Items.total (Items.deduction_amounts (Items.given deductions)) in
  Calculator.gross_pay r = Calculator._round gross
  /\ Calculator.total_deductions r = Calculator._round taken
  /\ Calculator.net_pay r = Calculator._round (gross - taken).
Proof.
  cbv zeta.
  destruct (calculate_fields self basic_salary allowances deductions
                             pension mortgage premium has_disability)
    as (_ & _ & _ & G & _ & _ & _ & _ & _ & _ & T & N & _).
  cbv zeta in T, N.
  rewrite G, T, N, gross_of_total.
  rewrite <- (buckets_total (Items.given deductions)).
  repeat split; f_equal; dec_linear.
Qed.

(** X8.  The taxable flag of an allowance has no effect on the tax: two
    sets of allowances with the same total amount give the same gross pay,
    statutory deductions, taxable income, tax charged, PAYE and net pay. *)
Theorem taxable_flag_does_not_change_the_tax
        (self : Calculator.PayrollCalculator)
        (basic_salary : Decimal)
        (allowances allowances' : option (Dict Calculator.AllowanceItem))
        (deductions : option (Dict Calculator.DeductionItem))
        (pension mortgage premium : Decimal) (has_disability : bool) :
  Items.total (Items.allowance_amounts (Items.given allowances))
  = Items.total (Items.allowance_amounts (Items.given allowances')) ->
  let r := Calculator.calculate self basic_salary allowances deductions
                                pension mortgage premium has_disability in
  let r' := Calculator.calculate self basic_salary allowances' deductions
                                 pension mortgage premium has_disability in
  Calculator.gross_pay r = Calculator.gross_pay r'
  /\ Calculator.nssf r = Calculator.nssf r'
  /\ Calculator.sha r = Calculator.sha r'
  /\ Calculator.housing_levy r = Calculator.housing_levy r'
  /\ Calculator.taxable_income r = Calculator.taxable_income r'
  /\ Calculator.tax_charged r = Calculator.tax_charged r'
  /\ Calculator.paye r = Calculator.paye r'
  /\ Calculator.total_deductions r = Calculator.total_deductions r'
  /\ Calculator.net_pay r = Calculator.net_pay r'.
Proof.
  intro H. cbv zeta.
  assert (G : gross_of basic_salary (Items.given allowances)
              = gross_of basic_salary (Items.given allowances'))
    by (rewrite !gross_of_total; now rewrite H).
  assert (X : Calculator.tax_charged
                (Calculator.calculate self basic_salary allowances deductions
                   pension mortgage premium has_disability)
              = Calculator.tax_charged
                  (Calculator.calculate self basic_salary allowances' deductions
                     pension mortgage premium has_disability)).
  { rewrite !calculate_tax_charged.
    change (match allowances with Some x => x | None => [] end)
      with (Items.given allowances).
    change (match allowances' with Some x => x | None => [] end)
      with (Items.given allowances').
    now rewrite G. }
  assert (P : Calculator.paye
                (Calculator.calculate self basic_salary allowances deductions
                   pension mortgage premium has_disability)
              = Calculator.paye
                  (Calculator.calculate self basic_salary allowances' deductions
                     pension mortgage premium has_disability))
    by (rewrite !calculate_paye; now rewrite X).
  destruct (calculate_fields self basic_salary allowances deductions
                             pension mortgage premium has_disability)
    as (_ & _ & _ & G1 & N1 & S1 & L1 & _ & _ & _ & T1 & P1 & _).
  destruct (calculate_fields self basic_salary allowances' deductions
                             pension mortgage premium has_disability)
    as (_ & _ & _ & G2 & N2 & S2 & L2 & _ & _ & _ & T2 & P2 & _).
  cbv zeta in *.
  assert (N : Calculator.nssf
                (Calculator.calculate self basic_salary allowances deductions
                   pension mortgage premium has_disability)
              = Calculator.nssf
                  (Calculator.calculate self basic_salary allowances' deductions
                     pension mortgage premium has_disability))
    by (rewrite N1, N2; now rewrite G).
  assert (S : Calculator.sha
                (Calculator.calculate self basic_salary allowances deductions
                   pension mortgage premium has_disability)
              = Calculator.sha
                  (Calculator.calculate self basic_salary allowances' deductions
                     pension mortgage premium has_disability))
    by (rewrite S1, S2; now rewrite G).
  assert (L : Calculator.housing_levy
                (Calculator.calculate self basic_salary allowances deductions
                   pension mortgage premium has_disability)
              = Calculator.housing_levy
                  (Calculator.calculate self basic_salary allowances' deductions
                     pension mortgage premium has_disability))
    by (rewrite L1, L2; now rewrite G).
  split; [ rewrite G1, G2; now rewrite G | ].
  split; [ exact N | ].
  split; [ exact S | ].
  split; [ exact L | ].
  split.
  { rewrite !calculate_taxable_income.
    change (match allowances with Some x => x | None => [] end)
      with (Items.given allowances).
    change (match allowances' with Some x => x | None => [] end)
      with (Items.given allowances').
    now rewrite G. }
  split; [ exact X | ].
  split; [ exact P | ].
  split.
  - rewrite T1, T2. now rewrite P, N, S, L.
  - rewrite P1, P2. now rewrite P, N, S, L, G.
Qed.

Lemma taxable_flag_does_not_change_the_tax_witness :
  Calculator.paye
    (Calculator.calculate Sample.default_calculator (Dec.of_Z 30000)
       (Some SampleItems.house_and_lunch) None 0 0 0 false)
  = Calculator.paye
      (Calculator.calculate Sample.default_calculator (Dec.of_Z 30000)
         (Some SampleItems.house_and_lunch_taxable) None 0 0 0 false).
Proof.
  apply (taxable_flag_does_not_change_the_tax
           Sample.default_calculator (Dec.of_Z 30000)
           (Some SampleItems.house_and_lunch)
           (Some SampleItems.house_and_lunch_taxable) None 0 0 0 false).
  apply Qc_is_canon. vm_compute. reflexivity.
Defined.

(** A float is determined by the value it stands for. *)
Lemma float_of_decimal_value (x v : Decimal) :
  match float_of_decimal x with
  | Finite w => Qeq_bool (this w) (this v)
  | Infinity _ => false
  end = true ->
  float_of_decimal x = Finite v.
Proof.
  destruct (float_of_decimal x) as [ w | ? ]; [ | discriminate ].
  intro H. f_equal. apply Qc_is_canon. now apply Qeq_bool_iff.
Qed.

(** X9.  For dictionaries with distinct keys the two breakdowns of the
    result list every item of the input under its key and in its order,
    with the flag or type that was used and with the amount that was used
    converted to a float (0, taxable and "other" where the item gave
    none).  The float is the binary64 number nearest to the amount, which
    need not be the amount: 10000 is recorded as it is, 0.10 as
    3602879701896397 / 2^55, and 90071992547409.93 as
    90071992547409.9375. *)
Theorem breakdowns_record_every_item
        (self : Calculator.PayrollCalculator)
        (basic_salary : Decimal)
        (allowances : option (Dict Calculator.AllowanceItem))
        (deductions : option (Dict Calculator.DeductionItem))
        (pension mortgage premium : Decimal) (has_disability : bool) :
  NoDup (map fst (Items.given allowances)) ->
  NoDup (map fst (Items.given deductions)) ->
  let r := Calculator.calculate self basic_salary allowances deductions
                                pension mortgage premium has_disability in
  Calculator.allowance_details r
  = map (fun kv => (fst kv, Items.allowance_recorded (snd kv)))
        (Items.given allowances)
  /\ Calculator.deduction_details r
     = map (fun kv => (fst kv, Items.deduction_recorded (snd kv)))
           (Items.given deductions)
  /\ (forall item,
         Calculator.detail_amount (Items.allowance_recorded item)
         = float_of_decimal (Items.allowance_amount item)
         /\ Calculator.detail_taxable (Items.allowance_recorded item)
            = Items.allowance_taxable item)
  /\ (forall item,
         Calculator.detail_deducted (Items.deduction_recorded item)
         = float_of_decimal (Items.deduction_amount item)
         /\ Calculator.detail_type (Items.deduction_recorded item)
            = Items.deduction_kind item)
  /\ float_of_decimal (Dec.of_Z 10000) = Finite (Dec.of_Z 10000)
  /\ float_of_decimal (Dec.dec 10 100)
     = Finite (Dec.dec 3602879701896397 36028797018963968)
  /\ float_of_decimal (Dec.dec 10 100) <> Finite (Dec.dec 10 100)
  /\ float_of_decimal (Dec.dec 9007199254740993 100)
     = Finite (Dec.dec 1441151880758559 16).
Proof.
  intros Na Nd. cbv zeta.
  destruct (calculate_fields self basic_salary allowances deductions
                             pension mortgage premium has_disability)
    as (_ & _ & _ & _ & _ & _ & _ & _ & _ & _ & _ & _ & A & D).
  rewrite A, D. unfold allowance_sums, deduction_sums.
  rewrite allowance_fold_details, deduction_fold_details.
  split; [ | split; [ | split; [ | split; [ | split; [ | split; [ | split ] ] ] ] ] ].
  - rewrite (dict_fill_fresh _ _ fst (fun kv => Items.allowance_recorded (snd kv)))
      by (auto; intros ? ? []).
    reflexivity.
  - rewrite (dict_fill_fresh _ _ fst (fun kv => Items.deduction_recorded (snd kv)))
      by (auto; intros ? ? []).
    reflexivity.
  - intro item. split; reflexivity.
  - intro item. split; reflexivity.
  - apply float_of_decimal_value. vm_compute. reflexivity.
  - apply float_of_decimal_value. vm_compute. reflexivity.
  - intro H.
    assert (E : float_of_decimal (Dec.dec 10 100)
                = Finite (Dec.dec 3602879701896397 36028797018963968))
      by (apply float_of_decimal_value; vm_compute; reflexivity).
    rewrite E in H. injection H as V. discriminate.
  - apply float_of_decimal_value. vm_compute. reflexivity.
Qed.

Lemma breakdowns_record_every_item_witness :
  Calculator.deduction_details
    (Calculator.calculate Sample.default_calculator (Dec.of_Z 50000)
       (Some SampleItems.house_and_lunch) (Some SampleItems.loan_and_sacco)
       0 0 0 false)
  = [ ("Bank Loan",
       {| Calculator.detail_deducted := float_of_decimal (Dec.of_Z 5000);
          Calculator.detail_type := "loan" |});
      ("SACCO Contribution",
       {| Calculator.detail_deducted := float_of_decimal (Dec.of_Z 3000);
          Calculator.detail_type := "sacco" |}) ].
Proof.
  rewrite (proj1 (proj2 (breakdowns_record_every_item
                    Sample.default_calculator (Dec.of_Z 50000)
                    (Some SampleItems.house_and_lunch)
                    (Some SampleItems.loan_and_sacco) 0 0 0 false
                    ltac:(cbn; repeat constructor; cbn; intuition discriminate)
                    ltac:(cbn; repeat constructor; cbn; intuition discriminate)))).
  reflexivity.
Defined.

Section PayslipTotals.

Import Calculator Items.
Variable self : PayrollCalculator.

Lemma round_cents x : Dec.is_cents x -> _round x = x.
Proof. apply quantize_idem. Qed.

Lemma allowance_sums_cents (a : Dict AllowanceItem) :
  all_cents (allowance_amounts a) ->
  Dec.is_cents (fst (fst (allowance_sums a)))
  /\ Dec.is_cents (snd (fst (allowance_sums a))).
Proof.
  intro H. unfold allowance_sums.
  destruct (allowance_fold a 0 0 []) as [E1 E2].
  unfold Dict in *. rewrite E1, E2.
  split; (apply is_cents_add; [ apply is_cents_zero | ]);
    apply is_cents_total, filter_cents; exact H.
Qed.

Lemma deduction_sums_cents (d : Dict DeductionItem) :
  all_cents (deduction_amounts d) ->
  Dec.is_cents (loan_total d)
  /\ Dec.is_cents (sacco_total d)
  /\ Dec.is_cents (other_total d).
Proof.
  intro H. destruct (totals_projections d) as (-> & -> & ->).
  unfold deduction_sums.
  destruct (deduction_fold d 0 0 0 []) as (E1 & E2 & E3).
  unfold Dict in *. rewrite E1, E2, E3.
  repeat split; (apply is_cents_add; [ apply is_cents_zero | ]);
    apply is_cents_total, filter_cents; exact H.
Qed.

Lemma round_below_zero x : x < Dec.neg (Dec.dec 1 200) -> _round x < 0.
Proof.
  intro H. destruct (quantize_error x) as [_ U]. unfold _round.
  assert (N : (this (Dec.neg (Dec.dec 1 200)) == - (1 # 200))%Q)
    by (rewrite this_neg, this_dec; reflexivity).
  assert (P : (this (Dec.dec 1 200) == 1 # 200)%Q) by apply this_dec.
  rewrite lt_this in *. rewrite le_this, this_add in U.
  rewrite N in H. rewrite P in U. rewrite this_zero.
  clear N P.
  set (a := this (Dec.quantize_half_up x)) in *. clearbody a.
  set (b := this x) in *. clearbody b. lra.
Qed.

End PayslipTotals.

(** X10.  When the basic salary and every amount have at most two
    decimals the payslip adds up exactly: the gross pay is the basic
    salary plus the two allowance totals, the total deductions are the sum
    of the seven deduction lines, and the net pay is the gross pay less
    the total deductions. *)
Theorem payslip_adds_up_to_the_cent
        (self : Calculator.PayrollCalculator)
        (basic_salary : Decimal)
        (allowances : option (Dict Calculator.AllowanceItem))
        (deductions : option (Dict Calculator.DeductionItem))
        (pension mortgage premium : Decimal) (has_disability : bool) :
  Dec.is_cents basic_salary ->
  Items.all_cents (Items.allowance_amounts (Items.given allowances)) ->
  Items.all_cents (Items.deduction_amounts (Items.given deductions)) ->
  let r := Calculator.calculate self basic_salary allowances deductions
                                pension mortgage premium has_disability in
  Calculator.gross_pay r
  = Calculator.basic_salary r + Calculator.taxable_allowances r
    + Calculator.non_taxable_allowances r
  /\ Calculator.total_deductions r
     = Calculator.paye r + Calculator.nssf r + Calculator.sha r
       + Calculator.housing_levy r + Calculator.loan_deductions r
       + Calculator.sacco_deductions r + Calculator.other_deductions r
  /\ Calculator.net_pay r
     = Calculator.gross_pay r - Calculator.total_deductions r.
Proof.
  intros B A D. cbv zeta.
  destruct (allowance_sums_cents _ A) as [At An].
  destruct (deduction_sums_cents _ D) as (Dl & Ds & Do).
  pose proof (paye_cents self basic_salary allowances deductions
                         pension mortgage premium has_disability) as P.
  destruct (calculate_fields self basic_salary allowances deductions
                             pension mortgage premium has_disability)
    as (F1 & F2 & F3 & F4 & F5 & F6 & F7 & F8 & F9 & F10 & F11 & F12 & _).
  cbv zeta in F11, F12.
  assert (G : Dec.is_cents (gross_of basic_salary (Items.given allowances))).
  { rewrite gross_of_sums. now repeat apply is_cents_add. }
  assert (N : Dec.is_cents
                (Calculator.nssf
                   (Calculator.calculate self basic_salary allowances deductions
                      pension mortgage premium has_disability)))
    by (rewrite F5; apply nssf_cents).
  assert (S : Dec.is_cents
                (Calculator.sha
                   (Calculator.calculate self basic_salary allowances deductions
                      pension mortgage premium has_disability)))
    by (rewrite F6; apply is_cents_round).
  assert (L : Dec.is_cents
                (Calculator.housing_levy
                   (Calculator.calculate self basic_salary allowances deductions
                      pension mortgage premium has_disability)))
    by (rewrite F7; apply is_cents_round).
  match type of F11 with
  | _ = Calculator._round ?t => assert (T : Dec.is_cents t)
  end.
  { now repeat apply is_cents_add. }
  rewrite F12, F11, F4, F1, F2, F3, F8, F9, F10.
  rewrite !round_cents by (try assumption; now apply is_cents_sub).
  split; [ apply gross_of_sums | ]. split; reflexivity.
Qed.

Lemma payslip_adds_up_to_the_cent_witness :
  let r := Calculator.calculate Sample.default_calculator (Dec.of_Z 50000)
             (Some SampleItems.house_and_lunch)
             (Some SampleItems.loan_and_sacco) 0 0 0 false in
  Calculator.net_pay r = Calculator.gross_pay r - Calculator.total_deductions r.
Proof.
  cbv zeta.
  apply (payslip_adds_up_to_the_cent
           Sample.default_calculator (Dec.of_Z 50000)
           (Some SampleItems.house_and_lunch)
           (Some SampleItems.loan_and_sacco) 0 0 0 false).
  - exists 5000000%Z. apply Qc_is_canon. vm_compute. reflexivity.
  - repeat constructor;
      [ exists 1000000%Z | exists 500000%Z ];
      apply Qc_is_canon; vm_compute; reflexivity.
  - repeat constructor;
      [ exists 500000%Z | exists 300000%Z ];
      apply Qc_is_canon; vm_compute; reflexivity.
Defined.

(** X11.  With a disability exemption that is not negative, the
    disability flag never raises the PAYE or the total deductions and
    never lowers the net pay; the gross pay, the statutory deductions, the
    taxable income and the tax charged do not depend on it. *)
Theorem disability_flag_never_costs
        (self : Calculator.PayrollCalculator)
        (basic_salary : Decimal)
        (allowances : option (Dict Calculator.AllowanceItem))
        (deductions : option (Dict Calculator.DeductionItem))
        (pension mortgage premium : Decimal) :
  0 <= Calculator.config self Calculator.disability_exemption ->
  let r := Calculator.calculate self basic_salary allowances deductions
                                pension mortgage premium false in
  let r' := Calculator.calculate self basic_salary allowances deductions
                                 pension mortgage premium true in
  Calculator.paye r' <= Calculator.paye r
  /\ Calculator.total_deductions r' <= Calculator.total_deductions r
  /\ Calculator.net_pay r <= Calculator.net_pay r'
  /\ Calculator.gross_pay r' = Calculator.gross_pay r
  /\ Calculator.nssf r' = Calculator.nssf r
  /\ Calculator.sha r' = Calculator.sha r
  /\ Calculator.housing_levy r' = Calculator.housing_levy r
  /\ Calculator.taxable_income r' = Calculator.taxable_income r
  /\ Calculator.tax_charged r' = Calculator.tax_charged r.
Proof.
  intro H. cbv zeta.
  assert (X : Calculator.tax_charged
                (Calculator.calculate self basic_salary allowances deductions
                   pension mortgage premium true)
              = Calculator.tax_charged
                  (Calculator.calculate self basic_salary allowances deductions
                     pension mortgage premium false))
    by (now rewrite !calculate_tax_charged).
  assert (P : Calculator.paye
                (Calculator.calculate self basic_salary allowances deductions
                   pension mortgage premium true)
              <= Calculator.paye
                   (Calculator.calculate self basic_salary allowances deductions
                      pension mortgage premium false)).
  { rewrite !calculate_paye, X. apply quantize_monotone.
    unfold total_relief_of. minmax; dec_linear. }
  destruct (calculate_fields self basic_salary allowances deductions
                             pension mortgage premium false)
    as (_ & _ & _ & G1 & N1 & S1 & L1 & _ & _ & _ & T1 & P1 & _).
  destruct (calculate_fields self basic_salary allowances deductions
                             pension mortgage premium true)
    as (_ & _ & _ & G2 & N2 & S2 & L2 & _ & _ & _ & T2 & P2 & _).
  cbv zeta in *.
  split; [ exact P | ].
  split.
  { rewrite T1, T2, N1, N2, S1, S2, L1, L2.
    apply quantize_monotone. dec_linear. }
  split.
  { rewrite P1, P2, N1, N2, S1, S2, L1, L2.
    apply quantize_monotone. dec_linear. }
  split; [ now rewrite G1, G2 | ].
  split; [ now rewrite N1, N2 | ].
  split; [ now rewrite S1, S2 | ].
  split; [ now rewrite L1, L2 | ].
  split; [ now rewrite !calculate_taxable_income | exact X ].
Qed.

Lemma disability_flag_never_costs_witness :
  Calculator.net_pay
    (Calculator.calculate Sample.default_calculator (Dec.of_Z 50000)
       None None 0 0 0 false)
  <= Calculator.net_pay
       (Calculator.calculate Sample.default_calculator (Dec.of_Z 50000)
          None None 0 0 0 true).
Proof.
  apply (disability_flag_never_costs
           Sample.default_calculator (Dec.of_Z 50000) None None 0 0 0).
  vm_compute. discriminate.
Defined.

(** X12.  The taxable income of a result is never negative, and the
    amounts taken off the income before tax are capped: the deductible
    pension is neither above the rounded pension cap nor above the rounded
    contribution, the owner-occupied interest is neither above the rounded
    mortgage cap nor above the rounded interest, and the insurance relief
    is not above the rounded relief cap. *)
Theorem taxable_income_is_floored_and_reliefs_capped
        (self : Calculator.PayrollCalculator)
        (basic_salary : Decimal)
        (allowances : option (Dict Calculator.AllowanceItem))
        (deductions : option (Dict Calculator.DeductionItem))
        (pension mortgage premium : Decimal) (has_disability : bool) :
  let r := Calculator.calculate self basic_salary allowances deductions
                                pension mortgage premium has_disability in
  0 <= Calculator.taxable_income r
  /\ Calculator.pension_deductible r
     <= Calculator._round
          (Calculator.config self Calculator.pension_max_deduction)
  /\ Calculator.pension_deductible r <= Calculator.pension_contribution r
  /\ Calculator.owner_occupied_interest r
     <= Calculator._round
          (Calculator.config self Calculator.mortgage_interest_max)
  /\ Calculator.owner_occupied_interest r <= Calculator._round mortgage
  /\ Calculator.insurance_relief r
     <= Calculator._round
          (Calculator.config self Calculator.insurance_relief_max).
Proof.
  cbv zeta. split.
  { rewrite calculate_taxable_income. apply quantize_nonneg, max_ge_r. }
  rewrite calculate_owner_occupied.
  unfold Calculator.calculate.
  destruct (fold_left Calculator.allowance_step _ _) as [[? ?] ?].
  destruct (fold_left Calculator.deduction_step _ _) as [[[? ?] ?] ?].
  cbn [Calculator.pension_deductible Calculator.pension_contribution
       Calculator.insurance_relief].
  repeat split; apply quantize_monotone;
    try apply insurance_relief_capped; minmax; dec_linear.
Qed.

(** X13.  The net pay is not floored at zero: when the deductions exceed
    the gross pay by more than half a cent the net pay of the result is
    negative. *)
Theorem net_pay_is_not_floored
        (self : Calculator.PayrollCalculator)
        (basic_salary : Decimal)
        (allowances : option (Dict Calculator.AllowanceItem))
        (deductions : option (Dict Calculator.DeductionItem))
        (pension mortgage premium : Decimal) (has_disability : bool) :
  let r := Calculator.calculate self basic_salary allowances deductions
                                pension mortgage premium has_disability in
  basic_salary + Items.total (Items.allowance_amounts (Items.given allowances))
  + Dec.dec 1 200
  < Calculator.paye r + Calculator.nssf r + Calculator.sha r
    + Calculator.housing_levy r
    + Items.total (Items.deduction_amounts (Items.given deductions)) ->
  Calculator.net_pay r < 0.
Proof.
  cbv zeta. intro H.
  destruct (calculate_fields self basic_salary allowances deductions
                             pension mortgage premium has_disability)
    as (_ & _ & _ & _ & _ & _ & _ & _ & _ & _ & _ & N & _).
  cbv zeta in N. rewrite N. apply round_below_zero.
  rewrite gross_of_total.
  rewrite <- (buckets_total (Items.given deductions)) in H.
  assert (P : (this (Dec.dec 1 200) == 1 # 200)%Q) by apply this_dec.
  rewrite lt_this in *.
  rewrite this_neg, this_sub, !this_add in *.
  rewrite P in *.
  revert H.
  repeat match goal with
         | |- context [this ?x] =>
             let q := fresh "q" in
             generalize (this x); intro q
         end.
  intro H. lra.
Qed.

Lemma net_pay_is_not_floored_witness :
  Calculator.net_pay
    (Calculator.calculate Sample.default_calculator (Dec.of_Z 1000)
       None (Some SampleItems.heavy_loan) 0 0 0 false)
  < 0.
Proof.
  apply (net_pay_is_not_floored
           Sample.default_calculator (Dec.of_Z 1000)
           None (Some SampleItems.heavy_loan) 0 0 0 false).
  vm_compute. reflexivity.
Defined.

(** ** Queries: filters, ordering and [first] *)

Section QueryFacts.

Variable A : Type.

Lemma filter_filter_In (p q : A -> bool) (l : list A) x :
  In x (filter q (filter p l)) <-> In x l /\ p x = true /\ q x = true.
Proof. rewrite !filter_In. tauto. Qed.

Lemma first_None (l : list A) : first l = None <-> l = [].
Proof. destruct l; cbn; split; congruence. Qed.

Lemma order_by_nil (le : A -> A -> bool) (l : list A) :
  order_by le l = [] <-> l = [].
Proof.
  split; [ | now intros -> ].
  destruct l as [ | x l ]; [ reflexivity | intro H ].
  assert (I : In x (order_by le (x :: l))) by (apply order_by_In; now left).
  rewrite H in I. destruct I.
Qed.

(** The first row of an ordered query is a least one, for an order that is
    total and transitive. *)
Lemma insert_by_least (le : A -> A -> bool) x (l : list A) :
  (forall a b, le a b = false -> le b a = true) ->
  (forall a b c, le a b = true -> le b c = true -> le a c = true) ->
  (forall h, first l = Some h -> forall y, In y l -> le h y = true) ->
  forall h, first (insert_by le x l) = Some h ->
            forall y, In y (insert_by le x l) -> le h y = true.
Proof.
  intros total trans IH h.
  assert (refl : forall a, le a a = true).
  { intro a. destruct (le a a) eqn:E; [ reflexivity | ].
    rewrite (total a a E) in E. discriminate. }
  destruct l as [ | z l ]; cbn.
  - intros [= <-] y [ <- | [] ]. apply refl.
  - destruct (le x z) eqn:E; cbn.
    + intros [= <-] y [ <- | [ <- | I ] ]; auto.
      apply trans with z; auto. apply (IH z); cbn; auto.
    + intros [= <-] y [ <- | I ]; auto.
      apply insert_by_In in I. destruct I as [ -> | I ]; auto.
      apply (IH z); cbn; auto.
Qed.

Lemma order_by_least (le : A -> A -> bool) (l : list A) :
  (forall a b, le a b = false -> le b a = true) ->
  (forall a b c, le a b = true -> le b c = true -> le a c = true) ->
  forall h, first (order_by le l) = Some h ->
            forall y, In y l -> le h y = true.
Proof.
  intros total trans h F y I.
  apply (order_by_In _ le) in I. revert h F y I.
  induction l as [ | x l IH ]; cbn.
  - intros h [=].
  - apply insert_by_least; auto.
Qed.

End QueryFacts.

Lemma date_leb_spec a b :
  date_leb a b = true
  <-> (year a < year b
       \/ year a = year b
          /\ (month a < month b \/ month a = month b /\ day a <= day b))%Z.
Proof.
  unfold date_leb.
  repeat (rewrite orb_true_iff || rewrite andb_true_iff).
  now rewrite !Z.ltb_lt, !Z.eqb_eq, Z.leb_le.
Qed.

Lemma date_leb_total a b : date_leb a b = false -> date_leb b a = true.
Proof.
  rewrite <- not_true_iff_false, !date_leb_spec. lia.
Qed.

Lemma date_leb_trans a b c :
  date_leb a b = true -> date_leb b c = true -> date_leb a c = true.
Proof. rewrite !date_leb_spec. lia. Qed.

Section SelectionFacts.

Import Query.

Lemma get_active_rows objects today date row :
  let date' := match date with None => today | Some d => d end in
  In row (filter (fun row =>
                    match TaxTable.effective_to row with
                    | None => true
                    | Some last => date_leb date' last
                    end)
                 (filter (fun row =>
                            TaxTable.is_active row
                            && date_leb (TaxTable.effective_from row) date')
                         objects))
  <-> In row objects /\ tax_table_in_force date' row = true.
Proof.
  cbv zeta. rewrite filter_filter_In.
  unfold tax_table_in_force, in_window.
  rewrite !andb_true_iff. tauto.
Qed.

Lemma get_active_sound objects today date t :
  let date' := match date with None => today | Some d => d end in
  TaxTable.get_active objects today date = Some t ->
  In t objects
  /\ tax_table_in_force date' t = true
  /\ (forall t', In t' objects -> tax_table_in_force date' t' = true ->
                 date_leb (TaxTable.effective_from t')
                          (TaxTable.effective_from t) = true).
Proof.
  cbv zeta. unfold TaxTable.get_active, TaxTable.ordering. intro F.
  pose proof (first_In _ _ _ F) as I.
  apply order_by_In in I. apply get_active_rows in I.
  destruct I as [I Q]. repeat split; auto.
  intros t' I' Q'.
  refine (order_by_least _ _ _ _ _ _ F t' _).
  - intros a b. apply date_leb_total.
  - intros a b c H1 H2. exact (date_leb_trans _ _ _ H2 H1).
  - apply get_active_rows. auto.
Qed.

Lemma get_active_none objects today date :
  let date' := match date with None => today | Some d => d end in
  TaxTable.get_active objects today date = None
  <-> (forall t, In t objects -> tax_table_in_force date' t = false).
Proof.
  cbv zeta. unfold TaxTable.get_active, TaxTable.ordering.
  rewrite first_None, order_by_nil. split.
  - intros E t I. destruct (tax_table_in_force _ t) eqn:Q; [ | reflexivity ].
    assert (X : In t []) by (rewrite <- E; apply get_active_rows; auto).
    destruct X.
  - intro H.
    match goal with |- ?l = [] => destruct l as [ | t rest ] eqn:E end;
      [ reflexivity | ].
    assert (X : In t (t :: rest)) by now left.
    rewrite <- E in X. apply get_active_rows in X. destruct X as [I Q].
    rewrite (H t I) in Q. discriminate.
Qed.

End SelectionFacts.

(** X14.  [TaxTable.get_active] returns a table that is flagged active and
    whose validity window contains the date (today when no date is given),
    and among those one with the latest start; it returns nothing exactly
    when no table of that kind exists. *)
Theorem get_active_returns_the_latest_table_in_force
        (objects : list TaxTable.t) (today : Date) (date : option Date) :
  let date' := match date with None => today | Some d => d end in
  (forall t,
      TaxTable.get_active objects today date = Some t ->
      In t objects
      /\ Query.tax_table_in_force date' t = true
      /\ (forall t', In t' objects -> Query.tax_table_in_force date' t' = true ->
                     date_leb (TaxTable.effective_from t')
                              (TaxTable.effective_from t) = true))
  /\ (TaxTable.get_active objects today date = None
      <-> (forall t, In t objects -> Query.tax_table_in_force date' t = false)).
Proof.
  cbv zeta. split.
  - intro t. apply get_active_sound.
  - apply get_active_none.
Qed.

(** X15.  When some tax table is in force today, the calculator of a new
    processor takes every one of its values from a table that is in force
    today and starts no earlier than any other such table, whatever the
    year and month of the period it is to process. *)
Theorem processor_reads_the_table_in_force_today
        (d : Database) (today : Date) (period : PayrollPeriod.t)
        (t0 : TaxTable.t) :
  In t0 (tax_tables d) ->
  Query.tax_table_in_force today t0 = true ->
  exists t,
    In t (tax_tables d)
    /\ Query.tax_table_in_force today t = true
    /\ date_leb (TaxTable.effective_from t0) (TaxTable.effective_from t) = true
    /\ (forall key,
           Processor.config_of_tax_table t key
           = Some (Calculator.config
                     (Processor.calculator (fst (Processor.init d today period)))
                     key)).
Proof.
  intros I Q. cbn [Processor.init fst Processor.calculator].
  unfold Processor._get_calculator.
  destruct (TaxTable.get_active (tax_tables d) today None) as [ t | ] eqn:E.
  - destruct (get_active_sound _ _ _ _ E) as (I' & Q' & L).
    exists t. repeat split; auto.
  - pose proof (proj1 (get_active_none (tax_tables d) today None) E t0 I) as X.
    change (Query.tax_table_in_force today t0 = false) in X. congruence.
Qed.

Lemma processor_reads_the_table_in_force_today_witness :
  exists t,
    In t (tax_tables SampleTables.db_taxed)
    /\ Query.tax_table_in_force Sample.today t = true
    /\ date_leb (TaxTable.effective_from SampleTables.table_2024)
                (TaxTable.effective_from t) = true
    /\ (forall key,
           Processor.config_of_tax_table t key
           = Some (Calculator.config
                     (Processor.calculator
                        (fst (Processor.init SampleTables.db_taxed Sample.today
                                             Sample.period_may)))
                     key)).
Proof.
  apply (processor_reads_the_table_in_force_today
           SampleTables.db_taxed Sample.today Sample.period_may
           SampleTables.table_2024).
  - cbn. auto.
  - vm_compute. reflexivity.
Defined.

Section LookupFacts.

Import Query Processor.

Lemma deduction_rows_In d employee date row :
  In row (deduction_rows d employee date)
  <-> In row (employee_deductions d) /\ deduction_valid employee date row = true.
Proof.
  unfold deduction_rows, EmployeeDeduction.ordering.
  rewrite !order_by_In, filter_filter_In.
  unfold deduction_valid, in_window. rewrite !andb_true_iff. tauto.
Qed.

Lemma pension_rows_In d employee date row :
  In row (filter (fun x =>
                    match EmployeeDeduction.effective_to x with
                    | None => true
                    | Some last => date_leb date last
                    end)
                 (filter (fun x =>
                            (EmployeeDeduction.employee x =? User.id employee)%N
                            && String.eqb (EmployeeDeduction.deduction_type x)
                                          DeductionType.PENSION
                            && date_leb (EmployeeDeduction.effective_from x) date
                            && Bool.eqb (EmployeeDeduction.is_pretax x) true)
                         (employee_deductions d)))
  <-> In row (employee_deductions d) /\ pension_qualifies employee date row = true.
Proof.
  rewrite filter_filter_In.
  unfold pension_qualifies, deduction_valid, in_window.
  rewrite !andb_true_iff, eqb_true_iff. tauto.
Qed.

Lemma insurance_rows_In d employee date row :
  In row (filter (fun x =>
                    match EmployeeDeduction.effective_to x with
                    | None => true
                    | Some last => date_leb date last
                    end)
                 (filter (fun x =>
                            (EmployeeDeduction.employee x =? User.id employee)%N
                            && String.eqb (EmployeeDeduction.deduction_type x)
                                          DeductionType.INSURANCE
                            && date_leb (EmployeeDeduction.effective_from x) date)
                         (employee_deductions d)))
  <-> In row (employee_deductions d)
      /\ insurance_qualifies employee date row = true.
Proof.
  rewrite filter_filter_In.
  unfold insurance_qualifies, deduction_valid, in_window.
  rewrite !andb_true_iff. tauto.
Qed.

(** A query that ends in [first] finds a row of the selection, and finds
    none only when the selection is empty. *)
Lemma first_of_selection (A : Type) (ordering : list A -> list A)
      (rows : list A) (selected : A -> Prop) :
  (forall l x, In x (ordering l) <-> In x l) ->
  (forall x, In x rows <-> selected x) ->
  match first (ordering rows) with
  | Some x => selected x
  | None => forall x, ~ selected x
  end.
Proof.
  intros O S. destruct (first (ordering rows)) as [ x | ] eqn:F.
  - apply S, O. now apply first_In.
  - intros x H. apply S, O in H. apply first_None in F.
    rewrite F in H. destruct H.
Qed.

Lemma deduction_ordering_In (l : list EmployeeDeduction.t) x :
  In x (EmployeeDeduction.ordering l) <-> In x l.
Proof. unfold EmployeeDeduction.ordering. now rewrite !order_by_In. Qed.

Lemma active_employees_In d u :
  In u (get_active_employees d) <-> In u (users d) /\ on_payroll u = true.
Proof.
  unfold get_active_employees, User.ordering.
  rewrite !order_by_In, filter_In. unfold on_payroll.
  rewrite !andb_true_iff, eqb_true_iff. tauto.
Qed.

End LookupFacts.

(** X16.  The dictionary of an employee's deductions has one item per
    name: under a name it holds the amount and type of the last selected
    row of that name, so an earlier row that shares its name with a later
    one is left out; a name that no selected row carries is absent, the
    keys are distinct and there are at most as many items as rows. *)
Theorem deductions_are_keyed_by_name_and_the_last_row_wins
        (d : Database) (employee : User.t) (period_date : Date) :
  let rows := Processor.deduction_rows d employee period_date in
  let deductions := Processor.get_employee_deductions d employee period_date in
  (forall name,
      dict_get deductions name
      = option_map Query.deduction_item (Query.last_named name rows))
  /\ (forall row,
         In row rows <->
         In row (employee_deductions d)
         /\ Query.deduction_valid employee period_date row = true)
  /\ NoDup (map fst deductions)
  /\ (List.length deductions <= List.length rows)%nat.
Proof.
  cbv zeta. unfold Processor.get_employee_deductions.
  split; [ | split; [ | split ] ].
  - intro name.
    rewrite (dict_fill_last _ _ EmployeeDeduction.name Query.deduction_item).
    unfold Query.last_named. now destruct (find _ _).
  - intro row. apply deduction_rows_In.
  - apply (dict_fill_NoDup _ _ EmployeeDeduction.name Query.deduction_item).
    constructor.
  - pose proof (dict_fill_length _ _ EmployeeDeduction.name Query.deduction_item
                  (Processor.deduction_rows d employee period_date) []) as H.
    cbn [List.length] in H. unfold Query.deduction_item in H. lia.
Qed.

(** X17.  The pension contribution is the amount of a row of the employee
    that is of type pension, pretax and valid on the date, and 0 when
    there is no such row; the insurance premium is the amount of a row of
    the employee that is of type insurance and valid on the date, pretax
    or not, and 0 when there is none. *)
Theorem pension_and_premium_come_from_qualifying_rows
        (d : Database) (employee : User.t) (period_date : Date) :
  match Processor.pension_row d employee period_date with
  | Some row =>
      In row (employee_deductions d)
      /\ Query.pension_qualifies employee period_date row = true
      /\ Processor.get_pension_contribution d employee period_date
         = EmployeeDeduction.amount row
  | None =>
      (forall row, In row (employee_deductions d) ->
                   Query.pension_qualifies employee period_date row = false)
      /\ Processor.get_pension_contribution d employee period_date = 0
  end
  /\ match Processor.insurance_row d employee period_date with
     | Some row =>
         In row (employee_deductions d)
         /\ Query.insurance_qualifies employee period_date row = true
         /\ Processor.get_insurance_premium d employee period_date
            = EmployeeDeduction.amount row
     | None =>
         (forall row, In row (employee_deductions d) ->
                      Query.insurance_qualifies employee period_date row = false)
         /\ Processor.get_insurance_premium d employee period_date = 0
     end.
Proof.
  split.
  - unfold Processor.get_pension_contribution, Processor.pension_row.
    match goal with
    | |- context [first (EmployeeDeduction.ordering ?l)] =>
        pose proof (first_of_selection _ EmployeeDeduction.ordering l
                      (fun row => In row (employee_deductions d)
                                  /\ Query.pension_qualifies employee period_date row
                                     = true)
                      deduction_ordering_In
                      (pension_rows_In d employee period_date)) as H;
        destruct (first (EmployeeDeduction.ordering l)) as [ row | ]
    end.
    + destruct H. auto.
    + split; [ | reflexivity ]. intros row I.
      destruct (Query.pension_qualifies _ _ row) eqn:Q; [ | reflexivity ].
      destruct (H row). auto.
  - unfold Processor.get_insurance_premium, Processor.insurance_row.
    match goal with
    | |- context [first (EmployeeDeduction.ordering ?l)] =>
        pose proof (first_of_selection _ EmployeeDeduction.ordering l
                      (fun row => In row (employee_deductions d)
                                  /\ Query.insurance_qualifies employee
                                       period_date row = true)
                      deduction_ordering_In
                      (insurance_rows_In d employee period_date)) as H;
        destruct (first (EmployeeDeduction.ordering l)) as [ row | ]
    end.
    + destruct H. auto.
    + split; [ | reflexivity ]. intros row I.
      destruct (Query.insurance_qualifies _ _ row) eqn:Q; [ | reflexivity ].
      destruct (H row). auto.
Qed.

(** ** What the processor writes *)

Section WriteFacts.

Import Query Processor.

Lemma filter_implied (A : Type) (p q : A -> bool) (l : list A) :
  (forall x, p x = true -> q x = true) ->
  filter p (filter q l) = filter p l.
Proof.
  intro H. induction l as [ | x l IH ]; cbn; [ reflexivity | ].
  destruct (q x) eqn:Q; cbn.
  - destruct (p x); now rewrite IH.
  - destruct (p x) eqn:P; [ | exact IH ].
    rewrite (H x P) in Q. discriminate.
Qed.

(** [update_or_create] leaves one entry under the key, made from the row
    that was there or from a new row, and every other row in its place. *)
Lemma upsert_frame rows period employee defaults rows' entry :
  upsert rows period employee defaults = Ok (rows', entry) ->
  let key := is_entry_of period employee in
  filter key rows' = [entry]
  /\ filter (fun row => negb (key row)) rows'
     = filter (fun row => negb (key row)) rows
  /\ exists old,
      entry = apply_defaults old defaults
      /\ (filter key rows = [old] /\ List.length rows' = List.length rows
          \/ filter key rows = [] /\ old = new_entry period employee
             /\ List.length rows' = S (List.length rows)).
Proof.
  unfold upsert. cbv zeta.
  destruct (filter (is_entry_of period employee) rows)
    as [ | found [ | ? ? ] ] eqn:F; intro H; inversion H; subst; clear H.
  - rewrite !filter_app, F. cbn [filter app].
    rewrite is_entry_of_defaults, is_entry_of_new, N.eqb_refl. cbn [negb].
    rewrite app_nil_r. repeat split.
    exists (new_entry period employee). split; [ reflexivity | right ].
    rewrite length_app. cbn. repeat split. lia.
  - assert (K : is_entry_of period employee found = true).
    { assert (In found (filter (is_entry_of period employee) rows))
        as I by (rewrite F; now left).
      now apply filter_In in I. }
    split; [ | split ].
    + rewrite filter_map_same.
      * rewrite F. cbn [map]. now rewrite K.
      * intro x. destruct (is_entry_of period employee x) eqn:E;
          [ now rewrite is_entry_of_defaults | exact E ].
    + apply filter_map_fixed.
      * intro x. destruct (is_entry_of period employee x) eqn:E; cbv iota;
          rewrite ?is_entry_of_defaults, E; reflexivity.
      * intros x E. now destruct (is_entry_of period employee x).
    + exists found. split; [ reflexivity | left ].
      split; [ reflexivity | apply length_map ].
Qed.

Lemma upsert_keeps rows period employee defaults rows' entry
      (keep : PayrollEntry.t -> bool) :
  upsert rows period employee defaults = Ok (rows', entry) ->
  (forall row, keep row = true -> is_entry_of period employee row = false) ->
  filter keep rows' = filter keep rows.
Proof.
  intros H K. destruct (upsert_frame _ _ _ _ _ _ H) as (_ & E & _).
  cbv zeta in E.
  rewrite <- (filter_implied _ keep
                (fun row => negb (is_entry_of period employee row)) rows'),
          <- (filter_implied _ keep
                (fun row => negb (is_entry_of period employee row)) rows).
  - now rewrite E.
  - intros x P. now rewrite (K x P).
  - intros x P. now rewrite (K x P).
Qed.

(** No key is lost by [update_or_create]. *)
Lemma upsert_keys rows period employee defaults rows' entry row :
  upsert rows period employee defaults = Ok (rows', entry) ->
  In row rows ->
  exists row',
    In row' rows'
    /\ PayrollEntry.payroll_period row' = PayrollEntry.payroll_period row
    /\ PayrollEntry.employee row' = PayrollEntry.employee row.
Proof.
  unfold upsert.
  destruct (filter (is_entry_of period employee) rows)
    as [ | found [ | ? ? ] ] eqn:F; intros H I; inversion H; subst; clear H.
  - exists row. rewrite in_app_iff. auto.
  - exists (if is_entry_of period employee row
            then apply_defaults row defaults else row).
    split.
    + apply (in_map (fun row0 => if is_entry_of period employee row0
                                 then apply_defaults row0 defaults else row0)).
      exact I.
    + destruct (is_entry_of period employee row); split; reflexivity.
Qed.

Variable globals : Globals.
Variable self : PayrollProcessor.

Lemma upsert_all_keeps d period employees (keep : PayrollEntry.t -> bool) :
  forall rows rows',
    upsert_all globals self d period employees rows = Ok rows' ->
    (forall row e, In e employees -> keep row = true ->
                   is_entry_of (PayrollPeriod.id period) (User.id e) row = false) ->
    filter keep rows' = filter keep rows.
Proof.
  induction employees as [ | e rest IH ]; cbn [upsert_all]; intros rows rows' H K.
  - now inversion H.
  - destruct (employee_result globals self d period e) as [ result | ? ];
      [ | discriminate ].
    destruct (upsert rows _ _ result) as [ [rows1 entry] | ? ] eqn:U;
      [ | discriminate ].
    rewrite (IH _ _ H) by (intros; apply K; cbn; auto).
    apply (upsert_keeps _ _ _ _ _ _ keep U).
    intros row P. apply K; cbn; auto.
Qed.

Lemma upsert_all_grows d period employees :
  forall rows rows',
    upsert_all globals self d period employees rows = Ok rows' ->
    (List.length rows <= List.length rows')%nat
    /\ forall row, In row rows ->
         exists row',
           In row' rows'
           /\ PayrollEntry.payroll_period row' = PayrollEntry.payroll_period row
           /\ PayrollEntry.employee row' = PayrollEntry.employee row.
Proof.
  induction employees as [ | e rest IH ]; cbn [upsert_all]; intros rows rows' H.
  - inversion H; subst. split; [ lia | ]. intros row I. exists row. auto.
  - destruct (employee_result globals self d period e) as [ result | ? ];
      [ | discriminate ].
    destruct (upsert rows _ _ result) as [ [rows1 entry] | ? ] eqn:U;
      [ | discriminate ].
    destruct (IH _ _ H) as [L K].
    destruct (upsert_frame _ _ _ _ _ _ U) as (_ & _ & old & _ & G).
    split.
    + destruct G as [ [_ G] | (_ & _ & G) ]; lia.
    + intros row I.
      destruct (upsert_keys _ _ _ _ _ _ row U I) as (row1 & I1 & P1 & E1).
      destruct (K row1 I1) as (row' & I' & P' & E').
      exists row'. repeat split; congruence.
Qed.

End WriteFacts.

(** X18.  [process_employee] either raises and leaves the period object
    and every table as they were, or returns an entry and changes the
    table of entries only: afterwards the returned entry is the one entry
    of the period for the employee, every other entry is in its place
    unchanged, and the returned entry is the earlier entry of that key, or
    else a new row, with the calculated fields written into it, so that
    its benefits in kind, overtime, bonus and payslip fields are kept. *)
Theorem process_employee_writes_one_entry_or_nothing
        (globals : Globals) (self : Processor.PayrollProcessor)
        (employee : User.t) (s : Processor.State) :
  match Processor.process_employee globals self employee s with
  | (Raise _, s') => s' = s
  | (Ok entry, s') =>
      let key :=
        Processor.is_entry_of
          (PayrollPeriod.id (Processor.payroll_period s)) (User.id employee) in
      let before := payroll_entries (Processor.db s) in
      let after := payroll_entries (Processor.db s') in
      Processor.payroll_period s' = Processor.payroll_period s
      /\ Processor.db s' = set_payroll_entries (Processor.db s) after
      /\ filter key after = [entry]
      /\ filter (fun row => negb (key row)) after
         = filter (fun row => negb (key row)) before
      /\ exists old result,
          employee_result globals self (Processor.db s)
                          (Processor.payroll_period s) employee = Ok result
          /\ entry = Processor.apply_defaults old result
          /\ (filter key before = [old]
              /\ List.length after = List.length before
              \/ filter key before = []
                 /\ old = Processor.new_entry
                            (PayrollPeriod.id (Processor.payroll_period s))
                            (User.id employee)
                 /\ List.length after = S (List.length before))
          /\ PayrollEntry.benefits_in_kind entry = PayrollEntry.benefits_in_kind old
          /\ PayrollEntry.overtime entry = PayrollEntry.overtime old
          /\ PayrollEntry.bonus entry = PayrollEntry.bonus old
          /\ PayrollEntry.payslip_generated entry
             = PayrollEntry.payslip_generated old
          /\ PayrollEntry.payslip_file entry = PayrollEntry.payslip_file old
  end.
Proof.
  rewrite process_employee_eq.
  destruct (employee_result globals self _ _ employee) as [ result | e ];
    [ | reflexivity ].
  destruct (upsert _ _ _ result) as [ [rows entry] | e ] eqn:U; [ | reflexivity ].
  destruct (upsert_frame _ _ _ _ _ _ U) as (K & F & old & E & G).
  cbv zeta in *. cbn [Processor.payroll_period Processor.db payroll_entries
                      set_payroll_entries].
  repeat split; auto.
  exists old, result. rewrite E. repeat split; auto.
Qed.

(** X19.  A completed [process_all] deletes nothing: the entries of other
    periods and the entries of the period for people outside the active
    workforce are still there, unchanged and in their order, every
    (period, employee) key that had an entry still has one, and the
    tables of users, allowances, deductions and tax tables are as
    before.  The people processed are the users whose employment status is
    active and whose account is active. *)
Theorem process_all_deletes_no_entry
        (globals : Globals) (self : Processor.PayrollProcessor)
        (prepared_by : User.t) (now : DateTime) (s s' : Processor.State)
        (p : PayrollPeriod.t) :
  Processor.process_all globals self prepared_by now s = (Ok p, s') ->
  let period := PayrollPeriod.id (Processor.payroll_period s) in
  let before := payroll_entries (Processor.db s) in
  let after := payroll_entries (Processor.db s') in
  (forall u, In u (Processor.get_active_employees (Processor.db s))
             <-> In u (users (Processor.db s)) /\ Query.on_payroll u = true)
  /\ (forall other,
         other <> period ->
         filter (fun row => (PayrollEntry.payroll_period row =? other)%N) after
         = filter (fun row => (PayrollEntry.payroll_period row =? other)%N) before)
  /\ (forall employee,
         (forall u, In u (users (Processor.db s)) -> Query.on_payroll u = true ->
                    User.id u <> employee) ->
         filter (Processor.is_entry_of period employee) after
         = filter (Processor.is_entry_of period employee) before)
  /\ (forall row,
         In row before ->
         exists row',
           In row' after
           /\ PayrollEntry.payroll_period row' = PayrollEntry.payroll_period row
           /\ PayrollEntry.employee row' = PayrollEntry.employee row)
  /\ (List.length before <= List.length after)%nat
  /\ users (Processor.db s') = users (Processor.db s)
  /\ employee_allowances (Processor.db s') = employee_allowances (Processor.db s)
  /\ employee_deductions (Processor.db s') = employee_deductions (Processor.db s)
  /\ tax_tables (Processor.db s') = tax_tables (Processor.db s).
Proof.
  intro H. cbv zeta.
  destruct (process_all_ok _ _ _ _ _ _ _ H)
    as (rows & U & -> & _ & _ & E1 & E2 & E3 & E4).
  destruct (upsert_all_grows _ _ _ _ _ _ _ U) as [L K].
  split; [ intro u; apply active_employees_In | ].
  split.
  { intros other N.
    apply (upsert_all_keeps _ _ _ _ _ _ _ _ U).
    intros row e _ P. unfold Processor.is_entry_of.
    apply N.eqb_eq in P. rewrite P.
    destruct (N.eqb_spec other (PayrollPeriod.id (Processor.payroll_period s)));
      [ contradiction | reflexivity ]. }
  split.
  { intros employee A.
    apply (upsert_all_other _ _ _ _ _ _ _ _ U).
    intros e I. apply active_employees_In in I. destruct I. auto. }
  repeat split; auto.
Qed.

Lemma process_all_deletes_no_entry_witness :
  let run :=
    Processor.process_all Processor.module_globals
      (Sample.processor Sample.db_unstaffed) Sample.officer 5000%Z
      (Sample.state Sample.db_unstaffed Sample.period_may) in
  is_ok (fst run) = true
  /\ filter (Processor.is_entry_of 100%N 2%N)
            (payroll_entries (Processor.db (snd run)))
     = [Sample.bob_entry].
Proof.
  cbv zeta.
  assert (O : is_ok (fst (Processor.process_all Processor.module_globals
                            (Sample.processor Sample.db_unstaffed)
                            Sample.officer 5000%Z
                            (Sample.state Sample.db_unstaffed Sample.period_may)))
              = true) by (vm_compute; reflexivity).
  split; [ exact O | ].
  destruct (process_all_deletes_no_entry _ _ _ _ _ _ _
              (outcome_ok _ _ _ Sample.period_may O))
    as (_ & _ & K & _).
  cbv zeta in K.
  transitivity
    (filter (Processor.is_entry_of 100%N 2%N)
            (payroll_entries
               (Processor.db (Sample.state Sample.db_unstaffed Sample.period_may))));
    [ | reflexivity ].
  apply (K 2%N).
  intros u [ <- | [ <- | [] ] ]; vm_compute; discriminate.
Defined.

(** ** Saving the period

    The tables are taken to satisfy the uniqueness constraints that the
    models declare (one period per year and month, one entry per period
    and employee), so that the database does not refuse a write. *)

Section SaveFacts.

Import Processor.

Lemma outcome_raised (A S : Type) (r : Result A * S) (e : Exception) :
  fst r = Raise e -> r = (Raise e, snd r).
Proof. destruct r as [x s]. cbn. now intros ->. Qed.

Lemma month_name_out_of_range (p : PayrollPeriod.t) :
  (12 < PayrollPeriod.month p \/ PayrollPeriod.month p < -13)%Z ->
  PayrollPeriod.get_month_name p = Raise (IndexError "list index out of range").
Proof.
  unfold PayrollPeriod.get_month_name, list_index. intro H.
  change (Z.of_nat (List.length PayrollPeriod.months)) with 13%Z.
  destruct (Z.ltb_spec (PayrollPeriod.month p) 0).
  - destruct (Z.leb_spec 0 (PayrollPeriod.month p + 13)); [ lia | reflexivity ].
  - destruct (Z.leb_spec 0 (PayrollPeriod.month p)); [ | lia ].
    destruct (Z.ltb_spec (PayrollPeriod.month p) 13); [ lia | reflexivity ].
Qed.

Lemma month_name_in_range (p : PayrollPeriod.t) :
  (0 <= PayrollPeriod.month p <= 12)%Z ->
  PayrollPeriod.get_month_name p
  = Ok (nth (Z.to_nat (PayrollPeriod.month p)) PayrollPeriod.months "").
Proof.
  unfold PayrollPeriod.get_month_name. intro H.
  assert (C : exists n, (n <= 12)%nat /\ PayrollPeriod.month p = Z.of_nat n).
  { exists (Z.to_nat (PayrollPeriod.month p)). lia. }
  destruct C as (n & L & ->). rewrite Nat2Z.id.
  do 13 (destruct n as [ | n ]; [ reflexivity | ]). lia.
Qed.

Lemma month_name_wraps (p : PayrollPeriod.t) :
  (-13 <= PayrollPeriod.month p < 0)%Z ->
  PayrollPeriod.get_month_name p
  = Ok (nth (Z.to_nat (PayrollPeriod.month p + 13)) PayrollPeriod.months "").
Proof.
  unfold PayrollPeriod.get_month_name. intro H.
  assert (C : exists n, (n <= 12)%nat
                        /\ PayrollPeriod.month p = (Z.of_nat n - 13)%Z).
  { exists (Z.to_nat (PayrollPeriod.month p + 13)). lia. }
  destruct C as (n & L & ->).
  replace (Z.of_nat n - 13 + 13)%Z with (Z.of_nat n) by lia. rewrite Nat2Z.id.
  do 13 (destruct n as [ | n ]; [ reflexivity | ]). lia.
Qed.

Lemma with_name_unnamed (p : PayrollPeriod.t) month_name :
  PayrollPeriod.name p = "" ->
  PayrollPeriod.get_month_name p = Ok month_name ->
  with_name p
  = Ok (PayrollPeriod.set_name
          p (month_name ++ " " ++ str_of_int (PayrollPeriod.year p))).
Proof. unfold with_name. now intros -> ->. Qed.

Lemma with_name_raises (p : PayrollPeriod.t) e :
  with_name p = Raise e ->
  PayrollPeriod.name p = "" /\ e = IndexError "list index out of range".
Proof.
  unfold with_name, PayrollPeriod.get_month_name, list_index.
  destruct (PayrollPeriod.name p); [ | discriminate ].
  destruct (_ && _); [ destruct (nth_error _ _) | ];
    intro H; inversion H; auto.
Qed.

(** The other rows of the table are not touched by a write. *)
Lemma write_period_other rows p row :
  PayrollPeriod.id row <> PayrollPeriod.id p ->
  In row (write_period rows p) <-> In row rows.
Proof.
  intro N. induction rows as [ | row0 rest IH ]; cbn.
  - split; [ intros [ <- | [] ]; congruence | intros [] ].
  - destruct (N.eqb_spec (PayrollPeriod.id row0) (PayrollPeriod.id p)); cbn.
    + split; (intros [ <- | I ]; [ congruence | auto ]).
    + rewrite IH. tauto.
Qed.

Lemma saved_named (p : PayrollPeriod.t) (s : State) :
  PayrollPeriod.name p <> "" ->
  saved p s
  = (Ok p,
     {| payroll_period := p;
        db := set_payroll_periods
                (db s) (write_period (payroll_periods (db s)) p) |}).
Proof. intro N. unfold saved. now rewrite with_name_named. Qed.

End SaveFacts.

(** X20.  [PayrollPeriod.save] gives a period without a name the name
    of its month and its year: for a month from 1 to 12 the month's name,
    a space and the year; for month 0 a space and the year; a negative
    month down to -13 counts from the end of the list of names.  For any
    other month of an integer field it raises [IndexError] and nothing is
    written.  A period
    that has a name is stored as it is.  After a save the stored row of
    that id is the period object, and the rows of other ids are the same
    as before. *)
Theorem save_names_an_unnamed_period (s : Processor.State) :
  let p := Processor.payroll_period s in
  let stored p' :=
    Processor.save s
    = (Ok tt,
       {| Processor.payroll_period := p';
          Processor.db :=
            set_payroll_periods
              (Processor.db s)
              (Processor.write_period (payroll_periods (Processor.db s)) p') |}) in
  let named month_name :=
    PayrollPeriod.set_name
      p (month_name ++ " " ++ str_of_int (PayrollPeriod.year p)) in
  (PayrollPeriod.name p <> "" -> stored p)
  /\ (PayrollPeriod.name p = "" ->
      (0 <= PayrollPeriod.month p <= 12)%Z ->
      stored (named (nth (Z.to_nat (PayrollPeriod.month p))
                         PayrollPeriod.months "")))
  /\ (PayrollPeriod.name p = "" ->
      (-13 <= PayrollPeriod.month p < 0)%Z ->
      stored (named (nth (Z.to_nat (PayrollPeriod.month p + 13))
                         PayrollPeriod.months "")))
  /\ (PayrollPeriod.name p = "" ->
      Query.integer_field (PayrollPeriod.month p) ->
      (12 < PayrollPeriod.month p \/ PayrollPeriod.month p < -13)%Z ->
      Processor.save s = (Raise (IndexError "list index out of range"), s))
  /\ (forall s',
         Processor.save s = (Ok tt, s') ->
         In (Processor.payroll_period s') (payroll_periods (Processor.db s'))
         /\ PayrollPeriod.name (Processor.payroll_period s') <> ""
         /\ payroll_entries (Processor.db s') = payroll_entries (Processor.db s)
         /\ forall row,
             PayrollPeriod.id row <> PayrollPeriod.id p ->
             (In row (payroll_periods (Processor.db s'))
              <-> In row (payroll_periods (Processor.db s)))).
Proof.
  cbv zeta. rewrite save_eq.
  split; [ | split; [ | split; [ | split ] ] ].
  - intro N. rewrite with_name_named by exact N. reflexivity.
  - intros E M.
    now rewrite (with_name_unnamed _ _ E (month_name_in_range _ M)).
  - intros E M.
    now rewrite (with_name_unnamed _ _ E (month_name_wraps _ M)).
  - intros E _ M. unfold with_name.
    now rewrite E, (month_name_out_of_range _ M).
  - intros s' H.
    destruct (with_name (Processor.payroll_period s)) as [ p2 | e ] eqn:W;
      [ | discriminate ].
    destruct (with_name_fields _ _ W) as (I & _ & _ & _ & _ & _ & _ & N).
    inversion H; subst; clear H.
    cbn [Processor.payroll_period Processor.db payroll_periods payroll_entries
         set_payroll_periods].
    repeat split; auto.
    + apply write_period_In.
    + apply write_period_other. congruence.
    + apply write_period_other. congruence.
Qed.

(** X21.  When [process_all] raises, the tables are as they were before
    the call.  The period object is as it was too, unless the exception is
    the [IndexError] of saving an unnamed period: then the object keeps
    the stamp and the totals that were assigned to it, so its status is
    [PENDING_HR] although nothing was stored.  This happens for an unnamed
    period with a month above 12 and an empty active workforce. *)
Theorem failed_process_all_rolls_back_the_tables_only
        (globals : Globals) (self : Processor.PayrollProcessor)
        (prepared_by : User.t) (now : DateTime) (s : Processor.State) :
  (forall e s',
      Processor.process_all globals self prepared_by now s = (Raise e, s') ->
      Processor.db s' = Processor.db s
      /\ (Processor.payroll_period s' = Processor.payroll_period s
          \/ (exists message, e = IndexError message)
             /\ PayrollPeriod.name (Processor.payroll_period s) = ""
             /\ PayrollPeriod.status (Processor.payroll_period s')
                = Status.PENDING_HR
             /\ PayrollPeriod.prepared_by (Processor.payroll_period s')
                = Some (User.id prepared_by)))
  /\ (Processor.get_active_employees (Processor.db s) = [] ->
      PayrollPeriod.name (Processor.payroll_period s) = "" ->
      Query.integer_field (PayrollPeriod.month (Processor.payroll_period s)) ->
      (12 < PayrollPeriod.month (Processor.payroll_period s))%Z ->
      exists s',
        Processor.process_all globals self prepared_by now s
        = (Raise (IndexError "list index out of range"), s')
        /\ Processor.db s' = Processor.db s
        /\ PayrollPeriod.status (Processor.payroll_period s') = Status.PENDING_HR
        /\ PayrollPeriod.prepared_by (Processor.payroll_period s')
           = Some (User.id prepared_by)).
Proof.
  rewrite process_all_eq. split.
  - intros e s'.
    destruct (upsert_all _ _ _ _ _ _) as [ rows | e0 ].
    + cbv zeta.
      destruct (with_name _) as [ p2 | e1 ] eqn:W; [ discriminate | ].
      intro H. inversion H; subst; clear H.
      cbn [Processor.payroll_period Processor.db].
      split; [ reflexivity | right ].
      destruct (with_name_raises _ _ W) as [N ->].
      split; [ eexists; reflexivity | ]. repeat split. exact N.
    + intro H. inversion H; subst. auto.
  - intros A N _ M. rewrite A. cbn [upsert_all]. cbv zeta.
    unfold with_name at 1.
    change (PayrollPeriod.name (stamped _ _ _ _))
      with (PayrollPeriod.name (Processor.payroll_period s)).
    rewrite N.
    rewrite month_name_out_of_range by (left; exact M).
    eexists. split; [ reflexivity | ].
    cbn [Processor.payroll_period Processor.db].
    repeat split.
Qed.

(** ** The approval workflow *)

(** X22.  On a named period that is pending HR approval, [approve_hr]
    followed by [approve_management] completes and leaves the period
    approved, with both approvers, both times and both comments as given
    (the HR comments replace what the field held), the preparer, the
    totals and the table of entries untouched, and the stored row equal to
    the object returned.  After each step the step cannot be repeated: it
    raises [ValueError]. *)
Theorem approvals_run_in_order_and_only_once
        (hr manager : User.t) (hr_note mgmt_note : string)
        (hr_time mgmt_time : DateTime) (s : Processor.State) :
  PayrollPeriod.status (Processor.payroll_period s) = Status.PENDING_HR ->
  PayrollPeriod.name (Processor.payroll_period s) <> "" ->
  exists p1 s1 p2 s2,
    Processor.approve_hr hr hr_note hr_time s = (Ok p1, s1)
    /\ Processor.approve_management manager mgmt_note mgmt_time s1 = (Ok p2, s2)
    /\ PayrollPeriod.status p1 = Status.PENDING_MANAGEMENT
    /\ PayrollPeriod.status p2 = Status.APPROVED
    /\ PayrollPeriod.hr_approved_by p2 = Some (User.id hr)
    /\ PayrollPeriod.hr_approved_at p2 = Some hr_time
    /\ PayrollPeriod.hr_comments p2 = hr_note
    /\ PayrollPeriod.mgmt_approved_by p2 = Some (User.id manager)
    /\ PayrollPeriod.mgmt_approved_at p2 = Some mgmt_time
    /\ PayrollPeriod.mgmt_comments p2 = mgmt_note
    /\ PayrollPeriod.prepared_by p2
       = PayrollPeriod.prepared_by (Processor.payroll_period s)
    /\ totals p2 = totals (Processor.payroll_period s)
    /\ payroll_entries (Processor.db s2) = payroll_entries (Processor.db s)
    /\ Processor.payroll_period s2 = p2
    /\ In p2 (payroll_periods (Processor.db s2))
    /\ Processor.approve_hr hr hr_note hr_time s1
       = (Raise (ValueError "Payroll is not pending HR approval"), s1)
    /\ Processor.approve_management manager mgmt_note mgmt_time s2
       = (Raise (ValueError "Payroll is not pending management approval"), s2)
    /\ Processor.approve_management manager mgmt_note mgmt_time s
       = (Raise (ValueError "Payroll is not pending management approval"), s).
Proof.
  intros P N.
  set (p1 := PayrollPeriod.set_status
               (PayrollPeriod.set_hr_comments
                  (PayrollPeriod.set_hr_approved
                     (Processor.payroll_period s) (Some (User.id hr))
                     (Some hr_time))
                  hr_note)
               Status.PENDING_MANAGEMENT).
  set (s1 := {| Processor.payroll_period := p1;
                Processor.db :=
                  set_payroll_periods
                    (Processor.db s)
                    (Processor.write_period
                       (payroll_periods (Processor.db s)) p1) |}).
  set (p2 := PayrollPeriod.set_status
               (PayrollPeriod.set_mgmt_comments
                  (PayrollPeriod.set_mgmt_approved
                     p1 (Some (User.id manager)) (Some mgmt_time))
                  mgmt_note)
               Status.APPROVED).
  set (s2 := {| Processor.payroll_period := p2;
                Processor.db :=
                  set_payroll_periods
                    (Processor.db s1)
                    (Processor.write_period
                       (payroll_periods (Processor.db s1)) p2) |}).
  assert (H1 : Processor.approve_hr hr hr_note hr_time s = (Ok p1, s1)).
  { rewrite approve_hr_eq, P. cbn [Status.eqb negb].
    apply saved_named. exact N. }
  assert (H2 : Processor.approve_management manager mgmt_note mgmt_time s1
               = (Ok p2, s2)).
  { rewrite approve_management_eq. cbn [Status.eqb negb].
    apply (saved_named p2 s1). exact N. }
  exists p1, s1, p2, s2.
  split; [ exact H1 | ]. split; [ exact H2 | ].
  do 12 (split; [ reflexivity | ]).
  split; [ apply write_period_In | ].
  split; [ now rewrite approve_hr_eq | ].
  split; [ now rewrite approve_management_eq | ].
  rewrite approve_management_eq, P. reflexivity.
Qed.

Lemma approvals_run_in_order_and_only_once_witness :
  exists p1 s1 p2 s2,
    Processor.approve_hr Sample.officer "checked" 6000%Z
      (Sample.state Sample.db_unstaffed SampleTables.period_may_pending)
    = (Ok p1, s1)
    /\ Processor.approve_management Sample.officer "approved" 7000%Z s1
       = (Ok p2, s2)
    /\ PayrollPeriod.status p2 = Status.APPROVED.
Proof.
  destruct (approvals_run_in_order_and_only_once
              Sample.officer Sample.officer "checked" "approved" 6000%Z 7000%Z
              (Sample.state Sample.db_unstaffed SampleTables.period_may_pending)
              ltac:(reflexivity) ltac:(cbn; discriminate))
    as (p1 & s1 & p2 & s2 & H1 & H2 & _ & A & _).
  exists p1, s1, p2, s2. auto.
Defined.

(** X23.  [reject] on a named period returns it to draft and keeps its
    history: the note "Rejected by <name>: <comments>" becomes the HR
    comments when there were none and is appended after a blank line
    otherwise, so that earlier comments stay in front; the approval times
    are cleared with the approvers, while the preparer, the management
    comments, the totals and the table of entries stay as they were. *)
Theorem reject_keeps_the_history_and_the_entries
        (rejected_by : User.t) (comments : string) (s : Processor.State) :
  PayrollPeriod.name (Processor.payroll_period s) <> "" ->
  let old := Processor.payroll_period s in
  let note :=
    ("Rejected by " ++ User.get_full_name rejected_by ++ ": " ++ comments)%string in
  exists p s',
    Processor.reject rejected_by comments s = (Ok p, s')
    /\ PayrollPeriod.hr_comments p
       = match PayrollPeriod.hr_comments old with
         | EmptyString => note
         | previous =>
             (previous ++ Processor.newline ++ Processor.newline ++ note)%string
         end
    /\ PayrollPeriod.hr_comments p <> ""
    /\ PayrollPeriod.status p = Status.DRAFT
    /\ PayrollPeriod.hr_approved_at p = None
    /\ PayrollPeriod.mgmt_approved_at p = None
    /\ PayrollPeriod.prepared_by p = PayrollPeriod.prepared_by old
    /\ PayrollPeriod.prepared_at p = PayrollPeriod.prepared_at old
    /\ PayrollPeriod.mgmt_comments p = PayrollPeriod.mgmt_comments old
    /\ totals p = totals old
    /\ payroll_entries (Processor.db s') = payroll_entries (Processor.db s)
    /\ Processor.payroll_period s' = p
    /\ In p (payroll_periods (Processor.db s')).
Proof.
  intro N. cbv zeta. rewrite reject_eq.
  assert (N' : PayrollPeriod.name
                 (rejected (Processor.payroll_period s) rejected_by comments)
               <> "").
  { unfold rejected. cbn.
    destruct (PayrollPeriod.hr_comments (Processor.payroll_period s)); exact N. }
  rewrite saved_named by exact N'.
  do 2 eexists. split; [ reflexivity | ].
  cbn [Processor.payroll_period Processor.db payroll_entries payroll_periods
       set_payroll_periods].
  unfold rejected. cbn.
  destruct (PayrollPeriod.hr_comments (Processor.payroll_period s)) eqn:E; cbn;
    repeat split; try discriminate; try apply write_period_In.
Qed.

Lemma reject_keeps_the_history_and_the_entries_witness :
  exists p s',
    Processor.reject Sample.officer "late change"
      (Sample.state Sample.db_unstaffed Sample.period_may_approved)
    = (Ok p, s')
    /\ PayrollPeriod.hr_comments p = "Rejected by Carol Njeri: late change"
    /\ payroll_entries (Processor.db s') = [Sample.bob_entry].
Proof.
  destruct (reject_keeps_the_history_and_the_entries
              Sample.officer "late change"
              (Sample.state Sample.db_unstaffed Sample.period_may_approved)
              ltac:(cbn; discriminate))
    as (p & s' & H & C & _ & _ & _ & _ & _ & _ & _ & _ & E & _).
  exists p, s'. repeat split; auto.
Defined.

(** ** The period date *)

Section PeriodDateFacts.

Import Processor.

Lemma datetime_date_invalid (y m : Z) :
  (m < 1 \/ 12 < m \/ y < 1 \/ 9999 < y)%Z ->
  exists message, datetime_date y m 1 = Raise (ValueError message).
Proof.
  intro H. unfold datetime_date.
  destruct (Z.leb_spec 1 y), (Z.leb_spec y 9999); cbn [andb negb];
    try (eexists; reflexivity).
  destruct (Z.leb_spec 1 m), (Z.leb_spec m 12); cbn [andb negb];
    try (eexists; reflexivity).
  lia.
Qed.

Lemma employee_result_invalid globals self d period employee :
  (PayrollPeriod.month period < 1 \/ 12 < PayrollPeriod.month period
   \/ PayrollPeriod.year period < 1 \/ 9999 < PayrollPeriod.year period)%Z ->
  exists message,
    employee_result globals self d period employee = Raise (ValueError message).
Proof.
  intro H. unfold employee_result.
  destruct (datetime_date_invalid _ _ H) as [message ->]. now exists message.
Qed.

End PeriodDateFacts.

(** X24.  A period whose year and month, values of integer fields, do
    not make a date (a month outside 1..12 or a year outside 1..9999)
    cannot be processed for
    anybody: [process_employee] raises [ValueError] before any lookup, and
    so does [process_all] when there is an active employee, with the
    period object and the tables left as they were.  The date is only
    built for an employee, though: with no active employee [process_all]
    completes on such a period, if it has a name, and stamps it
    [PENDING_HR]. *)
Theorem invalid_period_date_is_found_per_employee
        (globals : Globals) (self : Processor.PayrollProcessor)
        (prepared_by : User.t) (now : DateTime) (s : Processor.State) :
  let period := Processor.payroll_period s in
  Query.integer_field (PayrollPeriod.year period) ->
  Query.integer_field (PayrollPeriod.month period) ->
  (PayrollPeriod.month period < 1 \/ 12 < PayrollPeriod.month period
   \/ PayrollPeriod.year period < 1 \/ 9999 < PayrollPeriod.year period)%Z ->
  (forall employee,
      exists message,
        Processor.process_employee globals self employee s
        = (Raise (ValueError message), s))
  /\ (Processor.get_active_employees (Processor.db s) <> [] ->
      exists message,
        Processor.process_all globals self prepared_by now s
        = (Raise (ValueError message), s))
  /\ (Processor.get_active_employees (Processor.db s) = [] ->
      PayrollPeriod.name period <> "" ->
      exists p s',
        Processor.process_all globals self prepared_by now s = (Ok p, s')
        /\ PayrollPeriod.status p = Status.PENDING_HR
        /\ PayrollPeriod.month p = PayrollPeriod.month period
        /\ PayrollPeriod.year p = PayrollPeriod.year period).
Proof.
  cbv zeta. intros _ _ H. split; [ | split ].
  - intro employee. rewrite process_employee_eq.
    destruct (employee_result_invalid globals self (Processor.db s) _ employee H)
      as [message ->].
    now exists message.
  - intro A.
    destruct (Processor.get_active_employees (Processor.db s))
      as [ | employee rest ] eqn:E; [ congruence | ].
    destruct (employee_result_invalid globals self (Processor.db s) _ employee H)
      as [message R].
    exists message. apply process_all_loop_raises.
    rewrite E. cbn [upsert_all]. now rewrite R.
  - intros A N. rewrite process_all_eq, A. cbn [upsert_all]. cbv zeta.
    rewrite with_name_named by exact N.
    do 2 eexists. repeat split.
Qed.

Lemma invalid_period_date_is_found_per_employee_witness :
  exists message,
    Processor.process_all Sample.globals_with_models
      (Sample.processor Sample.db_staffed) Sample.officer 5000%Z
      (Sample.state Sample.db_staffed (SampleTables.period_unnamed 13))
    = (Raise (ValueError message),
       Sample.state Sample.db_staffed (SampleTables.period_unnamed 13)).
Proof.
  apply (invalid_period_date_is_found_per_employee
           Sample.globals_with_models (Sample.processor Sample.db_staffed)
           Sample.officer 5000%Z
           (Sample.state Sample.db_staffed (SampleTables.period_unnamed 13))).
  - unfold Query.integer_field. cbn. lia.
  - unfold Query.integer_field. cbn. lia.
  - cbn. lia.
  - vm_compute. discriminate.
Defined.
